(** * Financial sentiment analyst: the sentiment-aggregation pipeline

    A shallow embedding of [financial_agent/analyzer.py]: the per-article
    classifier ([analyze_article_sentiment], [_parse_sentiment_response],
    [_rate_limit]) and the report synthesiser ([generate_final_report],
    [_determine_overall_sentiment], [_generate_bull_bear_cases],
    [_create_default_bull_bear_cases], [_create_empty_report]).

    Modelling conventions.
    - Python [str] is [string], holding the UTF-8 encoding of the text;
      [len] and [s[:n]] count characters; the other string methods the
      analyzer uses ([strip], [find], [rfind], [in], slices between found
      positions, [title]) are written out for the ASCII range.
    - Clock readings and durations are rationals.  A percentage is held
      twice: [percentage] is the exact value of [(count / total) * 100],
      on which the comparisons of [_determine_overall_sentiment] are
      modelled, and [percentage_double] is the IEEE double Python stores,
      with its two roundings.
    - A decoded JSON document, and more generally any Python object the
      analyzer stores without looking at its type, is a [Json] value.
    - A [dict] whose iteration order matters ([Counter], the percentage
      table) is an association list in insertion order.
    - Exceptions are explicit: effectful code lives in a state-and-error
      monad over the analyzer instance and its environment (clock, text
      generation service, log of the calls issued). *)

From Stdlib Require Import String Ascii List Bool Arith ZArith QArith Lia Lqa.
From Stdlib Require PrimFloat Uint63.
Import ListNotations.

Set Warnings "-register-all".

Local Open Scope string_scope.
Local Open Scope Z_scope.

(** ** Python exceptions and results *)

Inductive Exn : Type :=
| JSONDecodeError
| KeyError
| TypeError
| AttributeError
| ValueError
| ServiceError.

Inductive Result (A : Type) : Type :=
| Ok (a : A)
| Raise (e : Exn).

Arguments Ok {A} a.
Arguments Raise {A} e.

Definition rbind {A B} (r : Result A) (k : A -> Result B) : Result B :=
  match r with
  | Ok a => k a
  | Raise e => Raise e
  end.

(** ** Python string methods *)

Module PyStr.

(** [str.isspace] on one ASCII character: TAB, LF, VT, FF, CR, the four
    separators FS GS RS US, and the space. *)
Definition isspace (c : ascii) : bool :=
  let n := nat_of_ascii c in
  (((9 <=? n) && (n <=? 13)) || ((28 <=? n) && (n <=? 32)))%nat.

Definition isupper (c : ascii) : bool :=
  let n := nat_of_ascii c in ((65 <=? n) && (n <=? 90))%nat.

Definition islower (c : ascii) : bool :=
  let n := nat_of_ascii c in ((97 <=? n) && (n <=? 122))%nat.

Definition iscased (c : ascii) : bool := isupper c || islower c.

Definition upper (c : ascii) : ascii :=
  if islower c then ascii_of_nat (nat_of_ascii c - 32) else c.

Definition lower (c : ascii) : ascii :=
  if isupper c then ascii_of_nat (nat_of_ascii c + 32) else c.

Fixpoint lstrip (s : string) : string :=
  match s with
  | EmptyString => EmptyString
  | String c s' => if isspace c then lstrip s' else s
  end.

Fixpoint rstrip (s : string) : string :=
  match s with
  | EmptyString => EmptyString
  | String c s' =>
      match rstrip s' with
      | EmptyString => if isspace c then EmptyString else String c EmptyString
      | r => String c r
      end
  end.

Definition strip (s : string) : string := rstrip (lstrip s).

(** The number of bytes of [s], the unit in which [find], [rfind] and the
    bounds of a slice count. *)
Definition len (s : string) : Z := Z.of_nat (String.length s).

(** A string holds the UTF-8 encoding of a text.  A character is a byte
    that is not a continuation byte ([10xxxxxx]), together with the
    continuation bytes that follow it. *)
Definition is_continuation (c : ascii) : bool :=
  let n := nat_of_ascii c in ((128 <=? n) && (n <? 192))%nat.

(** The number of characters of [s]: what Python's [len(s)] counts. *)
Fixpoint char_count (s : string) : nat :=
  match s with
  | EmptyString => O
  | String c s' => if is_continuation c then char_count s' else S (char_count s')
  end.

Fixpoint drop (n : nat) (s : string) : string :=
  match n, s with
  | O, _ => s
  | S n', String _ s' => drop n' s'
  | S _, EmptyString => EmptyString
  end.

(** Lowest index at which [sub] occurs in [s], counted from [i], the index
    of the first character of [s] in the whole text; [-1] when there is
    none. *)
Fixpoint find_aux (sub s : string) (i : Z) : Z :=
  if prefix sub s then i
  else match s with
       | EmptyString => -1
       | String _ s' => find_aux sub s' (i + 1)
       end.

(** [s.find(sub, start)] for [0 <= start]. *)
Definition find (sub s : string) (start : Z) : Z :=
  if len s <? start then -1
  else find_aux sub (drop (Z.to_nat start) s) start.

(** Highest index at which [sub] occurs in [s]; [-1] when there is none. *)
Fixpoint rfind_aux (sub s : string) (i : Z) : Z :=
  match s with
  | EmptyString => if prefix sub s then i else -1
  | String _ s' =>
      let r := rfind_aux sub s' (i + 1) in
      if 0 <=? r then r else if prefix sub s then i else -1
  end.

Definition rfind (sub s : string) : Z := rfind_aux sub s 0.

(** [sub in s]. *)
Definition contains (sub s : string) : bool := 0 <=? find sub s 0.

(** One bound of a slice: a negative index counts from the end, and the
    result is clamped to [0 .. len]. *)
Definition clamp (n i : Z) : Z :=
  let j := if i <? 0 then i + n else i in
  Z.max 0 (Z.min n j).

(** [s[a:b]]. *)
Definition slice (s : string) (a b : Z) : string :=
  let a' := clamp (len s) a in
  let b' := clamp (len s) b in
  substring (Z.to_nat a') (Z.to_nat (b' - a')) s.

(** [s[:n]] for [0 <= n]: the first [n] characters of [s], each with its
    continuation bytes. *)
Fixpoint take (n : nat) (s : string) : string :=
  match s with
  | EmptyString => EmptyString
  | String c s' =>
      if is_continuation c then String c (take n s')
      else match n with
           | O => EmptyString
           | S n' => String c (take n' s')
           end
  end.

(** [str.title]: a character that follows a cased one is lowered, any other
    is raised. *)
Fixpoint title_aux (previous_is_cased : bool) (s : string) : string :=
  match s with
  | EmptyString => EmptyString
  | String c s' =>
      String (if previous_is_cased then lower c else upper c)
             (title_aux (iscased c) s')
  end.

Definition title (s : string) : string := title_aux false s.

(** [sep.join(parts)]. *)
Fixpoint join (sep : string) (parts : list string) : string :=
  match parts with
  | [] => EmptyString
  | [p] => p
  | p :: rest => p ++ sep ++ join sep rest
  end.

(** The double quote, and a reader for literals that are written with
    apostrophes where the text has double quotes. *)
Definition dquote : ascii := ascii_of_nat 34.

Fixpoint quoted (s : string) : string :=
  match s with
  | EmptyString => EmptyString
  | String c s' =>
      String (if Ascii.eqb c "'"%char then dquote else c) (quoted s')
  end.

Definition newline : string := String (ascii_of_nat 10) EmptyString.

End PyStr.

(** ** JSON documents *)

Inductive Json : Type :=
| JNull
| JBool (b : bool)
| JNum (q : Q)
| JStr (s : string)
| JArr (items : list Json)
| JObj (fields : list (string * Json)).

(** Dictionaries in insertion order. *)
Module Dict.

Section Ops.
Context {V : Type}.

Fixpoint get (k : string) (d : list (string * V)) : option V :=
  match d with
  | [] => None
  | (k', v) :: d' => if String.eqb k k' then Some v else get k d'
  end.

(** [d[k] = v]: an existing key keeps its place. *)
Fixpoint set (k : string) (v : V) (d : list (string * V)) : list (string * V) :=
  match d with
  | [] => [(k, v)]
  | (k', v') :: d' =>
      if String.eqb k k' then (k, v) :: d' else (k', v') :: set k v d'
  end.

Definition mem (k : string) (d : list (string * V)) : bool :=
  match get k d with Some _ => true | None => false end.

Definition keys (d : list (string * V)) : list string := map fst d.


End Ops.

End Dict.

(** Python's view of a decoded document: truth value, [in], subscript by a
    text key, the [get] method, and the receiver of a [str] method. *)
Module PyObj.

Definition Qis_zero (q : Q) : bool := Qeq_bool q 0.

Definition truthy (j : Json) : bool :=
  match j with
  | JNull => false
  | JBool b => b
  | JNum q => negb (Qis_zero q)
  | JStr s => negb (String.eqb s "")
  | JArr items => match items with [] => false | _ => true end
  | JObj fields => match fields with [] => false | _ => true end
  end.

Definition is_str (k : string) (j : Json) : bool :=
  match j with JStr s => String.eqb k s | _ => false end.

(** [k in j]. *)
Definition contains (k : string) (j : Json) : Result bool :=
  match j with
  | JObj fields => Ok (Dict.mem k fields)
  | JArr items => Ok (existsb (is_str k) items)
  | JStr s => Ok (PyStr.contains k s)
  | _ => Raise TypeError
  end.

(** [j[k]] for a text key [k]. *)
Definition subscript (j : Json) (k : string) : Result Json :=
  match j with
  | JObj fields =>
      match Dict.get k fields with
      | Some v => Ok v
      | None => Raise KeyError
      end
  | _ => Raise TypeError
  end.

(** [j.get(k, default)]. *)
Definition get (j : Json) (k : string) (default : Json) : Result Json :=
  match j with
  | JObj fields =>
      match Dict.get k fields with
      | Some v => Ok v
      | None => Ok default
      end
  | _ => Raise AttributeError
  end.

(** The receiver of [j.strip()]: only text has the method. *)
Definition as_str (j : Json) : Result string :=
  match j with
  | JStr s => Ok s
  | _ => Raise AttributeError
  end.

(** [len(j)]. *)
Definition len (j : Json) : Result Z :=
  match j with
  | JArr items => Ok (Z.of_nat (List.length items))
  | JObj fields => Ok (Z.of_nat (List.length fields))
  | JStr s => Ok (Z.of_nat (PyStr.char_count s))
  | _ => Raise TypeError
  end.

(** A Python list of text. *)
Definition of_list (l : list string) : Json := JArr (map JStr l).

End PyObj.

(** ** A decoder for a fragment of JSON

    [json.loads] is a parameter of the analyzer's model below.  This decoder
    instantiates it at concrete replies: objects, arrays, text with the
    single-character escapes, numbers, [true], [false] and [null].  Unicode
    escapes and the non-standard constants are outside the fragment and are
    refused. *)
Module MiniJson.

Definition is_ws (c : ascii) : bool :=
  let n := nat_of_ascii c in
  ((n =? 32) || (n =? 9) || (n =? 10) || (n =? 13))%nat.

Fixpoint skip_ws (s : string) : string :=
  match s with
  | String c s' => if is_ws c then skip_ws s' else s
  | EmptyString => s
  end.

Definition unescape (c : ascii) : option ascii :=
  let n := nat_of_ascii c in
  if (n =? 34)%nat then Some c
  else if (n =? 92)%nat then Some c
  else if (n =? 47)%nat then Some c
  else if (n =? 110)%nat then Some (ascii_of_nat 10)
  else if (n =? 116)%nat then Some (ascii_of_nat 9)
  else if (n =? 114)%nat then Some (ascii_of_nat 13)
  else if (n =? 98)%nat then Some (ascii_of_nat 8)
  else if (n =? 102)%nat then Some (ascii_of_nat 12)
  else None.

(** The characters of a text literal after its opening quote, and what
    follows the closing quote. *)
Fixpoint parse_chars (s : string) : option (string * string) :=
  match s with
  | EmptyString => None
  | String c s' =>
      let n := nat_of_ascii c in
      if (n =? 34)%nat then Some (EmptyString, s')
      else if (n =? 92)%nat then
        match s' with
        | String e s'' =>
            match unescape e, parse_chars s'' with
            | Some ch, Some (r, rest) => Some (String ch r, rest)
            | _, _ => None
            end
        | EmptyString => None
        end
      else if (n <? 32)%nat then None
      else
        match parse_chars s' with
        | Some (r, rest) => Some (String c r, rest)
        | None => None
        end
  end.

Definition digit (c : ascii) : option Z :=
  let n := nat_of_ascii c in
  if ((48 <=? n) && (n <=? 57))%nat then Some (Z.of_nat (n - 48)) else None.

(** A run of digits: its value, its length, and the rest. *)
Fixpoint parse_digits (s : string) (acc : Z) (count : nat) : Z * nat * string :=
  match s with
  | String c s' =>
      match digit c with
      | Some d => parse_digits s' (10 * acc + d) (S count)
      | None => (acc, count, s)
      end
  | EmptyString => (acc, count, s)
  end.

Definition leading_zero (s : string) : bool :=
  match s with
  | String c (String d _) =>
      (nat_of_ascii c =? 48)%nat && match digit d with Some _ => true | None => false end
  | _ => false
  end.

Definition pow10 (n : nat) : positive := Nat.iter n (Pos.mul 10) 1%positive.

Definition parse_exponent (s : string) : option (Z * string) :=
  match s with
  | String c s' =>
      let n := nat_of_ascii c in
      if ((n =? 101) || (n =? 69))%nat then
        let '(sign, s1) :=
          match s' with
          | String "+"%char t => (1, t)
          | String "-"%char t => (-1, t)
          | _ => (1, s')
          end in
        let '(e, k, rest) := parse_digits s1 0 O in
        match k with O => None | _ => Some (sign * e, rest) end
      else Some (0, s)
  | EmptyString => Some (0, s)
  end.

Definition parse_number (s : string) : option (Q * string) :=
  let '(sign, s0) :=
    match s with
    | String "-"%char t => (-1, t)
    | _ => (1, s)
    end in
  if leading_zero s0 then None
  else
    let '(i, k, s1) := parse_digits s0 0 O in
    match k with
    | O => None
    | _ =>
        let whole := inject_Z (sign * i) in
        let frac_rest :=
          match s1 with
          | String "."%char t =>
              let '(f, kf, s2) := parse_digits t 0 O in
              match kf with
              | O => None
              | _ => Some ((sign * f) # pow10 kf, s2)
              end
          | _ => Some (0%Q, s1)
          end in
        match frac_rest with
        | None => None
        | Some (frac, s2) =>
            match parse_exponent s2 with
            | None => None
            | Some (e, rest) =>
                Some (Qred ((whole + frac) * Qpower (10 # 1) e), rest)
            end
        end
    end.

Fixpoint parse_value (fuel : nat) (s : string) {struct fuel} : option (Json * string) :=
  match fuel with
  | O => None
  | S f =>
      match s with
      | String "{"%char s1 =>
          match skip_ws s1 with
          | String "}"%char s2 => Some (JObj [], s2)
          | s2 =>
              match parse_members f s2 [] with
              | Some (fields, rest) => Some (JObj fields, rest)
              | None => None
              end
          end
      | String "["%char s1 =>
          match skip_ws s1 with
          | String "]"%char s2 => Some (JArr [], s2)
          | s2 =>
              match parse_items f s2 with
              | Some (items, rest) => Some (JArr items, rest)
              | None => None
              end
          end
      | String c s1 =>
          if (nat_of_ascii c =? 34)%nat then
            match parse_chars s1 with
            | Some (t, rest) => Some (JStr t, rest)
            | None => None
            end
          else if prefix "null" s then Some (JNull, PyStr.drop 4 s)
          else if prefix "true" s then Some (JBool true, PyStr.drop 4 s)
          else if prefix "false" s then Some (JBool false, PyStr.drop 5 s)
          else
            match parse_number s with
            | Some (q, rest) => Some (JNum q, rest)
            | None => None
            end
      | EmptyString => None
      end
  end
with parse_members (fuel : nat) (s : string) (acc : list (string * Json))
       {struct fuel} : option (list (string * Json) * string) :=
  match fuel with
  | O => None
  | S f =>
      match s with
      | String c s1 =>
          if (nat_of_ascii c =? 34)%nat then
            match parse_chars s1 with
            | Some (k, s2) =>
                match skip_ws s2 with
                | String ":"%char s3 =>
                    match parse_value f (skip_ws s3) with
                    | Some (v, s4) =>
                        let acc' := Dict.set k v acc in
                        match skip_ws s4 with
                        | String ","%char s5 => parse_members f (skip_ws s5) acc'
                        | String "}"%char s5 => Some (acc', s5)
                        | _ => None
                        end
                    | None => None
                    end
                | _ => None
                end
            | None => None
            end
          else None
      | EmptyString => None
      end
  end
with parse_items (fuel : nat) (s : string) {struct fuel}
       : option (list Json * string) :=
  match fuel with
  | O => None
  | S f =>
      match parse_value f s with
      | Some (v, s1) =>
          match skip_ws s1 with
          | String ","%char s2 =>
              match parse_items f (skip_ws s2) with
              | Some (vs, rest) => Some (v :: vs, rest)
              | None => None
              end
          | String "]"%char s2 => Some ([v], s2)
          | _ => None
          end
      | None => None
      end
  end.

Definition loads (s : string) : Result Json :=
  match parse_value (S (String.length s)) (skip_ws s) with
  | Some (v, rest) =>
      match skip_ws rest with
      | EmptyString => Ok v
      | _ => Raise JSONDecodeError
      end
  | None => Raise JSONDecodeError
  end.

End MiniJson.

(** ** The analyzer's data *)

(** [SentimentResult].  [confidence] holds whatever the decoded reply
    carried (or the default): the dataclass does not check its type. *)
Record SentimentResult : Type := mkSentimentResult {
  sentiment : string;
  reasoning : string;
  confidence : Json;
  article_title : string;
  article_source : string
}.

(** [SentimentReport].  The two case lists hold Python objects: lists of
    text from the fallback, or whatever the service's reply carried. *)
Record SentimentReport : Type := mkSentimentReport {
  overall_sentiment : string;
  sentiment_breakdown : list (string * Z);
  sentiment_percentages : list (string * Q);
  bull_case : Json;
  bear_case : Json;
  total_articles : Z;
  analyzed_articles : Z;
  analysis_timestamp : string
}.

(** The dictionary literal [_parse_sentiment_response] returns: its three
    keys are fixed, so it is a record. *)
Record SentimentData : Type := mkSentimentData {
  sd_sentiment : string;
  sd_reasoning : string;
  sd_confidence : Json
}.

(** An article: a dictionary from field names to text. *)
Definition Article : Type := list (string * string).

(** ** The analyzer instance and its environment *)

(** What happens at one call of the text-generation service: the text of
    the response, or an exception from the call or from reading the text;
    the time the call takes; and the time a classification spends, the
    limiter once passed, on reading the article, building the prompt and
    writing its log line before it issues the call. *)
Record Reply : Type := mkReply {
  reply_text : Result string;
  reply_latency : Q;
  preparation_time : Q
}.

(** The instance fields [last_request_time] and [min_request_interval]
    together with the world around the instance: the clock, how much longer
    than asked [time.sleep] suspends, the service (what happens at a call,
    as a function of the number of calls issued so far and of the prompt),
    and the log of the calls issued, latest first, each with the clock
    reading at its start. *)
Record World : Type := mkWorld {
  clock : Q;
  last_request_time : Q;
  min_request_interval : Q;
  sleep_overrun : Q;
  service : nat -> string -> Reply;
  calls : list (Q * string)
}.

Definition with_clock (t : Q) (w : World) : World :=
  mkWorld t (last_request_time w) (min_request_interval w) (sleep_overrun w)
          (service w) (calls w).

Definition with_last_request_time (t : Q) (w : World) : World :=
  mkWorld (clock w) t (min_request_interval w) (sleep_overrun w)
          (service w) (calls w).

Definition with_calls (l : list (Q * string)) (w : World) : World :=
  mkWorld (clock w) (last_request_time w) (min_request_interval w)
          (sleep_overrun w) (service w) l.

(** [SentimentAnalyzer.__init__]: the instance as constructed, in an
    environment whose clock reads [now]. *)
Definition SentimentAnalyzer_init (now overrun : Q)
    (svc : nat -> string -> Reply) : World :=
  mkWorld now 0 5 overrun svc [].

(** Computations that read and change the world and may raise. *)
Definition M (A : Type) : Type := World -> Result A * World.

Definition ret {A} (a : A) : M A := fun w => (Ok a, w).

Definition raise {A} (e : Exn) : M A := fun w => (Raise e, w).

Definition bind {A B} (m : M A) (k : A -> M B) : M B :=
  fun w =>
    match m w with
    | (Ok a, w') => k a w'
    | (Raise e, w') => (Raise e, w')
    end.

Definition lift {A} (r : Result A) : M A := fun w => (r, w).

(** [try: m  except Exception: handler]. *)
Definition try_except {A} (m : M A) (handler : Exn -> M A) : M A :=
  fun w =>
    match m w with
    | (Ok a, w') => (Ok a, w')
    | (Raise e, w') => handler e w'
    end.

Notation "x <- m ;; k" := (bind m (fun x => k))
  (at level 61, m at next level, right associativity).
Notation "m ;;; k" := (bind m (fun _ => k))
  (at level 61, right associativity).

(** [time.time()]. *)
Definition time_time : M Q := fun w => (Ok (clock w), w).

(** [time.sleep(d)]. *)
Definition time_sleep (d : Q) : M unit :=
  fun w => (Ok tt, with_clock (clock w + d + sleep_overrun w) w).

Definition get_last_request_time : M Q := fun w => (Ok (last_request_time w), w).

Definition get_min_request_interval : M Q :=
  fun w => (Ok (min_request_interval w), w).

Definition set_last_request_time (t : Q) : M unit :=
  fun w => (Ok tt, with_last_request_time t w).

(** [self.model.generate_content(prompt)] followed by [response.text]: the
    call is logged with the clock reading at its start and takes the time
    the service says. *)
Definition generate_content (prompt : string) : M string :=
  fun w =>
    let r := service w (List.length (calls w)) prompt in
    (reply_text r,
     with_clock (clock w + reply_latency r)
                (with_calls ((clock w, prompt) :: calls w) w)).

Definition Qlt_bool (a b : Q) : bool := negb (Qle_bool b a).

(** [_rate_limit]. *)
Definition _rate_limit : M unit :=
  current_time <- time_time ;;
  last <- get_last_request_time ;;
  min_interval <- get_min_request_interval ;;
  let time_since_last := (current_time - last)%Q in
  (if Qlt_bool time_since_last min_interval
   then time_sleep (min_interval - time_since_last)%Q
   else ret tt) ;;;
  now <- time_time ;;
  set_last_request_time now.

(** ** Prompts *)

(** [_create_analysis_prompt]. *)
Definition _create_analysis_prompt (article_text : string) : string :=
  "You are a senior financial analyst with expertise in market sentiment analysis. 
Analyze the following news article from an investor's perspective and determine its sentiment regarding the company.

Article Text:
"
  ++ article_text
  ++ PyStr.quoted "

Instructions:
1. Determine the overall sentiment as either 'Positive', 'Negative', or 'Neutral'
2. Provide clear reasoning for your sentiment classification
3. Consider factors like:
   - Financial performance implications
   - Market impact potential
   - Strategic developments
   - Regulatory or competitive threats
   - Growth prospects
   - Risk factors

Return your analysis in the following JSON format:
{
    'sentiment': 'Positive/Negative/Neutral',
    'reasoning': 'Detailed explanation of your sentiment analysis',
    'confidence': 0.85
}

Be objective and focus on investment implications rather than general news sentiment.".

Definition bullet_lines (reasons : list string) : string :=
  PyStr.join PyStr.newline (map (fun reason => "- " ++ reason) (firstn 5 reasons)).

(** [_create_bull_bear_prompt]. *)
Definition _create_bull_bear_prompt (company_name : string)
    (positive_reasoning negative_reasoning : list string) : string :=
  "You are a financial analyst summarizing market sentiment for "
  ++ company_name
  ++ ".

Based on the following sentiment analysis data, create a Bull Case and Bear Case:

POSITIVE REASONING (from positive sentiment articles):
"
  ++ bullet_lines positive_reasoning
  ++ "

NEGATIVE REASONING (from negative sentiment articles):
"
  ++ bullet_lines negative_reasoning
  ++ PyStr.quoted "

Instructions:
1. Create 3-5 compelling Bull Case points based on positive sentiment
2. Create 3-5 concerning Bear Case points based on negative sentiment
3. Focus on investment implications and market impact
4. Be specific and actionable
5. Use bullet points for clarity

Return in this JSON format:
{
    'bull_case': [
        'Point 1 about positive developments',
        'Point 2 about growth opportunities',
        'Point 3 about competitive advantages'
    ],
    'bear_case': [
        'Point 1 about risks and challenges',
        'Point 2 about market concerns',
        'Point 3 about potential headwinds'
    ]
}".

(** ** The analyzer *)

Notation "x <~ r ;; k" := (rbind r (fun x => k))
  (at level 61, r at next level, right associativity).

(** The text both reply parsers hand to the decoder, from the stripped
    reply: what follows the first [```json] up to the next fence, stripped,
    or else what runs from the first opening brace to the last closing
    brace; [None] when the reply has neither.  ([_parse_sentiment_response]
    and [_parse_bull_bear_response] carry the same lines.) *)
Definition extract_json_text (cleaned_text : string) : option string :=
  if PyStr.contains "```json" cleaned_text then
    let json_start := PyStr.find "```json" cleaned_text 0 + 7 in
    let json_end := PyStr.find "```" cleaned_text json_start in
    Some (PyStr.strip (PyStr.slice cleaned_text json_start json_end))
  else if PyStr.contains "{" cleaned_text && PyStr.contains "}" cleaned_text then
    let json_start := PyStr.find "{" cleaned_text 0 in
    let json_end := PyStr.rfind "}" cleaned_text + 1 in
    Some (PyStr.slice cleaned_text json_start json_end)
  else None.

Definition valid_sentiments : list string := ["Positive"; "Negative"; "Neutral"].

Definition default_confidence : Json := JNum (8 # 10).

(** [dict.get(key, default)] on an article. *)
Definition article_get (article : Article) (key default : string) : string :=
  match Dict.get key article with
  | Some v => v
  | None => default
  end.

(** [Counter(labels)]: one entry per distinct label, in order of first
    appearance. *)
Fixpoint counter_incr (k : string) (d : list (string * Z)) : list (string * Z) :=
  match d with
  | [] => [(k, 1)]
  | (k', n) :: d' =>
      if String.eqb k k' then (k', n + 1) :: d' else (k', n) :: counter_incr k d'
  end.

Definition Counter (labels : list string) : list (string * Z) :=
  fold_left (fun d k => counter_incr k d) labels [].

(** [max(items, key=lambda x: x[1])]: the first item whose value no later
    item exceeds; [ValueError] on an empty sequence. *)
Definition max_by_value (items : list (string * Q)) : Result (string * Q) :=
  match items with
  | [] => Raise ValueError
  | x :: rest =>
      Ok (fold_left (fun best y => if Qlt_bool (snd best) (snd y) then y else best)
                    rest x)
  end.

(** [_determine_overall_sentiment]. *)
Definition _determine_overall_sentiment (sentiment_percentages : list (string * Q))
    : Result string :=
  max_sentiment <~ max_by_value sentiment_percentages ;;
  if Qlt_bool (snd max_sentiment) 40 then Ok "Neutral"
  else Ok (fst max_sentiment).

Definition case_point (reasoning : string) : string :=
  "• " ++ PyStr.take 100 reasoning ++ "...".

Definition default_bull_point : string :=
  "• Positive market sentiment detected in recent news".

Definition default_bear_point : string :=
  "• Some concerns identified in recent coverage".

(** The loop of [_create_default_bull_bear_cases]: one step per result,
    appending to the bull list or to the bear list. *)
Definition default_cases_step (acc : list string * list string)
    (result : SentimentResult) : list string * list string :=
  let '(bull_case, bear_case) := acc in
  if String.eqb (sentiment result) "Positive" then
    ((bull_case ++ [case_point (reasoning result)])%list, bear_case)
  else if String.eqb (sentiment result) "Negative" then
    (bull_case, (bear_case ++ [case_point (reasoning result)])%list)
  else (bull_case, bear_case).

(** [_create_default_bull_bear_cases], as lists of text. *)
Definition default_cases (sentiment_results : list SentimentResult)
    : list string * list string :=
  let '(bull_case, bear_case) := fold_left default_cases_step sentiment_results ([], []) in
  let bull_case := match bull_case with [] => [default_bull_point] | _ => bull_case end in
  let bear_case := match bear_case with [] => [default_bear_point] | _ => bear_case end in
  (firstn 5 bull_case, firstn 5 bear_case).

(** [_create_default_bull_bear_cases]. *)
Definition _create_default_bull_bear_cases (sentiment_results : list SentimentResult)
    : Json * Json :=
  let '(bull_case, bear_case) := default_cases sentiment_results in
  (PyObj.of_list bull_case, PyObj.of_list bear_case).

Definition no_news_point : string := "• No recent news available for analysis".

Section Analyzer.

(** [json.loads], and [time.strftime] with the report's format applied to a
    clock reading. *)
Context (json_loads : string -> Result Json) (strftime : Q -> string).

(** The [try] block of [_parse_sentiment_response]. *)
Definition parse_sentiment_body (response_text : string)
    : Result (option SentimentData) :=
  let cleaned_text := PyStr.strip response_text in
  match extract_json_text cleaned_text with
  | None => Ok None
  | Some json_text =>
      sentiment_data <~ json_loads json_text ;;
      has_sentiment <~ PyObj.contains "sentiment" sentiment_data ;;
      has_both <~ (if has_sentiment
                   then PyObj.contains "reasoning" sentiment_data
                   else Ok false) ;;
      if negb has_both then Ok None
      else
        raw_sentiment <~ PyObj.subscript sentiment_data "sentiment" ;;
        text_sentiment <~ PyObj.as_str raw_sentiment ;;
        let sentiment := PyStr.title (PyStr.strip text_sentiment) in
        if negb (existsb (String.eqb sentiment) valid_sentiments) then Ok None
        else
          raw_reasoning <~ PyObj.subscript sentiment_data "reasoning" ;;
          text_reasoning <~ PyObj.as_str raw_reasoning ;;
          confidence <~ PyObj.get sentiment_data "confidence" default_confidence ;;
          Ok (Some (mkSentimentData sentiment (PyStr.strip text_reasoning) confidence))
  end.

(** [_parse_sentiment_response]: both handlers return [None]. *)
Definition _parse_sentiment_response (response_text : string)
    : option SentimentData :=
  match parse_sentiment_body response_text with
  | Ok r => r
  | Raise _ => None
  end.

(** The text and the prompt [analyze_article_sentiment] builds from an
    article. *)
Definition article_full_text (article : Article) : string :=
  let title := article_get article "title" "" in
  let description := article_get article "description" "" in
  let content := article_get article "content" "" in
  "Title: " ++ title ++ PyStr.newline ++ PyStr.newline
  ++ "Description: " ++ description ++ PyStr.newline ++ PyStr.newline
  ++ "Content: " ++ content.

Definition article_prompt (article : Article) : string :=
  _create_analysis_prompt (article_full_text article).

(** Lines 81 to 90 of [analyze_article_sentiment], between the limiter and
    the call: the fields of the article are read, the prompt is built and a
    line is logged, which takes the time the environment says. *)
Definition build_prompt (article : Article) : M string :=
  fun w =>
    let prompt := article_prompt article in
    (Ok prompt,
     with_clock
       (clock w + preparation_time (service w (List.length (calls w)) prompt)) w).

(** The [try] block of [analyze_article_sentiment]. *)
Definition analyze_article_body (article : Article)
    : M (option SentimentResult) :=
  _rate_limit ;;;
  let title := article_get article "title" "" in
  let source := article_get article "source" "Unknown" in
  prompt <- build_prompt article ;;
  response_text <- generate_content prompt ;;
  if String.eqb response_text "" then ret None
  else
    match _parse_sentiment_response response_text with
    | None => ret None
    | Some sentiment_data =>
        ret (Some (mkSentimentResult
                     (sd_sentiment sentiment_data)
                     (sd_reasoning sentiment_data)
                     (sd_confidence sentiment_data)
                     title
                     source))
    end.

(** [analyze_article_sentiment]. *)
Definition analyze_article_sentiment (article : Article)
    : M (option SentimentResult) :=
  try_except (analyze_article_body article) (fun _ => ret None).

(** [_parse_bull_bear_response]. *)
Definition _parse_bull_bear_response (response_text : string) : option Json :=
  let cleaned_text := PyStr.strip response_text in
  match extract_json_text cleaned_text with
  | None => None
  | Some json_text =>
      match json_loads json_text with
      | Ok data => Some data
      | Raise _ => None
      end
  end.

(** The prompt [_generate_bull_bear_cases] builds. *)
Definition narrative_prompt (sentiment_results : list SentimentResult)
    (company_name : string) : string :=
  let positive_reasoning :=
    map reasoning
        (filter (fun result => String.eqb (sentiment result) "Positive")
                sentiment_results) in
  let negative_reasoning :=
    map reasoning
        (filter (fun result => String.eqb (sentiment result) "Negative")
                sentiment_results) in
  _create_bull_bear_prompt company_name positive_reasoning negative_reasoning.

(** The [try] block of [_generate_bull_bear_cases]. *)
Definition generate_bull_bear_body (sentiment_results : list SentimentResult)
    (company_name : string) : M (Json * Json) :=
  let prompt := narrative_prompt sentiment_results company_name in
  _rate_limit ;;;
  response_text <- generate_content prompt ;;
  if String.eqb response_text "" then
    ret (_create_default_bull_bear_cases sentiment_results)
  else
    match _parse_bull_bear_response response_text with
    | Some bull_bear_data =>
        if PyObj.truthy bull_bear_data then
          bull <- lift (PyObj.subscript bull_bear_data "bull_case") ;;
          bear <- lift (PyObj.subscript bull_bear_data "bear_case") ;;
          ret (bull, bear)
        else ret (_create_default_bull_bear_cases sentiment_results)
    | None => ret (_create_default_bull_bear_cases sentiment_results)
    end.

(** [_generate_bull_bear_cases]. *)
Definition _generate_bull_bear_cases (sentiment_results : list SentimentResult)
    (company_name : string) : M (Json * Json) :=
  try_except
    (generate_bull_bear_body sentiment_results company_name)
    (fun _ => ret (_create_default_bull_bear_cases sentiment_results)).

(** [time.strftime("%Y-%m-%d %H:%M:%S")]. *)
Definition time_strftime : M string := fun w => (Ok (strftime (clock w)), w).

(** [_create_empty_report]. *)
Definition _create_empty_report (company_name : string) : M SentimentReport :=
  timestamp <- time_strftime ;;
  ret (mkSentimentReport
         "Neutral"
         [("Neutral", 0)]
         [("Neutral", 100%Q)]
         (PyObj.of_list [no_news_point])
         (PyObj.of_list [no_news_point])
         0
         0
         timestamp).

(** [(count / total_articles) * 100], without rounding. *)
Definition percentage (total_articles count : Z) : Q :=
  (inject_Z count / inject_Z total_articles * 100)%Q.

(** The same expression as Python evaluates it, in IEEE double precision:
    the quotient of the two integers is rounded to the nearest double, and
    so is its product with 100.  (The conversion is exact for the integers
    below [2^53], beyond which no length goes.) *)
Definition float_of_int (n : Z) : PrimFloat.float :=
  PrimFloat.of_uint63 (Uint63.of_Z n).

Definition percentage_double (total_articles count : Z) : PrimFloat.float :=
  PrimFloat.mul
    (PrimFloat.div (float_of_int count) (float_of_int total_articles))
    (float_of_int 100).


(** The [try] block of [generate_final_report]. *)
Definition generate_final_report_body (sentiment_results : list SentimentResult)
    (company_name : string) : M SentimentReport :=
  match sentiment_results with
  | [] => _create_empty_report company_name
  | _ =>
      let sentiments := map sentiment sentiment_results in
      let sentiment_counts := Counter sentiments in
      let total_articles := Z.of_nat (List.length sentiment_results) in
      let sentiment_percentages :=
        map (fun '(label, count) => (label, percentage total_articles count))
            sentiment_counts in
      overall <- lift (_determine_overall_sentiment sentiment_percentages) ;;
      cases <- _generate_bull_bear_cases sentiment_results company_name ;;
      timestamp <- time_strftime ;;
      ret (mkSentimentReport
             overall
             sentiment_counts
             sentiment_percentages
             (fst cases)
             (snd cases)
             total_articles
             (Z.of_nat (List.length sentiment_results))
             timestamp)
  end.

(** [generate_final_report]. *)
Definition generate_final_report (sentiment_results : list SentimentResult)
    (company_name : string) : M SentimentReport :=
  try_except
    (generate_final_report_body sentiment_results company_name)
    (fun _ => _create_empty_report company_name).

(** The judgment [analyze_article_sentiment] builds from a reply's text. *)
Definition judgment_of_text (article : Article) (text : string)
    : option SentimentResult :=
  if String.eqb text "" then None
  else
    match _parse_sentiment_response text with
    | None => None
    | Some d =>
        Some (mkSentimentResult (sd_sentiment d) (sd_reasoning d) (sd_confidence d)
                (article_get article "title" "")
                (article_get article "source" "Unknown"))
    end.

(** The pair of case lists [_generate_bull_bear_cases] takes from a
    reply's text, when it takes one. *)
Definition narrative_of_text (text : string) : option (Json * Json) :=
  if String.eqb text "" then None
  else
    match _parse_bull_bear_response text with
    | Some data =>
        if PyObj.truthy data then
          match PyObj.subscript data "bull_case", PyObj.subscript data "bear_case" with
          | Ok bull, Ok bear => Some (bull, bear)
          | _, _ => None
          end
        else None
    | None => None
    end.

Definition narrative_of_reply (r : Reply) : option (Json * Json) :=
  match reply_text r with
  | Ok text => narrative_of_text text
  | Raise _ => None
  end.

End Analyzer.


(** ** Runs of the analyzer *)

(** The clock reading at which [_rate_limit] returns. *)
Definition wake_time (w : World) : Q :=
  if Qlt_bool (clock w - last_request_time w) (min_request_interval w)
  then clock w + (min_request_interval w - (clock w - last_request_time w))
       + sleep_overrun w
  else clock w.

(** The world [_rate_limit] leaves. *)
Definition stamped (w : World) : World :=
  with_last_request_time (wake_time w) (with_clock (wake_time w) w).

(** The reply the service gives to the next call, issued with [prompt]. *)
Definition next_reply (w : World) (prompt : string) : Reply :=
  service w (List.length (calls w)) prompt.

(** The world after [_rate_limit] and one call of the service: what
    narrative generation leaves. *)
Definition after_call (prompt : string) (w : World) : World :=
  snd (generate_content prompt (stamped w)).

(** The world after [_rate_limit], the building of the prompt and one call
    of the service: what a classification leaves. *)
Definition after_classification (prompt : string) (w : World) : World :=
  snd (generate_content prompt
         (with_clock (wake_time w + preparation_time (next_reply w prompt))
                     (stamped w))).

(** The operations a caller issues through one analyzer instance. *)
Inductive Op : Type :=
| Classify (article : Article)
| Narrate (sentiment_results : list SentimentResult) (company_name : string)
| Synthesize (sentiment_results : list SentimentResult) (company_name : string).

Definition run_op (json_loads : string -> Result Json) (strftime : Q -> string)
    (op : Op) (w : World) : World :=
  match op with
  | Classify article => snd (analyze_article_sentiment json_loads article w)
  | Narrate js company => snd (_generate_bull_bear_cases json_loads js company w)
  | Synthesize js company =>
      snd (generate_final_report json_loads strftime js company w)
  end.

Definition run_ops (json_loads : string -> Result Json) (strftime : Q -> string)
    (ops : list Op) (w : World) : World :=
  fold_left (fun w op => run_op json_loads strftime op w) ops w.

(** The prompt an operation sends, and the time it spends between the
    limiter's stamp and its call: a classification builds its prompt there,
    narrative generation calls at once. *)
Definition op_prompt (op : Op) : string :=
  match op with
  | Classify article => article_prompt article
  | Narrate js company => narrative_prompt js company
  | Synthesize js company => narrative_prompt js company
  end.

Definition op_delay (op : Op) (w : World) : Q :=
  match op with
  | Classify article => preparation_time (next_reply w (article_prompt article))
  | _ => 0
  end.

(** The number of service calls an operation issues. *)
Definition calls_issued (op : Op) : nat :=
  match op with
  | Synthesize [] _ => 0
  | _ => 1
  end.

(** What the limiter relies on: [time.sleep] suspends at least as long as
    asked, and no time is negative. *)
Definition limiter_env (w : World) : Prop :=
  (0 <= sleep_overrun w)%Q
  /\ forall n prompt, (0 <= preparation_time (service w n prompt))%Q.

(** ** Sample environments *)

Definition stub_service (text : string) : nat -> string -> Reply :=
  fun _ _ => mkReply (Ok text) 1 0.

Definition failing_service : nat -> string -> Reply :=
  fun _ _ => mkReply (Raise ServiceError) 0 0.

(** A service that answers in one time unit, called by a classifier that
    takes a thousandth of a unit to build each prompt. *)
Definition slow_prompt_service : nat -> string -> Reply :=
  fun _ _ => mkReply (Ok "{}") 1 (1 # 1000).

Definition fixed_stamp : Q -> string := fun _ => "2024-01-01 00:00:00".

Definition fresh_world (svc : nat -> string -> Reply) : World :=
  SentimentAnalyzer_init 1700000000 0 svc.

Definition judgment (label why : string) : SentimentResult :=
  mkSentimentResult label why default_confidence "title" "source".

(** ** Vocabulary of the statements *)

Definition Zsum (l : list Z) : Z := fold_right Z.add 0 l.

(** The number of occurrences of a label. *)
Definition occurrences (k : string) (l : list string) : Z :=
  Z.of_nat (count_occ string_dec l k).

(** The tally and the percentage table [generate_final_report] computes,
    and the entry of a label in that table. *)
Definition sentiment_counts_of (js : list SentimentResult) : list (string * Z) :=
  Counter (map sentiment js).

Definition sentiment_percentages_of (js : list SentimentResult) : list (string * Q) :=
  map (fun '(label, count) => (label, percentage (Z.of_nat (List.length js)) count))
      (sentiment_counts_of js).

Definition share (js : list SentimentResult) (label : string) : Q :=
  percentage (Z.of_nat (List.length js)) (occurrences label (map sentiment js)).

(** The percentage of the judgments that carry a label, in the words of
    the specification: a hundred times their number, over the number of
    all the judgments. *)
Definition percent_of (js : list SentimentResult) (label : string) : Q :=
  (inject_Z (100 * occurrences label (map sentiment js))
   / inject_Z (Z.of_nat (List.length js)))%Q.

(** The case lists of the report of [js], in a world [w]. *)
Definition cases_of (json_loads : string -> Result Json)
    (js : list SentimentResult) (company : string) (w : World)
    : Json * Json :=
  match narrative_of_reply json_loads (next_reply w (narrative_prompt js company)) with
  | Some cases => cases
  | None => _create_default_bull_bear_cases js
  end.

(** The list the loop of [_create_default_bull_bear_cases] leaves for one
    label, with the placeholder and the cap applied. *)
Definition fallback_points (label placeholder : string)
    (js : list SentimentResult) : list string :=
  let points :=
    map (fun j => case_point (reasoning j))
        (filter (fun j => String.eqb (sentiment j) label) js) in
  firstn 5 (match points with [] => [placeholder] | _ => points end).

(** [s] is empty or begins with the first byte of a character. *)
Definition starts_character (s : string) : Prop :=
  match s with
  | EmptyString => True
  | String c _ => PyStr.is_continuation c = false
  end.

(** [body] holds the first [n] characters of [text], and all of [text]
    when it has fewer: [text] is [body] followed by a rest that begins at a
    character, and [body] has [n] characters, or as many as [text] has. *)
Definition first_characters (n : nat) (text body : string) : Prop :=
  exists rest,
    text = body ++ rest
    /\ starts_character rest
    /\ PyStr.char_count body = Nat.min n (PyStr.char_count text).

(** What [s[:n]] leaves out of [s]. *)
Fixpoint after_take (n : nat) (s : string) : string :=
  match s with
  | EmptyString => EmptyString
  | String c s' =>
      if PyStr.is_continuation c then after_take n s'
      else match n with
           | O => s
           | S n' => after_take n' s'
           end
  end.

(** An entry of a fallback list, in the words of the specification: the
    reasoning cut to 100 characters, after the bullet and before the
    dots. *)
Definition fallback_entry (why entry : string) : Prop :=
  exists body, first_characters 100 why body /\ entry = "• " ++ body ++ "...".

(** The fallback list for one label, in the words of the specification:
    one entry for each of the first five judgments that carry the label,
    in the order of the judgment list; the placeholder alone when no
    judgment carries the label. *)
Definition fallback_list (label placeholder : string)
    (js : list SentimentResult) (points : list string) : Prop :=
  match map reasoning (filter (fun j => String.eqb (sentiment j) label) js) with
  | [] => points = [placeholder]
  | whys => Forall2 fallback_entry (firstn 5 whys) points
  end.

(** The number of judgments with a label. *)
Definition judgments_with (label : string) (js : list SentimentResult) : nat :=
  List.length (filter (fun j => String.eqb (sentiment j) label) js).

(** The narrative call fails: an exception from the call, an empty reply,
    or a reply that does not parse. *)
Definition narrative_fails (json_loads : string -> Result Json) (r : Reply) : Prop :=
  match reply_text r with
  | Raise _ => True
  | Ok text => text = "" \/ _parse_bull_bear_response json_loads text = None
  end.

(** The length of a case list lies between 1 and 5. *)
Definition case_list_bounded (cases : Json) : Prop :=
  exists n, PyObj.len cases = Ok n /\ 1 <= n <= 5.

(** The fields of a decoded reply that [_parse_sentiment_response] accepts:
    an object whose [sentiment] and [reasoning] values are both text, the
    sentiment being one of the three labels once stripped and put in title
    case. *)
Definition accepted_fields (fields : list (string * Json))
    (label why : string) : Prop :=
  Dict.get "sentiment" fields = Some (JStr label)
  /\ Dict.get "reasoning" fields = Some (JStr why)
  /\ In (PyStr.title (PyStr.strip label)) valid_sentiments.

(** The confidence taken from a decoded reply. *)
Definition confidence_of (fields : list (string * Json)) : Json :=
  match Dict.get "confidence" fields with
  | Some v => v
  | None => JNum (8 # 10)
  end.

Definition sample_35_35_30 : list SentimentResult :=
  (repeat (judgment "Positive" "orders are up") 7
   ++ repeat (judgment "Negative" "margins are down") 7
   ++ repeat (judgment "Neutral" "guidance is unchanged") 6)%list.


Definition sample_60_40 : list SentimentResult :=
  (repeat (judgment "Positive" "orders are up") 3
   ++ repeat (judgment "Negative" "margins are down") 2)%list.

Definition sample_6_1 : list SentimentResult :=
  (repeat (judgment "Positive" "orders are up") 6
   ++ [judgment "Negative" "margins are down"])%list.

(** A reasoning of 104 characters, three of them of two bytes, and
    [sample_6_1] with it as the reasoning of the Negative judgment. *)
Definition long_reasoning : string :=
  "Die Umsätze wuchsen schwächer als erwartet, während Kosten stiegen; "
  ++ "guidance for the year was cut again.".

Definition sample_6_1_long : list SentimentResult :=
  (repeat (judgment "Positive" "orders are up") 6
   ++ [judgment "Negative" long_reasoning])%list.

Definition sample_article : Article :=
  [("title", "Acme beats estimates"); ("description", "Quarterly results");
   ("content", "Revenue grew."); ("source", "Newswire")].

(** A reply in a fenced block, with a lower-case label. *)
Definition fenced_reply : string :=
  "```json" ++ PyStr.newline
  ++ PyStr.quoted "{'sentiment':'positive','reasoning':'x','confidence':0.9}"
  ++ PyStr.newline ++ "```".

(** A reply with prose around bare braces and no confidence. *)
Definition braces_reply : string :=
  PyStr.quoted "Some text {'sentiment':'Neutral','reasoning':'y'} trailing".

(** A reply whose confidence is out of range. *)
Definition overconfident_reply : string :=
  PyStr.quoted "{'sentiment':'Positive','reasoning':'x','confidence':7}".

(** A narrative reply with an empty bull list and six bear points. *)
Definition lopsided_narrative : string :=
  PyStr.quoted "{'bull_case': [], 'bear_case': ['a','b','c','d','e','f']}".

(** [sub] occurs in [s] at index [n]. *)
Definition occurs_at (sub s : string) (n : nat) : Prop :=
  substring n (String.length sub) s = sub.

(** [n] is the first index, from [start] on, at which [sub] occurs. *)
Definition first_from (sub s : string) (start n : nat) : Prop :=
  (start <= n)%nat
  /\ occurs_at sub s n
  /\ forall m, (start <= m < n)%nat -> ~ occurs_at sub s m.

(** [n] is the last index at which [sub] occurs. *)
Definition last_at (sub s : string) (n : nat) : Prop :=
  occurs_at sub s n /\ forall m, (n < m)%nat -> ~ occurs_at sub s m.

(** The block of a stripped reply, in the words of the specification: the
    text between the first [```json] and the fence that follows it,
    stripped; or, when the reply has no [```json], the text from the first
    opening brace to the last closing brace. *)
Inductive reply_block (cleaned : string) : string -> Prop :=
| block_fenced (i j : nat) :
    first_from "```json" cleaned 0 i ->
    first_from "```" cleaned (i + 7) j ->
    reply_block cleaned (PyStr.strip (substring (i + 7) (j - (i + 7)) cleaned))
| block_braces (i j : nat) :
    (forall n, ~ occurs_at "```json" cleaned n) ->
    first_from "{" cleaned 0 i ->
    last_at "}" cleaned j ->
    (i <= j)%nat ->
    reply_block cleaned (substring i (j + 1 - i) cleaned).

(** A fence that is opened is closed. *)
Definition fence_closed (cleaned : string) : Prop :=
  forall i, first_from "```json" cleaned 0 i ->
            exists j, first_from "```" cleaned (i + 7) j.

(** A check that an opened fence is closed. *)
Definition fence_closedb (cleaned : string) : bool :=
  if PyStr.contains "```json" cleaned
  then 0 <=? PyStr.find "```" cleaned (PyStr.find "```json" cleaned 0 + 7)
  else true.

(** A reply with both fields whose reasoning is a number. *)
Definition nontext_reasoning_reply : string :=
  PyStr.quoted "{'sentiment':'Positive','reasoning':5}".

(** A reply whose label is lower-case between spaces. *)
Definition padded_label_reply : string :=
  PyStr.quoted "{'sentiment':' positive ','reasoning':'x'}".

(** A reply whose fence is opened and never closed. *)
Definition unclosed_fence_reply : string :=
  "```json " ++ PyStr.quoted "{'sentiment':'Positive','reasoning':'x'}".

(** ** Vocabulary of the further properties *)

(** The reasoning of the judgments with a label, in the order of the list. *)
Definition polar_reasoning (label : string) (js : list SentimentResult)
    : list string :=
  map reasoning (filter (fun result => String.eqb (sentiment result) label) js).

(** Two labels tied at one half, Negative seen first. *)
Definition sample_tie : list SentimentResult :=
  [judgment "Negative" "margins are down"; judgment "Positive" "orders are up";
   judgment "Positive" "new contract"; judgment "Negative" "lawsuit filed"].

(** A narrative reply that has only the bull list. *)
Definition bull_only_narrative : string :=
  PyStr.quoted "{'bull_case': ['growth']}".

(** ** The analysis run of the application *)

(** [xs[:n]]: a negative [n] counts from the end. *)
Definition list_take {A : Type} (n : Z) (l : list A) : list A :=
  if n <? 0 then firstn (Z.to_nat (Z.of_nat (List.length l) + n)) l
  else firstn (Z.to_nat n) l.

(** The parameters the sidebar hands to [perform_analysis]. *)
Record ConfigParams : Type := mkConfigParams {
  days_back : Z;
  max_articles : Z
}.

(** The loop of [perform_analysis] over the articles: each article is
    classified, and a judgment that is there is appended. *)
Fixpoint classify_loop (json_loads : string -> Result Json)
    (articles : list Article) (sentiment_results : list SentimentResult)
    : M (list SentimentResult) :=
  match articles with
  | [] => ret sentiment_results
  | article :: rest =>
      result <- analyze_article_sentiment json_loads article ;;
      match result with
      | Some judgment => classify_loop json_loads rest (sentiment_results ++ [judgment])
      | None => classify_loop json_loads rest sentiment_results
      end
  end.

(** The judgments the loop is to keep, article by article: the article in
    turn is put to the service in the analyzer's next call, the first
    being call number [n], and the judgment made of the reply, when one is
    made, stands in the list at the article's place. *)
Fixpoint loop_judgments (json_loads : string -> Result Json)
    (svc : nat -> string -> Reply) (n : nat) (articles : list Article)
    : list SentimentResult :=
  match articles with
  | [] => []
  | article :: rest =>
      let later := loop_judgments json_loads svc (S n) rest in
      match reply_text (svc n (article_prompt article)) with
      | Ok text =>
          match judgment_of_text json_loads article text with
          | Some judgment => judgment :: later
          | None => later
          end
      | Raise _ => later
      end
  end.

Definition no_ticker_message : string :=
  "Could not find ticker symbol for the given company name.".

Definition no_articles_message : string :=
  "No recent news articles found for this company.".

Definition no_sentiment_message : string :=
  "Could not analyze sentiment for any articles.".

Section PerformAnalysis.

(** The data fetcher as [perform_analysis] sees it: each of its methods
    catches what it raises and returns a value. *)
Context (json_loads : string -> Result Json) (strftime : Q -> string)
        (CompanyInfo : Type)
        (get_ticker : string -> option string)
        (get_company_info : string -> option CompanyInfo)
        (fetch_news_from_api : string -> Z -> list Article)
        (exception_text : Exn -> string).

(** The [try] block of [perform_analysis], from the lookup of the ticker
    on, run by the analyzer just constructed. *)
Definition perform_analysis_body (company_name : string)
    (config_params : ConfigParams)
    : M (option CompanyInfo * option SentimentReport * option string) :=
  match get_ticker company_name with
  | None => ret (None, None, Some no_ticker_message)
  | Some ticker =>
      if String.eqb ticker "" then ret (None, None, Some no_ticker_message)
      else
        let company_info := get_company_info ticker in
        let articles := fetch_news_from_api company_name (days_back config_params) in
        match articles with
        | [] => ret (company_info, None, Some no_articles_message)
        | _ =>
            let articles := list_take (max_articles config_params) articles in
            sentiment_results <- classify_loop json_loads articles [] ;;
            match sentiment_results with
            | [] => ret (company_info, None, Some no_sentiment_message)
            | _ =>
                report <- generate_final_report json_loads strftime
                            sentiment_results company_name ;;
                ret (company_info, Some report, None)
            end
        end
  end.

(** [perform_analysis], in an environment whose clock reads [now]. *)
Definition perform_analysis (company_name : string) (config_params : ConfigParams)
    (now overrun : Q) (svc : nat -> string -> Reply)
    : (option CompanyInfo * option SentimentReport * option string) * World :=
  match perform_analysis_body company_name config_params
          (SentimentAnalyzer_init now overrun svc) with
  | (Ok outcome, w) => (outcome, w)
  | (Raise e, w) =>
      ((None, None, Some ("Analysis failed: " ++ exception_text e)), w)
  end.

End PerformAnalysis.

(** [small] keeps the order of [big] and drops some of its elements. *)
Inductive subseq {A : Type} : list A -> list A -> Prop :=
| subseq_nil : subseq [] []
| subseq_skip (x : A) (small big : list A) :
    subseq small big -> subseq small (x :: big)
| subseq_keep (x : A) (small big : list A) :
    subseq small big -> subseq (x :: small) (x :: big).

(** Articles whose replies are: a judgment, nothing that parses, a judgment. *)
Definition mixed_service : nat -> string -> Reply :=
  fun n _ =>
    match n with
    | 1%nat => mkReply (Ok "I cannot answer") 1 0
    | 3%nat => mkReply (Raise ServiceError) 1 0
    | _ => mkReply (Ok fenced_reply) 1 0
    end.

Definition three_articles : list Article :=
  [[("title", "First")]; [("title", "Second")]; [("title", "Third")]].

(** ** The data fetcher *)

(** [str.lower] and [str.upper] on text whose letters are ASCII, and
    [str.replace] of the space. *)
Fixpoint str_lower (s : string) : string :=
  match s with
  | EmptyString => EmptyString
  | String c s' => String (PyStr.lower c) (str_lower s')
  end.

Fixpoint str_upper (s : string) : string :=
  match s with
  | EmptyString => EmptyString
  | String c s' => String (PyStr.upper c) (str_upper s')
  end.

Fixpoint str_replace_space (replacement : string) (s : string) : string :=
  match s with
  | EmptyString => EmptyString
  | String c s' =>
      if Ascii.eqb c " "%char then replacement ++ str_replace_space replacement s'
      else String c (str_replace_space replacement s')
  end.

(** What a [for] loop iterates over: the items of a list, the characters
    of a text, the keys of a dictionary. *)
Fixpoint chars_of (s : string) : list Json :=
  match s with
  | EmptyString => []
  | String c s' => JStr (String c EmptyString) :: chars_of s'
  end.

Definition py_iter (j : Json) : Result (list Json) :=
  match j with
  | JArr items => Ok items
  | JStr s => Ok (chars_of s)
  | JObj fields => Ok (map (fun kv => JStr (fst kv)) fields)
  | _ => Raise TypeError
  end.

Section DataFetcher.

(** The world of the data fetcher: the text [str] gives for a value that
    is not text, [str.lower] on any text, the [info] dictionary of
    [yf.Ticker(query)] (or what building or reading it raises), and the
    decoded response of the news service to a query (or what the date
    arithmetic, the request, its status check or its decoding raises). *)
Context (py_str : Json -> string)
        (py_lower : string -> string)
        (ticker_info : string -> Result Json)
        (news_service : string -> Z -> Result Json).

(** A value as an f-string shows it. *)
Definition format_value (j : Json) : string :=
  match j with
  | JStr s => s
  | _ => py_str j
  end.

(** [_is_valid_article]. *)
Definition _is_valid_article (article : Json) (company_name : string)
    : Result bool :=
  title <~ PyObj.get article "title" JNull ;;
  if negb (PyObj.truthy title) then Ok false
  else
    description <~ PyObj.get article "description" JNull ;;
    if negb (PyObj.truthy description) then Ok false
    else
      content <~ PyObj.get article "content" (JStr "") ;;
      content_len <~ PyObj.len content ;;
      if content_len <? 100 then Ok false
      else
        title_text <~ PyObj.get article "title" (JStr "") ;;
        description_text <~ PyObj.get article "description" (JStr "") ;;
        let text_to_check :=
          format_value title_text ++ " " ++ format_value description_text
          ++ " " ++ format_value content in
        let company_lower := py_lower company_name in
        let text_lower := py_lower text_to_check in
        Ok (PyStr.contains company_lower text_lower).

(** The dictionary [fetch_news_from_api] builds from a valid article. *)
Definition processed_article (article : Json) : Result Json :=
  title <~ PyObj.get article "title" (JStr "") ;;
  description <~ PyObj.get article "description" (JStr "") ;;
  content <~ PyObj.get article "content" (JStr "") ;;
  url <~ PyObj.get article "url" (JStr "") ;;
  publishedAt <~ PyObj.get article "publishedAt" (JStr "") ;;
  source <~ PyObj.get article "source" (JObj []) ;;
  source_name <~ PyObj.get source "name" (JStr "Unknown") ;;
  urlToImage <~ PyObj.get article "urlToImage" (JStr "") ;;
  Ok (JObj [("title", title); ("description", description);
            ("content", content); ("url", url);
            ("publishedAt", publishedAt); ("source", source_name);
            ("urlToImage", urlToImage)]).

(** The loop of [fetch_news_from_api] over the articles of the response. *)
Fixpoint process_articles (articles : list Json) (company_name : string)
    (processed_articles : list Json) : Result (list Json) :=
  match articles with
  | [] => Ok processed_articles
  | article :: rest =>
      valid <~ _is_valid_article article company_name ;;
      if valid then
        processed <~ processed_article article ;;
        process_articles rest company_name (processed_articles ++ [processed])
      else process_articles rest company_name processed_articles
  end.

(** The [try] block of [fetch_news_from_api]. *)
Definition fetch_news_body (company_name : string) (days_back : Z)
    : Result (list Json) :=
  data <~ news_service company_name days_back ;;
  status <~ PyObj.get data "status" JNull ;;
  if negb (PyObj.is_str "ok" status) then
    message <~ PyObj.get data "message" (JStr "Unknown error") ;;
    Ok []
  else
    articles <~ PyObj.get data "articles" (JArr []) ;;
    article_count <~ PyObj.len articles ;;
    items <~ py_iter articles ;;
    process_articles items company_name [].

(** [fetch_news_from_api]: both handlers return the empty list. *)
Definition fetch_news_from_api (company_name : string) (days_back : Z)
    : list Json :=
  match fetch_news_body company_name days_back with
  | Ok processed_articles => processed_articles
  | Raise _ => []
  end.

(** [info and 'symbol' in info and info['symbol']], and the symbol then
    returned. *)
Definition symbol_of (info : Json) : Result (option Json) :=
  if negb (PyObj.truthy info) then Ok None
  else
    has_symbol <~ PyObj.contains "symbol" info ;;
    if negb has_symbol then Ok None
    else
      symbol <~ PyObj.subscript info "symbol" ;;
      if PyObj.truthy symbol then Ok (Some symbol) else Ok None.

Definition lookup_symbol (query : string) : Result (option Json) :=
  info <~ ticker_info query ;;
  symbol_of info.

Definition variations (company_name : string) : list string :=
  [str_upper company_name;
   str_replace_space "" company_name;
   str_replace_space "." company_name;
   str_replace_space "-" company_name].

(** The loop of [get_ticker] over the variations: a variation whose lookup
    raises is passed over. *)
Fixpoint try_variations (queries : list string) : option Json :=
  match queries with
  | [] => None
  | variation :: rest =>
      match lookup_symbol variation with
      | Ok (Some symbol) => Some symbol
      | _ => try_variations rest
      end
  end.

(** [get_ticker]. *)
Definition get_ticker (company_name : string) : option Json :=
  match lookup_symbol company_name with
  | Ok (Some symbol) => Some symbol
  | Ok None => try_variations (variations company_name)
  | Raise _ => None
  end.

(** [info.get(key, default)] on a dictionary already known to be one. *)
Definition field_or (fields : list (string * Json)) (key : string)
    (default : Json) : Json :=
  match Dict.get key fields with
  | Some v => v
  | None => default
  end.

(** [get_company_info]. *)
Definition get_company_info (ticker : string) : option (list (string * Json)) :=
  match ticker_info ticker with
  | Raise _ => None
  | Ok info =>
      if negb (PyObj.truthy info) then None
      else
        match info with
        | JObj fields =>
            Some [("symbol", field_or fields "symbol" (JStr ticker));
                  ("name", field_or fields "longName"
                             (field_or fields "shortName" (JStr "Unknown")));
                  ("sector", field_or fields "sector" (JStr "Unknown"));
                  ("industry", field_or fields "industry" (JStr "Unknown"));
                  ("market_cap", field_or fields "marketCap" (JNum 0));
                  ("current_price",
                   field_or fields "currentPrice"
                     (field_or fields "regularMarketPrice" (JNum 0)));
                  ("currency", field_or fields "currency" (JStr "USD"));
                  ("country", field_or fields "country" (JStr "Unknown"));
                  ("website", field_or fields "website" (JStr ""));
                  ("description", field_or fields "longBusinessSummary" (JStr ""))]
        | _ => None
        end
  end.

End DataFetcher.

(** An article of the news service with a null body. *)
Definition null_content_article : Json :=
  JObj [("title", JStr "Acme beats estimates");
        ("description", JStr "Quarterly results"); ("content", JNull)].

(** A lookup that knows one spelling only. *)
Definition dotted_lookup : string -> Result Json :=
  fun query =>
    if String.eqb query "Acme.Corp" then Ok (JObj [("symbol", JStr "ACME")])
    else if String.eqb query "ACME CORP" then Raise ServiceError
    else Ok (JObj []).

(** A body of one hundred characters that names the company. *)
Definition long_content : string :=
  "Acme Corp reported record revenue this quarter, and " ++
  "analysts raised their targets for the coming year as a result.".

(** A body of ninety-nine characters, the last of them of three bytes. *)
Definition clipped_content : string :=
  "Acme Corp reported record revenue this quarter, and " ++
  "analysts raised their targets for the coming y…".

Definition clipped_article : Json :=
  JObj [("title", JStr "Acme beats estimates");
        ("description", JStr "Quarterly results");
        ("content", JStr clipped_content)].

Definition good_article : Json :=
  JObj [("title", JStr "Acme beats estimates");
        ("description", JStr "Quarterly results");
        ("content", JStr long_content);
        ("source", JObj [("name", JStr "Newswire")])].

(** News services: one good article; a good article and one with a null
    body. *)
Definition good_news : string -> Z -> Result Json :=
  fun _ _ => Ok (JObj [("status", JStr "ok"); ("articles", JArr [good_article])]).

Definition poisoned_news : string -> Z -> Result Json :=
  fun _ _ =>
    Ok (JObj [("status", JStr "ok");
              ("articles", JArr [good_article; null_content_article])]).

Definition plain_str : Json -> string := fun _ => "".

(** ** Configuration of the keys *)

(** [Config]: the two keys, each a text or [None]. *)
Record Config : Type := mkConfig {
  google_ai_api_key : option string;
  news_api_key : option string
}.

(** The truth value of a text or [None]; [value != text]; [value is not
    None]; and [len(value) > 10], which the code reaches for a text only. *)
Definition env_truthy (value : option string) : bool :=
  match value with
  | Some s => negb (String.eqb s "")
  | None => false
  end.

Definition differs (value : option string) (text : string) : bool :=
  match value with
  | Some s => negb (String.eqb s text)
  | None => true
  end.

Definition is_not_none (value : option string) : bool :=
  match value with
  | Some _ => true
  | None => false
  end.

Definition longer_than_10 (value : option string) : bool :=
  match value with
  | Some s => (10 <? PyStr.char_count s)%nat
  | None => false
  end.

(** [Config.validate_keys]. *)
Definition validate_keys (c : Config) : bool :=
  differs (google_ai_api_key c) "GEMINI_API"
  && differs (news_api_key c) "NEWS_API"
  && is_not_none (google_ai_api_key c)
  && is_not_none (news_api_key c)
  && longer_than_10 (google_ai_api_key c)
  && longer_than_10 (news_api_key c).

(** The dictionary [get_key_status] returns. *)
Record KeyStatus : Type := mkKeyStatus {
  google_ai_configured : bool;
  news_api_configured : bool;
  google_ai_source : string;
  news_api_source : string
}.

Section Secrets.

(** [os.getenv]. *)
Context (getenv : string -> option string).

(** [Config.__init__]. *)
Definition Config_init : Config :=
  let google := getenv "GOOGLE_AI_API_KEY" in
  let news := getenv "NEWS_API_KEY" in
  mkConfig (if env_truthy google then google else Some "//")
           (if env_truthy news then news else Some "//").

(** [Config.get_key_status]. *)
Definition get_key_status (c : Config) : KeyStatus :=
  mkKeyStatus
    (differs (google_ai_api_key c) "GEMINI_API"
     && is_not_none (google_ai_api_key c)
     && longer_than_10 (google_ai_api_key c))
    (differs (news_api_key c) "NEWS_API"
     && is_not_none (news_api_key c)
     && longer_than_10 (news_api_key c))
    (if env_truthy (getenv "GOOGLE_AI_API_KEY") then "environment" else "secrets.py")
    (if env_truthy (getenv "NEWS_API_KEY") then "environment" else "secrets.py").

End Secrets.

(** An environment with both keys, and one whose news key is empty. *)
Definition full_env : string -> option string :=
  fun name =>
    if String.eqb name "GOOGLE_AI_API_KEY" then Some "google-key-0123456789"
    else if String.eqb name "NEWS_API_KEY" then Some "news-key-0123456789"
    else None.

Definition half_env : string -> option string :=
  fun name =>
    if String.eqb name "GOOGLE_AI_API_KEY" then Some "google-key-0123456789"
    else if String.eqb name "NEWS_API_KEY" then Some ""
    else None.

(** [sample_6_1] with a Neutral and a seventh Positive judgment after it. *)
Definition sample_6_1_more : list SentimentResult :=
  (sample_6_1 ++ [judgment "Neutral" "guidance is unchanged";
                  judgment "Positive" "late good news"])%list.

(** A data fetcher that finds a ticker and the three articles. *)
Definition sample_ticker : string -> option string := fun _ => Some "ACME".

Definition sample_company_info : string -> option string := fun _ => None.

Definition sample_fetch : string -> Z -> list Article := fun _ _ => three_articles.

Definition sample_exception_text : Exn -> string := fun _ => "".

Definition sample_params : ConfigParams := mkConfigParams 7 5.

(** ** Checks of the Python primitives *)

Example strip_ex : PyStr.strip "  ab c
 " = "ab c".
Proof. reflexivity. Qed.

Example title_ex : PyStr.title "pOSITIVE news" = "Positive News".
Proof. reflexivity. Qed.

Example find_ex : PyStr.find "```" "```json{}```" 7 = 9.
Proof. reflexivity. Qed.

Example slice_ex : PyStr.slice "abcdef" 2 (-1) = "cde".
Proof. reflexivity. Qed.

Example rfind_ex : PyStr.rfind "}" "a{b}c}d" = 5.
Proof. reflexivity. Qed.

Example take_ex :
  PyStr.take 4 "café…au lait" = "café"
  /\ PyStr.take 5 "café…au lait" = "café…"
  /\ PyStr.take 20 "café…" = "café…".
Proof. repeat split; reflexivity. Qed.

Example len_ex :
  PyObj.len (JStr "café…") = Ok 5 /\ String.length "café…" = 8%nat.
Proof. split; reflexivity. Qed.

Example percentage_double_ex :
  percentage_double 5 3 = float_of_int 60
  /\ percentage_double 25 18 = float_of_int 72
  /\ PrimFloat.ltb (float_of_int 28) (percentage_double 25 7) = true.
Proof. repeat split; reflexivity. Qed.

Example loads_ex :
  MiniJson.loads (PyStr.quoted "{'sentiment': 'positive', 'confidence': 0.9, 'k': [1, null]}")
  = Ok (JObj [("sentiment", JStr "positive"); ("confidence", JNum (9 # 10));
              ("k", JArr [JNum 1; JNull])]).
Proof. vm_compute. reflexivity. Qed.

(** ** Basic facts about runs *)

Lemma rate_limit_run (w : World) : _rate_limit w = (Ok tt, stamped w).
Proof.
  unfold _rate_limit, stamped, wake_time, bind, time_time, get_last_request_time,
    get_min_request_interval, set_last_request_time, time_sleep, ret.
  destruct (Qlt_bool (clock w - last_request_time w) (min_request_interval w));
    reflexivity.
Qed.

Lemma generate_content_run (prompt : string) (w : World) :
  generate_content prompt (stamped w)
  = (reply_text (next_reply w prompt), after_call prompt w).
Proof. reflexivity. Qed.

Lemma limited_call_run (prompt : string) (w : World) :
  (_rate_limit ;;; generate_content prompt) w
  = (reply_text (next_reply w prompt), after_call prompt w).
Proof. unfold bind. rewrite rate_limit_run. reflexivity. Qed.

Section RunFacts.
Context (json_loads : string -> Result Json) (strftime : Q -> string).

Lemma analyze_run (article : Article) (w : World) :
  analyze_article_sentiment json_loads article w
  = (Ok match reply_text (next_reply w (article_prompt article)) with
        | Ok text => judgment_of_text json_loads article text
        | Raise _ => None
        end,
     after_classification (article_prompt article) w).
Proof.
  unfold analyze_article_sentiment, try_except, analyze_article_body, bind.
  rewrite rate_limit_run. unfold build_prompt.
  change (generate_content (article_prompt article)
            (with_clock
               (clock (stamped w)
                + preparation_time
                    (service (stamped w) (List.length (calls (stamped w)))
                       (article_prompt article)))
               (stamped w)))
    with (reply_text (next_reply w (article_prompt article)),
          after_classification (article_prompt article) w).
  destruct (reply_text (next_reply w (article_prompt article))) as [text|e];
    [|reflexivity].
  unfold judgment_of_text.
  destruct (String.eqb text ""); [reflexivity|].
  destruct (_parse_sentiment_response json_loads text); reflexivity.
Qed.

Lemma bull_bear_run (js : list SentimentResult) (company : string) (w : World) :
  _generate_bull_bear_cases json_loads js company w
  = (Ok match narrative_of_reply json_loads (next_reply w (narrative_prompt js company)) with
        | Some cases => cases
        | None => _create_default_bull_bear_cases js
        end,
     after_call (narrative_prompt js company) w).
Proof.
  unfold _generate_bull_bear_cases, try_except, generate_bull_bear_body, bind,
    narrative_of_reply.
  rewrite rate_limit_run, generate_content_run.
  destruct (reply_text (next_reply w (narrative_prompt js company))) as [text|e];
    [|reflexivity].
  unfold narrative_of_text.
  destruct (String.eqb text ""); [reflexivity|].
  destruct (_parse_bull_bear_response json_loads text) as [data|]; [|reflexivity].
  destruct (PyObj.truthy data); [|reflexivity].
  unfold lift, ret.
  destruct (PyObj.subscript data "bull_case"); [|reflexivity].
  destruct (PyObj.subscript data "bear_case"); reflexivity.
Qed.

End RunFacts.

(** ** The tally *)

Lemma Qlt_bool_iff (a b : Q) : Qlt_bool a b = true <-> (a < b)%Q.
Proof.
  unfold Qlt_bool. rewrite negb_true_iff.
  split; intro H.
  - apply Qnot_le_lt. intro Hle. apply Qle_bool_iff in Hle. congruence.
  - destruct (Qle_bool b a) eqn:E; [|reflexivity].
    apply Qle_bool_iff in E. exfalso. apply (Qlt_not_le _ _ H E).
Qed.

Lemma Qlt_bool_false_iff (a b : Q) : Qlt_bool a b = false <-> (b <= a)%Q.
Proof.
  unfold Qlt_bool. rewrite negb_false_iff. apply Qle_bool_iff.
Qed.

Lemma counter_incr_get (k k' : string) (d : list (string * Z)) :
  Dict.get k' (counter_incr k d)
  = if String.eqb k' k
    then Some (match Dict.get k' d with Some n => n + 1 | None => 1 end)
    else Dict.get k' d.
Proof.
  induction d as [|[k0 n] d IH]; simpl.
  - destruct (String.eqb k' k); reflexivity.
  - destruct (String.eqb k k0) eqn:E0; simpl.
    + apply String.eqb_eq in E0. subst k0.
      destruct (String.eqb k' k); reflexivity.
    + destruct (String.eqb k' k0) eqn:E1.
      * apply String.eqb_eq in E1. subst k0.
        rewrite String.eqb_sym in E0. rewrite E0. reflexivity.
      * exact IH.
Qed.

Lemma counter_incr_keys (k k' : string) (d : list (string * Z)) :
  In k' (Dict.keys (counter_incr k d)) <-> k' = k \/ In k' (Dict.keys d).
Proof.
  unfold Dict.keys.
  induction d as [|[k0 n] d IH]; simpl.
  - intuition auto.
  - destruct (String.eqb k k0) eqn:E0; simpl.
    + apply String.eqb_eq in E0. subst k0. intuition auto.
    + rewrite IH. intuition auto.
Qed.

Lemma counter_incr_NoDup (k : string) (d : list (string * Z)) :
  NoDup (Dict.keys d) -> NoDup (Dict.keys (counter_incr k d)).
Proof.
  unfold Dict.keys.
  induction d as [|[k0 n] d IH]; simpl; intro H.
  - constructor; [intros []|constructor].
  - inversion H as [|? ? Hnin Hnd]; subst.
    destruct (String.eqb k k0) eqn:E0; simpl.
    + constructor; assumption.
    + constructor; [|auto].
      intro Hin. apply (counter_incr_keys k k0 d) in Hin.
      destruct Hin as [->|Hin]; [|contradiction].
      rewrite String.eqb_refl in E0. discriminate.
Qed.



Lemma Counter_snoc (l : list string) (x : string) :
  Counter (l ++ [x]) = counter_incr x (Counter l).
Proof. unfold Counter. rewrite fold_left_app. reflexivity. Qed.

Lemma occurrences_snoc (k x : string) (l : list string) :
  occurrences k (l ++ [x])
  = occurrences k l + (if String.eqb k x then 1 else 0).
Proof.
  unfold occurrences. rewrite count_occ_app. simpl.
  destruct (string_dec x k) as [->|Hne].
  - rewrite String.eqb_refl. lia.
  - destruct (String.eqb k x) eqn:E; [|lia].
    apply String.eqb_eq in E. congruence.
Qed.

Lemma occurrences_nonneg (k : string) (l : list string) : 0 <= occurrences k l.
Proof. unfold occurrences. lia. Qed.

Lemma occurrences_pos_iff (k : string) (l : list string) :
  0 < occurrences k l <-> In k l.
Proof.
  unfold occurrences. rewrite (count_occ_In string_dec). lia.
Qed.

Lemma Counter_get (k : string) (l : list string) :
  Dict.get k (Counter l)
  = if occurrences k l =? 0 then None else Some (occurrences k l).
Proof.
  induction l as [|x l IH] using rev_ind.
  - reflexivity.
  - rewrite Counter_snoc, counter_incr_get, occurrences_snoc, IH.
    pose proof (occurrences_nonneg k l) as Hnn.
    destruct (String.eqb k x).
    + destruct (occurrences k l =? 0) eqn:E.
      * apply Z.eqb_eq in E. rewrite E. reflexivity.
      * apply Z.eqb_neq in E.
        destruct (occurrences k l + 1 =? 0) eqn:E'; [apply Z.eqb_eq in E'; lia|].
        reflexivity.
    + rewrite Z.add_0_r. reflexivity.
Qed.

Lemma Counter_keys (k : string) (l : list string) :
  In k (Dict.keys (Counter l)) <-> In k l.
Proof.
  induction l as [|x l IH] using rev_ind.
  - simpl. tauto.
  - rewrite Counter_snoc, counter_incr_keys, IH, in_app_iff. simpl.
    intuition auto.
Qed.

Lemma Counter_NoDup (l : list string) : NoDup (Dict.keys (Counter l)).
Proof.
  induction l as [|x l IH] using rev_ind.
  - constructor.
  - rewrite Counter_snoc. apply counter_incr_NoDup, IH.
Qed.



Lemma Counter_nonempty (l : list string) : l <> [] -> Counter l <> [].
Proof.
  intros Hne Hc.
  destruct l as [|x l]; [congruence|].
  assert (Hin : In x (Dict.keys (Counter (x :: l)))) by (apply Counter_keys; left; reflexivity).
  rewrite Hc in Hin. exact Hin.
Qed.

Lemma get_In {V} (k : string) (v : V) (d : list (string * V)) :
  Dict.get k d = Some v -> In (k, v) d.
Proof.
  induction d as [|[k0 v0] d IH]; simpl; [discriminate|].
  destruct (String.eqb k k0) eqn:E.
  - apply String.eqb_eq in E. intros [= ->]. left. congruence.
  - auto.
Qed.

Lemma In_get {V} (k : string) (v : V) (d : list (string * V)) :
  NoDup (Dict.keys d) -> In (k, v) d -> Dict.get k d = Some v.
Proof.
  unfold Dict.keys.
  induction d as [|[k0 v0] d IH]; simpl; [tauto|].
  intros Hnd [Heq|Hin].
  - injection Heq as -> ->. rewrite String.eqb_refl. reflexivity.
  - inversion Hnd as [|? ? Hnin Hnd']; subst.
    destruct (String.eqb k k0) eqn:E.
    + apply String.eqb_eq in E. subst k0.
      exfalso. apply Hnin. apply (in_map fst) in Hin. exact Hin.
    + auto.
Qed.

(** ** The report of a non-empty judgment list *)

Lemma percentages_get (n : Z) (k : string) (d : list (string * Z)) :
  Dict.get k (map (fun '(label, count) => (label, percentage n count)) d)
  = option_map (percentage n) (Dict.get k d).
Proof.
  induction d as [|[k0 c] d IH]; simpl; [reflexivity|].
  destruct (String.eqb k k0); [reflexivity|exact IH].
Qed.

Lemma percentages_keys (n : Z) (d : list (string * Z)) :
  Dict.keys (map (fun '(label, count) => (label, percentage n count)) d)
  = Dict.keys d.
Proof.
  unfold Dict.keys. rewrite map_map. apply map_ext. intros [k c]. reflexivity.
Qed.

Lemma share_get (js : list SentimentResult) (k : string) :
  Dict.get k (sentiment_percentages_of js)
  = if occurrences k (map sentiment js) =? 0 then None else Some (share js k).
Proof.
  unfold sentiment_percentages_of, sentiment_counts_of.
  rewrite percentages_get, Counter_get.
  destruct (occurrences k (map sentiment js) =? 0); reflexivity.
Qed.

Lemma max_fold_spec (rest : list (string * Q)) (x : string * Q) :
  let m := fold_left (fun best y => if Qlt_bool (snd best) (snd y) then y else best)
                     rest x in
  In m (x :: rest) /\ forall y, In y (x :: rest) -> (snd y <= snd m)%Q.
Proof.
  revert x. induction rest as [|z rest IH]; intro x; simpl.
  - split; [left; reflexivity|].
    intros y [<-|[]]. apply Qle_refl.
  - destruct (Qlt_bool (snd x) (snd z)) eqn:E.
    + destruct (IH z) as [Hin Hmax]. split.
      * right. exact Hin.
      * intros y [<-|Hy]; [|apply Hmax; exact Hy].
        apply Qlt_bool_iff in E. apply Qlt_le_weak in E.
        eapply Qle_trans; [exact E|]. apply Hmax. left. reflexivity.
    + destruct (IH x) as [Hin Hmax]. split.
      * destruct Hin as [Hin|Hin]; [left; exact Hin|right; right; exact Hin].
      * intros y [<-|[<-|Hy]].
        -- apply Hmax. left. reflexivity.
        -- apply Qlt_bool_false_iff in E.
           eapply Qle_trans; [exact E|]. apply Hmax. left. reflexivity.
        -- apply Hmax. right. exact Hy.
Qed.

Lemma max_by_value_spec (items : list (string * Q)) :
  items <> [] ->
  exists m, max_by_value items = Ok m /\ In m items
            /\ forall y, In y items -> (snd y <= snd m)%Q.
Proof.
  destruct items as [|x rest]; [congruence|]. intros _.
  eexists. split; [reflexivity|]. apply max_fold_spec.
Qed.

(** Among items of equal greatest value, [max] returns the first. *)
Lemma max_fold_first (rest : list (string * Q)) (x : string * Q) :
  let m := fold_left (fun best y => if Qlt_bool (snd best) (snd y) then y else best)
                     rest x in
  exists pre post,
    x :: rest = (pre ++ m :: post)%list
    /\ (forall y, In y pre -> (snd y < snd m)%Q)
    /\ (forall y, In y post -> (snd y <= snd m)%Q).
Proof.
  revert x. induction rest as [|z rest IH]; intro x; cbn [fold_left].
  - exists [], []. split; [reflexivity|]. split; intros y [].
  - destruct (Qlt_bool (snd x) (snd z)) eqn:E.
    + destruct (max_fold_spec rest z) as [_ Hmax].
      specialize (IH z). cbv zeta in IH, Hmax |- *.
      set (m := fold_left _ rest z) in *.
      destruct IH as [pre [post [Heq [Hpre Hpost]]]].
      exists (x :: pre), post. split; [simpl; congruence|].
      split; [|exact Hpost].
      intros y [<-|Hy]; [|apply Hpre; exact Hy].
      apply Qlt_bool_iff in E.
      eapply Qlt_le_trans; [exact E|]. apply Hmax. left. reflexivity.
    + apply Qlt_bool_false_iff in E.
      specialize (IH x). cbv zeta in IH |- *.
      set (m := fold_left _ rest x) in *.
      destruct IH as [pre [post [Heq [Hpre Hpost]]]].
      destruct pre as [|x' pre'].
      * simpl in Heq. injection Heq as Hm Hrest.
        exists [], (z :: post). split; [simpl; congruence|].
        split; [intros y []|].
        intros y [<-|Hy]; [rewrite <- Hm; exact E|apply Hpost; exact Hy].
      * simpl in Heq. injection Heq as Hx Hrest. subst x'.
        exists (x :: z :: pre'), post.
        split; [simpl; congruence|].
        split; [|exact Hpost].
        intros y [<-|[<-|Hy]].
        -- apply Hpre. left. reflexivity.
        -- eapply Qle_lt_trans; [exact E|]. apply Hpre. left. reflexivity.
        -- apply Hpre. right. exact Hy.
Qed.

Lemma determine_overall_spec (pcts : list (string * Q)) :
  pcts <> [] ->
  exists label p,
    In (label, p) pcts
    /\ (forall y, In y pcts -> (snd y <= p)%Q)
    /\ _determine_overall_sentiment pcts
       = Ok (if Qlt_bool p 40 then "Neutral" else label).
Proof.
  intro Hne. destruct (max_by_value_spec pcts Hne) as [[label p] [Hm [Hin Hmax]]].
  exists label, p. split; [exact Hin|]. split; [exact Hmax|].
  unfold _determine_overall_sentiment. rewrite Hm. simpl.
  destruct (Qlt_bool p 40); reflexivity.
Qed.

Lemma percentages_nonempty (js : list SentimentResult) :
  js <> [] -> sentiment_percentages_of js <> [].
Proof.
  intros Hne Hp. unfold sentiment_percentages_of in Hp.
  apply map_eq_nil in Hp. revert Hp. apply Counter_nonempty.
  intro Hm. apply map_eq_nil in Hm. contradiction.
Qed.

Section ReportFacts.
Context (json_loads : string -> Result Json) (strftime : Q -> string).

Lemma empty_report_run (company : string) (w : World) :
  generate_final_report json_loads strftime [] company w
  = (Ok (mkSentimentReport "Neutral" [("Neutral", 0)] [("Neutral", 100%Q)]
           (PyObj.of_list [no_news_point]) (PyObj.of_list [no_news_point])
           0 0 (strftime (clock w))),
     w).
Proof. reflexivity. Qed.

Lemma final_report_run (js : list SentimentResult) (company : string) (w : World) :
  js <> [] ->
  exists overall,
    _determine_overall_sentiment (sentiment_percentages_of js) = Ok overall
    /\ generate_final_report json_loads strftime js company w
       = (Ok (mkSentimentReport overall
                (sentiment_counts_of js)
                (sentiment_percentages_of js)
                (fst (cases_of json_loads js company w))
                (snd (cases_of json_loads js company w))
                (Z.of_nat (List.length js))
                (Z.of_nat (List.length js))
                (strftime (clock (after_call (narrative_prompt js company) w)))),
          after_call (narrative_prompt js company) w).
Proof.
  intro Hne.
  destruct (determine_overall_spec _ (percentages_nonempty js Hne))
    as [label [p [_ [_ Hov]]]].
  eexists. split; [exact Hov|].
  unfold generate_final_report, try_except, generate_final_report_body.
  destruct js as [|j js']; [congruence|].
  unfold bind, lift.
  change (map (fun '(label0, count) =>
                 (label0, percentage (Z.of_nat (List.length (j :: js'))) count))
              (Counter (map sentiment (j :: js'))))
    with (sentiment_percentages_of (j :: js')).
  rewrite Hov, bull_bear_run. reflexivity.
Qed.

End ReportFacts.

(** ** Percentages *)

Lemma percentage_formula (n c : Z) :
  0 < n -> (percentage n c == 100 * inject_Z c / inject_Z n)%Q.
Proof.
  intro Hn. unfold percentage. field.
  intro H. unfold Qeq in H. simpl in H. lia.
Qed.

Lemma percentage_le (n a b : Z) :
  0 < n -> ((percentage n a <= percentage n b)%Q <-> a <= b).
Proof.
  intro Hn. destruct n as [|p|p]; try lia.
  unfold percentage, Qle, Qdiv, Qmult, Qinv, inject_Z. simpl.
  rewrite ?Pos.mul_1_r, ?Z.mul_1_r, <- !Z.mul_assoc.
  symmetry. apply Z.mul_le_mono_pos_r. reflexivity.
Qed.

Lemma percentage_lt_const (n a m : Z) :
  0 < n -> ((percentage n a < inject_Z m)%Q <-> 100 * a < m * n).
Proof.
  intro Hn. destruct n as [|p|p]; try lia.
  unfold percentage, Qlt, Qdiv, Qmult, Qinv, inject_Z. cbn -[Z.mul].
  rewrite ?Pos.mul_1_r, ?Z.mul_1_r. lia.
Qed.

Lemma percentage_eq_const (n a m : Z) :
  0 < n -> ((percentage n a == inject_Z m)%Q <-> 100 * a = m * n).
Proof.
  intro Hn. destruct n as [|p|p]; try lia.
  unfold percentage, Qeq, Qdiv, Qmult, Qinv, inject_Z. cbn -[Z.mul].
  rewrite ?Pos.mul_1_r, ?Z.mul_1_r. lia.
Qed.

(** Distinct labels share the judgments between them. *)
Lemma occurrences_cons (k x : string) (l : list string) :
  occurrences k (x :: l) = occurrences k l + (if String.eqb k x then 1 else 0).
Proof.
  unfold occurrences. simpl.
  destruct (string_dec x k) as [->|Hne].
  - rewrite String.eqb_refl. lia.
  - destruct (String.eqb k x) eqn:E; [|lia].
    apply String.eqb_eq in E. congruence.
Qed.

Lemma hits_le_one (x : string) (ks : list string) :
  NoDup ks -> Zsum (map (fun k => if String.eqb k x then 1 else 0) ks) <= 1.
Proof.
  induction ks as [|k ks IH]; simpl; intro Hnd; [lia|].
  inversion Hnd as [|? ? Hnin Hnd']; subst.
  destruct (String.eqb k x) eqn:E.
  - apply String.eqb_eq in E. subst k.
    assert (Hz : Zsum (map (fun k => if String.eqb k x then 1 else 0) ks) = 0).
    { clear IH Hnd Hnd'. induction ks as [|k ks IH]; simpl; [reflexivity|].
      destruct (String.eqb k x) eqn:E.
      - apply String.eqb_eq in E. subst k. exfalso. apply Hnin. left. reflexivity.
      - rewrite IH; [reflexivity|]. intro H. apply Hnin. right. exact H. }
    lia.
  - specialize (IH Hnd'). lia.
Qed.

Lemma occurrences_share (ks l : list string) :
  NoDup ks ->
  Zsum (map (fun k => occurrences k l) ks) <= Z.of_nat (List.length l).
Proof.
  intro Hnd. induction l as [|x l IH].
  - assert (H : Zsum (map (fun k => occurrences k []) ks) = 0)
      by (clear Hnd; induction ks as [|k ks IHk]; simpl;
          [reflexivity|rewrite IHk; reflexivity]).
    simpl. lia.
  - assert (H : Zsum (map (fun k => occurrences k (x :: l)) ks)
                = Zsum (map (fun k => occurrences k l) ks)
                  + Zsum (map (fun k => if String.eqb k x then 1 else 0) ks)).
    { clear. induction ks as [|k ks IHk]; simpl; [reflexivity|].
      rewrite occurrences_cons, IHk. lia. }
    pose proof (hits_le_one x ks Hnd).
    simpl List.length. lia.
Qed.

(** ** Report synthesis *)

Section Synthesis.
Context (json_loads : string -> Result Json) (strftime : Q -> string).

(** C3.  For every company name, the report of an empty judgment list is the
    canonical empty report: overall sentiment Neutral, breakdown
    [{Neutral: 0}], percentages [{Neutral: 100.0}], one fixed placeholder
    point in each case list, both article counts zero; only the timestamp,
    the formatted clock reading, varies.  No call of the service is made. *)
Theorem empty_judgments_give_canonical_empty_report
    (company : string) (w : World) :
  exists r,
    generate_final_report json_loads strftime [] company w = (Ok r, w)
    /\ overall_sentiment r = "Neutral"
    /\ sentiment_breakdown r = [("Neutral", 0)]
    /\ sentiment_percentages r = [("Neutral", 100%Q)]
    /\ bull_case r = JArr [JStr "• No recent news available for analysis"]
    /\ bear_case r = JArr [JStr "• No recent news available for analysis"]
    /\ total_articles r = 0
    /\ analyzed_articles r = 0
    /\ analysis_timestamp r = strftime (clock w).
Proof.
  eexists. split; [apply empty_report_run|].
  simpl. repeat split; reflexivity.
Qed.

(** C10.  For every judgment list, the report has
    [total_articles = analyzed_articles], both the length of the list (both
    zero for the empty report): the total never counts an article that was
    dropped before synthesis. *)
Theorem total_articles_equals_analyzed_articles
    (js : list SentimentResult) (company : string) (w : World) :
  exists r w',
    generate_final_report json_loads strftime js company w = (Ok r, w')
    /\ total_articles r = analyzed_articles r
    /\ analyzed_articles r = Z.of_nat (List.length js).
Proof.
  destruct js as [|j js'].
  - eexists. eexists. split; [apply empty_report_run|]. split; reflexivity.
  - destruct (final_report_run json_loads strftime (j :: js') company w)
      as [overall [_ Hrun]]; [discriminate|].
    eexists. eexists. split; [exact Hrun|]. split; reflexivity.
Qed.


End Synthesis.

Section OverallSentiment.
Context (json_loads : string -> Result Json) (strftime : Q -> string).

(** What [_determine_overall_sentiment] returns on the percentage table of
    a non-empty judgment list, in terms of the shares of the labels. *)
Lemma overall_of_shares (js : list SentimentResult) :
  js <> [] ->
  exists label,
    In label (map sentiment js)
    /\ (forall k, (share js k <= share js label)%Q)
    /\ _determine_overall_sentiment (sentiment_percentages_of js)
       = Ok (if Qlt_bool (share js label) 40 then "Neutral" else label).
Proof.
  intro Hne.
  assert (Hlen : 0 < Z.of_nat (List.length js))
    by (destruct js; [congruence|simpl; lia]).
  destruct (determine_overall_spec _ (percentages_nonempty js Hne))
    as [label [p [Hin [Hmax Hov]]]].
  assert (Hget : Dict.get label (sentiment_percentages_of js) = Some p).
  { apply In_get; [|exact Hin].
    unfold sentiment_percentages_of. rewrite percentages_keys.
    apply Counter_NoDup. }
  rewrite share_get in Hget.
  destruct (occurrences label (map sentiment js) =? 0) eqn:E; [discriminate|].
  injection Hget as <-. apply Z.eqb_neq in E.
  pose proof (occurrences_nonneg label (map sentiment js)) as Hnn.
  exists label. split; [apply occurrences_pos_iff; lia|].
  split; [|exact Hov].
  intro k. destruct (occurrences k (map sentiment js) =? 0) eqn:Ek.
  - apply Z.eqb_eq in Ek. unfold share. apply percentage_le; [exact Hlen|]. lia.
  - pose proof (share_get js k) as Hk. rewrite Ek in Hk.
    apply get_In in Hk. apply (Hmax _ Hk).
Qed.

Lemma share_eq_const (js : list SentimentResult) (k : string) (m : Z) :
  js <> [] ->
  (share js k == inject_Z m)%Q ->
  100 * occurrences k (map sentiment js) = m * Z.of_nat (List.length js).
Proof.
  intros Hne H. apply percentage_eq_const; [|exact H].
  destruct js; [congruence|simpl; lia].
Qed.

Lemma share_percent_of (js : list SentimentResult) (k : string) :
  js <> [] -> (share js k == percent_of js k)%Q.
Proof.
  intro Hne. unfold share, percent_of.
  rewrite percentage_formula by (destruct js; [congruence|simpl; lia]).
  rewrite inject_Z_mult. reflexivity.
Qed.

Lemma Qlt_bool_comp_share (js : list SentimentResult) (k : string) :
  js <> [] ->
  Qlt_bool (share js k) 40 = Qlt_bool (percent_of js k) 40.
Proof.
  intro Hne. pose proof (share_percent_of js k Hne) as Heq.
  destruct (Qlt_bool (percent_of js k) 40) eqn:E.
  - apply Qlt_bool_iff. apply Qlt_bool_iff in E. rewrite Heq. exact E.
  - apply Qlt_bool_false_iff. apply Qlt_bool_false_iff in E.
    rewrite Heq. exact E.
Qed.

Lemma percent_of_eq_const (js : list SentimentResult) (k : string) (m : Z) :
  js <> [] ->
  (percent_of js k == inject_Z m)%Q ->
  100 * occurrences k (map sentiment js) = m * Z.of_nat (List.length js).
Proof.
  intros Hne H. apply (share_eq_const js k m Hne).
  rewrite share_percent_of by exact Hne. exact H.
Qed.

(** C1.  For every non-empty judgment list: when every label's percentage
    is strictly below 40 the overall sentiment is Neutral; otherwise it is a
    label of the list whose percentage no other label exceeds.  In
    particular 35% Positive / 35% Negative / 30% Neutral gives Neutral, and
    60% Positive / 40% Negative gives Positive. *)
Theorem overall_sentiment_by_highest_share
    (js : list SentimentResult) (company : string) (w : World) :
  js <> [] ->
  exists r w',
    generate_final_report json_loads strftime js company w = (Ok r, w')
    /\ ((forall k, (percent_of js k < 40)%Q) -> overall_sentiment r = "Neutral")
    /\ ((exists k, (40 <= percent_of js k)%Q) ->
        In (overall_sentiment r) (map sentiment js)
        /\ (40 <= percent_of js (overall_sentiment r))%Q
        /\ forall k, (percent_of js k <= percent_of js (overall_sentiment r))%Q)
    /\ ((percent_of js "Positive" == 35)%Q ->
        (percent_of js "Negative" == 35)%Q ->
        (percent_of js "Neutral" == 30)%Q -> overall_sentiment r = "Neutral")
    /\ ((percent_of js "Positive" == 60)%Q ->
        (percent_of js "Negative" == 40)%Q ->
        overall_sentiment r = "Positive").
Proof.
  intro Hne.
  assert (Hlen : 0 < Z.of_nat (List.length js))
    by (destruct js; [congruence|simpl; lia]).
  destruct (final_report_run json_loads strftime js company w Hne)
    as [overall [Hov Hrun]].
  destruct (overall_of_shares js Hne) as [label [Hin [Hmax Hov']]].
  rewrite Hov in Hov'. injection Hov' as Hoverall.
  assert (Hmax' : forall k, (percent_of js k <= percent_of js label)%Q).
  { intro k. rewrite <- !share_percent_of by exact Hne. apply Hmax. }
  rewrite (Qlt_bool_comp_share js label Hne) in Hoverall.
  eexists. eexists. split; [exact Hrun|]. simpl.
  assert (Hlow : (forall k, (percent_of js k < 40)%Q) -> overall = "Neutral").
  { intro Hall. rewrite Hoverall.
    destruct (Qlt_bool (percent_of js label) 40) eqn:E; [reflexivity|].
    apply Qlt_bool_false_iff in E. specialize (Hall label).
    exfalso. apply (Qlt_not_le _ _ Hall E). }
  assert (Hhigh : (exists k, (40 <= percent_of js k)%Q) ->
                  overall = label /\ (40 <= percent_of js label)%Q).
  { intros [k Hk].
    assert (H40 : (40 <= percent_of js label)%Q)
      by (eapply Qle_trans; [exact Hk|apply Hmax']).
    split; [|exact H40]. rewrite Hoverall.
    destruct (Qlt_bool (percent_of js label) 40) eqn:E; [|reflexivity].
    apply Qlt_bool_iff in E. exfalso. apply (Qlt_not_le _ _ E H40). }
  split; [exact Hlow|].
  split.
  { intro Hex. destruct (Hhigh Hex) as [-> H40].
    split; [assumption|]. split; assumption. }
  split.
  - intros HP HN HU. apply Hlow. intro k.
    apply (percent_of_eq_const js _ 35 Hne) in HP.
    apply (percent_of_eq_const js _ 35 Hne) in HN.
    apply (percent_of_eq_const js _ 30 Hne) in HU.
    rewrite <- share_percent_of by exact Hne.
    change 40%Q with (inject_Z 40). unfold share.
    apply percentage_lt_const; [exact Hlen|].
    destruct (string_dec k "Positive") as [->|H1]; [lia|].
    destruct (string_dec k "Negative") as [->|H2]; [lia|].
    destruct (string_dec k "Neutral") as [->|H3]; [lia|].
    assert (Hnd : NoDup ["Positive"; "Negative"; "Neutral"; k]).
    { repeat constructor; simpl; intuition (try discriminate; congruence). }
    pose proof (occurrences_share _ (map sentiment js) Hnd) as Hs.
    simpl in Hs. rewrite length_map in Hs. lia.
  - intros HP HN.
    destruct Hhigh as [-> H40].
    { exists "Positive". rewrite HP. unfold Qle. simpl. lia. }
    pose proof (Hmax' "Positive") as Hge. rewrite HP in Hge.
    rewrite <- share_percent_of in Hge by exact Hne.
    apply (percent_of_eq_const js _ 60 Hne) in HP.
    apply (percent_of_eq_const js _ 40 Hne) in HN.
    destruct (string_dec label "Positive") as [->|H1]; [reflexivity|].
    exfalso.
    assert (H60 : 60 * Z.of_nat (List.length js)
                  <= 100 * occurrences label (map sentiment js)).
    { change 60%Q with (inject_Z 60) in Hge. unfold share in Hge.
      destruct (Z_lt_le_dec (100 * occurrences label (map sentiment js))
                            (60 * Z.of_nat (List.length js))) as [Hlt|Hle];
        [|exact Hle].
      apply (percentage_lt_const _ _ 60 Hlen) in Hlt.
      exfalso. apply (Qlt_not_le _ _ Hlt Hge). }
    destruct (string_dec label "Negative") as [->|H2]; [lia|].
    assert (Hnd : NoDup ["Positive"; "Negative"; label]).
    { repeat constructor; simpl; intuition (try discriminate; congruence). }
    pose proof (occurrences_share _ (map sentiment js) Hnd) as Hs.
    simpl in Hs. rewrite length_map in Hs. lia.
Qed.

End OverallSentiment.

(** ** The deterministic fallback *)

Lemma default_cases_fold (js : list SentimentResult) (bull bear : list string) :
  fold_left default_cases_step js (bull, bear)
  = ((bull ++ map (fun j => case_point (reasoning j))
                 (filter (fun j => String.eqb (sentiment j) "Positive") js))%list,
     (bear ++ map (fun j => case_point (reasoning j))
                 (filter (fun j => String.eqb (sentiment j) "Negative") js))%list).
Proof.
  revert bull bear. induction js as [|j js IH]; intros bull bear; simpl.
  - rewrite !app_nil_r. reflexivity.
  - destruct (String.eqb (sentiment j) "Positive") eqn:EP.
    + apply String.eqb_eq in EP. rewrite EP. simpl.
      rewrite IH, <- app_assoc. reflexivity.
    + destruct (String.eqb (sentiment j) "Negative") eqn:EN; simpl.
      * rewrite IH, <- app_assoc. reflexivity.
      * apply IH.
Qed.

Lemma default_cases_spec (js : list SentimentResult) :
  default_cases js
  = (fallback_points "Positive" default_bull_point js,
     fallback_points "Negative" default_bear_point js).
Proof.
  unfold default_cases, fallback_points.
  rewrite default_cases_fold. reflexivity.
Qed.

Lemma create_default_spec (js : list SentimentResult) :
  _create_default_bull_bear_cases js
  = (PyObj.of_list (fallback_points "Positive" default_bull_point js),
     PyObj.of_list (fallback_points "Negative" default_bear_point js)).
Proof.
  unfold _create_default_bull_bear_cases. rewrite default_cases_spec. reflexivity.
Qed.

Lemma fallback_points_length (label placeholder : string)
    (js : list SentimentResult) :
  List.length (fallback_points label placeholder js)
  = Nat.min 5 (Nat.max 1 (judgments_with label js)).
Proof.
  unfold fallback_points, judgments_with.
  destruct (filter (fun j => String.eqb (sentiment j) label) js) as [|j l] eqn:E.
  - reflexivity.
  - cbn [map]. rewrite length_firstn. cbn [List.length].
    rewrite length_map. lia.
Qed.

Lemma take_first_characters (n : nat) (s : string) :
  first_characters n s (PyStr.take n s).
Proof.
  exists (after_take n s). revert n.
  induction s as [|c s IH]; intro n; simpl.
  - repeat split. rewrite Nat.min_0_r. reflexivity.
  - destruct (PyStr.is_continuation c) eqn:Ec.
    + destruct (IH n) as [Heq [Hstart Hcount]].
      simpl. rewrite Ec. split; [f_equal; exact Heq|]. split; assumption.
    + destruct n as [|n'].
      * simpl. rewrite Ec. repeat split.
      * destruct (IH n') as [Heq [Hstart Hcount]].
        simpl. rewrite Ec, Hcount.
        split; [f_equal; exact Heq|]. split; [exact Hstart|reflexivity].
Qed.

(** The first [n] characters of a text are determined. *)
Lemma characters_split_unique (b1 r1 b2 r2 : string) :
  b1 ++ r1 = b2 ++ r2 ->
  starts_character r1 -> starts_character r2 ->
  PyStr.char_count b1 = PyStr.char_count b2 ->
  b1 = b2.
Proof.
  revert b2. induction b1 as [|c b1 IH]; intros [|c2 b2]; simpl.
  - reflexivity.
  - intros -> Hs _. simpl in Hs. rewrite Hs. discriminate.
  - intros <- _ Hs. simpl in Hs. rewrite Hs. discriminate.
  - intros [= <- Heq] H1 H2 Hc. f_equal. apply (IH b2 Heq H1 H2).
    destruct (PyStr.is_continuation c); [exact Hc|].
    injection Hc as Hc. exact Hc.
Qed.

Lemma first_characters_unique (n : nat) (text b1 b2 : string) :
  first_characters n text b1 -> first_characters n text b2 -> b1 = b2.
Proof.
  intros [r1 [H1 [Hs1 Hc1]]] [r2 [H2 [Hs2 Hc2]]].
  apply (characters_split_unique b1 r1 b2 r2); try assumption; congruence.
Qed.

Lemma case_point_entry (why : string) : fallback_entry why (case_point why).
Proof.
  exists (PyStr.take 100 why). split; [apply take_first_characters|reflexivity].
Qed.

Lemma fallback_points_list (label placeholder : string)
    (js : list SentimentResult) :
  fallback_list label placeholder js (fallback_points label placeholder js).
Proof.
  unfold fallback_list, fallback_points.
  set (chosen := filter (fun j => String.eqb (sentiment j) label) js).
  destruct chosen as [|j chosen']; [reflexivity|].
  change (Forall2 fallback_entry
            (firstn 5 (map reasoning (j :: chosen')))
            (firstn 5 (map (fun j => case_point (reasoning j)) (j :: chosen')))).
  generalize (j :: chosen'). generalize 5%nat. clear.
  intros n l. revert n. induction l as [|x l IH]; intros [|n]; simpl;
    try constructor.
  - apply case_point_entry.
  - apply IH.
Qed.

Lemma narrative_fails_None (json_loads : string -> Result Json) (r : Reply) :
  narrative_fails json_loads r -> narrative_of_reply json_loads r = None.
Proof.
  unfold narrative_fails, narrative_of_reply, narrative_of_text.
  destruct (reply_text r) as [text|e]; [|reflexivity].
  intros [->|H]; [reflexivity|].
  rewrite H. destruct (String.eqb text ""); reflexivity.
Qed.

Section Fallback.
Context (json_loads : string -> Result Json) (strftime : Q -> string).

(** C5.  Whenever the narrative call fails (exception, empty reply,
    unparseable reply) the case lists are the deterministic fallback: the
    bull list holds, for each of the first five Positive judgments in the
    order of the list, its reasoning cut to 100 characters, after the
    bullet and before the dots; the bear list holds the same over the
    Negative judgments; a list that would be empty holds one generic
    placeholder; so each list has between one and five entries.  In
    particular 6 Positive and 1 Negative judgments give 5 bull entries and
    1 bear entry. *)
Theorem narrative_failure_gives_fallback
    (js : list SentimentResult) (company : string) (w : World) :
  narrative_fails json_loads (next_reply w (narrative_prompt js company)) ->
  exists bull bear w',
    _generate_bull_bear_cases json_loads js company w
    = (Ok (JArr (map JStr bull), JArr (map JStr bear)), w')
    /\ (js <> [] ->
        exists r,
          generate_final_report json_loads strftime js company w = (Ok r, w')
          /\ bull_case r = JArr (map JStr bull)
          /\ bear_case r = JArr (map JStr bear))
    /\ fallback_list "Positive"
         "• Positive market sentiment detected in recent news" js bull
    /\ fallback_list "Negative"
         "• Some concerns identified in recent coverage" js bear
    /\ List.length bull = Nat.min 5 (Nat.max 1 (judgments_with "Positive" js))
    /\ List.length bear = Nat.min 5 (Nat.max 1 (judgments_with "Negative" js))
    /\ (judgments_with "Positive" js = 6%nat ->
        judgments_with "Negative" js = 1%nat ->
        List.length bull = 5%nat /\ List.length bear = 1%nat).
Proof.
  intro Hfail. apply narrative_fails_None in Hfail.
  exists (fallback_points "Positive" default_bull_point js),
         (fallback_points "Negative" default_bear_point js).
  eexists. split.
  { rewrite bull_bear_run, Hfail, create_default_spec. reflexivity. }
  split.
  { intro Hne.
    destruct (final_report_run json_loads strftime js company w Hne)
      as [overall [_ Hrun]].
    eexists. split; [exact Hrun|]. simpl.
    unfold cases_of. rewrite Hfail, create_default_spec. split; reflexivity. }
  split; [apply fallback_points_list|].
  split; [apply fallback_points_list|].
  split; [apply fallback_points_length|].
  split; [apply fallback_points_length|].
  intros HP HN.
  rewrite !fallback_points_length, HP, HN. split; reflexivity.
Qed.

End Fallback.

(** ** Case lists of a report *)

Lemma of_list_len (l : list string) :
  PyObj.len (PyObj.of_list l) = Ok (Z.of_nat (List.length l)).
Proof. unfold PyObj.of_list. simpl. rewrite length_map. reflexivity. Qed.

Lemma fallback_points_bounded (label placeholder : string)
    (js : list SentimentResult) :
  case_list_bounded (PyObj.of_list (fallback_points label placeholder js)).
Proof.
  eexists. split; [apply of_list_len|].
  rewrite fallback_points_length. lia.
Qed.

Lemma narrative_of_reply_Some (json_loads : string -> Result Json) (r : Reply)
    (bull bear : Json) :
  narrative_of_reply json_loads r = Some (bull, bear) ->
  exists text data,
    reply_text r = Ok text
    /\ _parse_bull_bear_response json_loads text = Some data
    /\ PyObj.subscript data "bull_case" = Ok bull
    /\ PyObj.subscript data "bear_case" = Ok bear.
Proof.
  unfold narrative_of_reply, narrative_of_text.
  destruct (reply_text r) as [text|e]; [|discriminate].
  destruct (String.eqb text ""); [discriminate|].
  destruct (_parse_bull_bear_response json_loads text) as [data|] eqn:Ed;
    [|discriminate].
  destruct (PyObj.truthy data); [|discriminate].
  destruct (PyObj.subscript data "bull_case") as [b|] eqn:Eb; [|discriminate].
  destruct (PyObj.subscript data "bear_case") as [b'|] eqn:Eb'; [|discriminate].
  intros [= <- <-]. exists text, data. repeat split; assumption.
Qed.

Section CaseLists.
Context (json_loads : string -> Result Json) (strftime : Q -> string).

(** C6, as the code has it.  Every report's two case lists either both
    have between 1 and 5 entries (the canonical empty report and the
    fallback), or are, verbatim, the [bull_case] and [bear_case] values of
    the document decoded from the service's reply, whatever their
    lengths. *)
Theorem case_lists_bounded_or_verbatim
    (js : list SentimentResult) (company : string) (w : World) :
  exists r w',
    generate_final_report json_loads strftime js company w = (Ok r, w')
    /\ ((js = [] \/ narrative_of_reply json_loads
                      (next_reply w (narrative_prompt js company)) = None) ->
        case_list_bounded (bull_case r) /\ case_list_bounded (bear_case r))
    /\ (js <> [] ->
        forall bull bear,
          narrative_of_reply json_loads
            (next_reply w (narrative_prompt js company)) = Some (bull, bear) ->
          bull_case r = bull /\ bear_case r = bear
          /\ exists text data,
               reply_text (next_reply w (narrative_prompt js company)) = Ok text
               /\ _parse_bull_bear_response json_loads text = Some data
               /\ PyObj.subscript data "bull_case" = Ok bull
               /\ PyObj.subscript data "bear_case" = Ok bear).
Proof.
  destruct js as [|j js'].
  - eexists. eexists. split; [apply empty_report_run|]. simpl. split.
    + intros _. split; exists 1; split; try reflexivity; lia.
    + intro H. congruence.
  - destruct (final_report_run json_loads strftime (j :: js') company w)
      as [overall [_ Hrun]]; [discriminate|].
    eexists. eexists. split; [exact Hrun|].
    cbn [bull_case bear_case]. unfold cases_of. split.
    + intros [H|H]; [discriminate|]. rewrite H, create_default_spec.
      split; apply fallback_points_bounded.
    + intros _ bull bear H. rewrite H.
      split; [reflexivity|]. split; [reflexivity|].
      apply narrative_of_reply_Some. exact H.
Qed.

End CaseLists.

(** ** Classification *)

Lemma valid_sentiments_In (s : string) :
  existsb (String.eqb s) valid_sentiments = true <-> In s valid_sentiments.
Proof.
  rewrite existsb_exists. split.
  - intros [x [Hin Heq]]. apply String.eqb_eq in Heq. subst. exact Hin.
  - intro Hin. exists s. split; [exact Hin|apply String.eqb_refl].
Qed.

Section Parsing.
Context (json_loads : string -> Result Json).

Lemma parse_sentiment_Some (text : string) (d : SentimentData) :
  _parse_sentiment_response json_loads text = Some d
  <-> exists json_text fields label why,
        extract_json_text (PyStr.strip text) = Some json_text
        /\ json_loads json_text = Ok (JObj fields)
        /\ accepted_fields fields label why
        /\ d = mkSentimentData (PyStr.title (PyStr.strip label))
                 (PyStr.strip why) (confidence_of fields).
Proof.
  unfold _parse_sentiment_response, parse_sentiment_body, accepted_fields,
    confidence_of.
  remember valid_sentiments as valid eqn:Hvalid.
  destruct (extract_json_text (PyStr.strip text)) as [json_text|].
  2:{ split; [discriminate|]. intros [? [? [? [? [H _]]]]]. discriminate. }
  split.
  - destruct (json_loads json_text) as [data|e] eqn:Eload; [|discriminate].
    destruct data as [| b | q | s | items | fields]; simpl; try discriminate.
    + destruct (PyStr.contains "sentiment" s); simpl;
        [destruct (PyStr.contains "reasoning" s)|]; simpl; discriminate.
    + destruct (existsb (PyObj.is_str "sentiment") items); simpl;
        [destruct (existsb (PyObj.is_str "reasoning") items)|]; simpl;
        discriminate.
    + unfold Dict.mem.
      destruct (Dict.get "sentiment" fields) as [vs|] eqn:Es; simpl;
        [|discriminate].
      destruct (Dict.get "reasoning" fields) as [vr|] eqn:Er; simpl;
        [|discriminate].
      destruct vs as [| | | label | |]; simpl; try discriminate.
      destruct (existsb (String.eqb (PyStr.title (PyStr.strip label)))
                        valid) eqn:Ev; simpl; [|discriminate].
      destruct vr as [| | | why | |]; simpl; try discriminate.
      destruct (Dict.get "confidence" fields) as [vc|] eqn:Ec; simpl;
        intros [= <-]; exists json_text, fields, label, why;
        rewrite Ec; repeat split; try reflexivity; try assumption;
        subst valid; apply valid_sentiments_In; exact Ev.
  - intros [jt [fields [label [why [[= <-] [Hload [[Hs [Hr Hv]] ->]]]]]]].
    rewrite Hload. simpl. unfold Dict.mem. rewrite Hs, Hr. simpl.
    subst valid. apply valid_sentiments_In in Hv. rewrite Hv. simpl.
    destruct (Dict.get "confidence" fields); reflexivity.
Qed.

(** C7, as the code has it.  The confidence of a judgment is the
    [confidence] value of the decoded reply, whatever it is, and 0.8 when
    the reply has no such field. *)
Theorem confidence_is_reply_value_or_default
    (article : Article) (w : World) (j : SentimentResult) :
  fst (analyze_article_sentiment json_loads article w) = Ok (Some j) ->
  exists text json_text fields,
    reply_text (next_reply w (article_prompt article)) = Ok text
    /\ extract_json_text (PyStr.strip text) = Some json_text
    /\ json_loads json_text = Ok (JObj fields)
    /\ (forall v, Dict.get "confidence" fields = Some v -> confidence j = v)
    /\ (Dict.get "confidence" fields = None -> confidence j = JNum (8 # 10)).
Proof.
  rewrite analyze_run. simpl.
  destruct (reply_text (next_reply w (article_prompt article))) as [text|e];
    [|discriminate].
  unfold judgment_of_text.
  destruct (String.eqb text ""); [discriminate|].
  destruct (_parse_sentiment_response json_loads text) as [d|] eqn:Ed;
    [|discriminate].
  intros [= <-].
  apply parse_sentiment_Some in Ed.
  destruct Ed as [json_text [fields [label [why [Hx [Hload [_ ->]]]]]]].
  exists text, json_text, fields.
  split; [reflexivity|]. split; [exact Hx|]. split; [exact Hload|].
  simpl. unfold confidence_of. split.
  - intros v Hv. rewrite Hv. reflexivity.
  - intro Hn. rewrite Hn. reflexivity.
Qed.

End Parsing.

(** ** Failure policy *)

Section FailurePolicy.
Context (json_loads : string -> Result Json) (strftime : Q -> string).

Lemma bull_bear_body_raise (js : list SentimentResult) (company : string)
    (w w1 : World) (e : Exn) :
  generate_bull_bear_body json_loads js company w = (Raise e, w1) ->
  narrative_of_reply json_loads (next_reply w (narrative_prompt js company)) = None.
Proof.
  unfold generate_bull_bear_body, bind, narrative_of_reply.
  rewrite rate_limit_run, generate_content_run.
  destruct (reply_text (next_reply w (narrative_prompt js company))) as [text|e'];
    [|reflexivity].
  unfold narrative_of_text.
  destruct (String.eqb text ""); [reflexivity|].
  destruct (_parse_bull_bear_response json_loads text) as [data|]; [|reflexivity].
  destruct (PyObj.truthy data); [|reflexivity].
  unfold lift, ret.
  destruct (PyObj.subscript data "bull_case"); [|reflexivity].
  destruct (PyObj.subscript data "bear_case"); [discriminate|reflexivity].
Qed.

Lemma after_call_calls (prompt : string) (w : World) :
  calls (after_call prompt w) = (wake_time w, prompt) :: calls w.
Proof. reflexivity. Qed.

Lemma after_classification_calls (prompt : string) (w : World) :
  calls (after_classification prompt w)
  = (wake_time w + preparation_time (next_reply w prompt), prompt)%Q :: calls w.
Proof. reflexivity. Qed.

(** C8.  Neither operation lets an exception out.  Classification always
    returns, after exactly one call of the service (no retry), and returns
    nothing when the call raises or when parsing the reply raises.
    Narrative generation always returns, with the deterministic fallback
    when its [try] block raises.  Synthesis always returns a report; its
    case lists are the fallback when narrative generation raises; and its
    handler turns an exception of the [try] block it guards into the
    canonical empty report. *)
Theorem no_exception_escapes
    (article : Article) (js : list SentimentResult) (company : string) (w : World) :
  (exists r w',
     analyze_article_sentiment json_loads article w = (Ok r, w')
     /\ List.length (calls w') = S (List.length (calls w))
     /\ (forall e, reply_text (next_reply w (article_prompt article)) = Raise e ->
                   r = None)
     /\ (forall text e,
           reply_text (next_reply w (article_prompt article)) = Ok text ->
           parse_sentiment_body json_loads text = Raise e -> r = None))
  /\ (exists cases w',
        _generate_bull_bear_cases json_loads js company w = (Ok cases, w')
        /\ (forall e w1,
              generate_bull_bear_body json_loads js company w = (Raise e, w1) ->
              cases = _create_default_bull_bear_cases js))
  /\ (exists r w',
        generate_final_report json_loads strftime js company w = (Ok r, w')
        /\ (js <> [] ->
            forall e w1,
              generate_bull_bear_body json_loads js company w = (Raise e, w1) ->
              (bull_case r, bear_case r) = _create_default_bull_bear_cases js))
  /\ generate_final_report json_loads strftime js company
     = try_except (generate_final_report_body json_loads strftime js company)
                  (fun _ => _create_empty_report strftime company)
  /\ (forall (body : M SentimentReport) e w1,
        body w = (Raise e, w1) ->
        try_except body (fun _ => _create_empty_report strftime company) w
        = (Ok (mkSentimentReport "Neutral" [("Neutral", 0)] [("Neutral", 100%Q)]
                 (PyObj.of_list [no_news_point]) (PyObj.of_list [no_news_point])
                 0 0 (strftime (clock w1))),
           w1)).
Proof.
  split.
  { eexists. eexists. split; [apply analyze_run|].
    split; [rewrite after_classification_calls; reflexivity|].
    split.
    - intros e He. rewrite He. reflexivity.
    - intros text e Ht Hp. rewrite Ht. unfold judgment_of_text.
      destruct (String.eqb text ""); [reflexivity|].
      unfold _parse_sentiment_response. rewrite Hp. reflexivity. }
  split.
  { eexists. eexists. split; [apply bull_bear_run|].
    intros e w1 Hraise. rewrite (bull_bear_body_raise _ _ _ _ _ Hraise).
    reflexivity. }
  split.
  { destruct js as [|j js'].
    - eexists. eexists. split; [apply empty_report_run|]. congruence.
    - destruct (final_report_run json_loads strftime (j :: js') company w)
        as [overall [_ Hrun]]; [discriminate|].
      eexists. eexists. split; [exact Hrun|].
      intros _ e w1 Hraise. cbn [bull_case bear_case]. unfold cases_of.
      rewrite (bull_bear_body_raise _ _ _ _ _ Hraise).
      destruct (_create_default_bull_bear_cases (j :: js')). reflexivity. }
  split; [reflexivity|].
  intros body e w1 Hbody. unfold try_except. rewrite Hbody. reflexivity.
Qed.

End FailurePolicy.

(** ** Rate limiting *)

Lemma wake_time_ge (w : World) :
  (0 <= sleep_overrun w)%Q ->
  (last_request_time w + min_request_interval w <= wake_time w)%Q.
Proof.
  intro Hov. unfold wake_time.
  destruct (Qlt_bool (clock w - last_request_time w) (min_request_interval w)) eqn:E.
  - lra.
  - apply Qlt_bool_false_iff in E. lra.
Qed.

Lemma wake_time_clock (w : World) :
  (0 <= sleep_overrun w)%Q -> (clock w <= wake_time w)%Q.
Proof.
  intro Hov. unfold wake_time.
  destruct (Qlt_bool (clock w - last_request_time w) (min_request_interval w)) eqn:E.
  - apply Qlt_bool_iff in E. lra.
  - apply Qle_refl.
Qed.

Lemma rate_limit_waits (w : World) :
  ((clock w - last_request_time w < min_request_interval w)%Q ->
   (clock (snd (_rate_limit w))
    == clock w + (min_request_interval w - (clock w - last_request_time w))
       + sleep_overrun w)%Q)
  /\ (~ (clock w - last_request_time w < min_request_interval w)%Q ->
      clock (snd (_rate_limit w)) = clock w).
Proof.
  split.
  - intro Hlt. rewrite rate_limit_run. simpl. unfold wake_time.
    apply Qlt_bool_iff in Hlt. rewrite Hlt. apply Qeq_refl.
  - intro Hge. rewrite rate_limit_run. simpl. unfold wake_time.
    destruct (Qlt_bool (clock w - last_request_time w) (min_request_interval w)) eqn:E;
      [|reflexivity].
    apply Qlt_bool_iff in E. contradiction.
Qed.

Section RateLimit.
Context (json_loads : string -> Result Json) (strftime : Q -> string).

(** What one operation does to the analyzer and to the log of the calls. *)
Lemma run_op_step (op : Op) (w : World) :
  let w' := run_op json_loads strftime op w in
  sleep_overrun w' = sleep_overrun w
  /\ service w' = service w
  /\ min_request_interval w' = min_request_interval w
  /\ match calls_issued op with
     | O => w' = w
     | S _ =>
         last_request_time w' = wake_time w
         /\ exists start,
              calls w' = (start, op_prompt op) :: calls w
              /\ (start == wake_time w + op_delay op w)%Q
     end.
Proof.
  destruct op as [article|js company|js company]; simpl.
  - rewrite analyze_run. simpl.
    repeat split. eexists. split; [reflexivity|apply Qeq_refl].
  - rewrite bull_bear_run. simpl.
    repeat split. eexists. split; [reflexivity|]. lra.
  - destruct js as [|j js'].
    + repeat split.
    + destruct (final_report_run json_loads strftime (j :: js') company w)
        as [overall [_ Hrun]]; [discriminate|].
      rewrite Hrun. simpl.
      repeat split. eexists. split; [reflexivity|]. lra.
Qed.

Lemma run_op_env (op : Op) (w : World) :
  limiter_env w -> limiter_env (run_op json_loads strftime op w).
Proof.
  intros [Hov Hprep].
  destruct (run_op_step op w) as [Eov [Esvc _]].
  unfold limiter_env. rewrite Eov, Esvc. split; assumption.
Qed.

(** The stamps of the limiter along a sequence of operations: each call
    moves the stamp on by the minimum interval at least, and the stamp of
    the first call is not before the clock reading at which the sequence
    begins. *)
Lemma run_ops_stamps (ops : list Op) (w : World) :
  limiter_env w ->
  let w' := run_ops json_loads strftime ops w in
  let k := list_sum (map calls_issued ops) in
  limiter_env w'
  /\ min_request_interval w' = min_request_interval w
  /\ List.length (calls w') = (List.length (calls w) + k)%nat
  /\ (k = O -> w' = w)
  /\ (last_request_time w + inject_Z (Z.of_nat k) * min_request_interval w
      <= last_request_time w')%Q
  /\ ((1 <= k)%nat ->
      (clock w + inject_Z (Z.of_nat k - 1) * min_request_interval w
       <= last_request_time w')%Q
      /\ forall start prompt,
           hd_error (calls w') = Some (start, prompt) ->
           (last_request_time w' <= start)%Q).
Proof.
  revert w. induction ops as [|op ops IH] using rev_ind; intros w Henv.
  - simpl. split; [exact Henv|]. split; [reflexivity|]. split; [lia|].
    split; [reflexivity|].
    split; [change (inject_Z 0) with 0%Q; lra|]. lia.
  - cbv zeta. unfold run_ops. rewrite fold_left_app. cbn [fold_left].
    fold (run_ops json_loads strftime ops w).
    specialize (IH w Henv). cbv zeta in IH.
    set (w1 := run_ops json_loads strftime ops w) in *.
    set (k := list_sum (map calls_issued ops)) in *.
    destruct IH as [Henv1 [Hmin1 [Hlen1 [Hsame1 [Hstamp1 Hfirst1]]]]].
    assert (Hk : list_sum (map calls_issued (ops ++ [op]))
                 = (k + calls_issued op)%nat).
    { rewrite map_app, list_sum_app. simpl. unfold k. lia. }
    rewrite Hk.
    pose proof (run_op_env op w1 Henv1) as Henv2.
    destruct (run_op_step op w1) as [_ [_ [Hmin2 Hstep]]]. cbv zeta in Hstep.
    split; [exact Henv2|]. split; [congruence|].
    destruct (calls_issued op) as [|c] eqn:Ec.
    + rewrite Hstep, Nat.add_0_r.
      split; [exact Hlen1|]. split; [exact Hsame1|].
      split; [exact Hstamp1|exact Hfirst1].
    + assert (Hc : c = O).
      { destruct op as [a|js co|js co]; simpl in Ec; try congruence.
        destruct js; congruence. }
      subst c.
      destruct Hstep as [Hlast [start [Hcalls Hstart]]].
      destruct Henv1 as [Hov1 Hprep1].
      pose proof (wake_time_ge w1 Hov1) as Hge.
      pose proof (wake_time_clock w1 Hov1) as Hclock.
      rewrite Hmin1 in Hge.
      split; [rewrite Hcalls; simpl; lia|].
      split; [lia|].
      replace (Z.of_nat (k + 1)) with (Z.of_nat k + 1) by lia.
      rewrite inject_Z_plus. change (inject_Z 1) with 1%Q.
      split; [rewrite Hlast; lra|].
      intros _. split.
      * rewrite Hlast.
        replace (Z.of_nat k + 1 - 1) with (Z.of_nat k) by lia.
        destruct k as [|k'].
        -- rewrite (Hsame1 eq_refl) in Hclock |- *.
           change (inject_Z (Z.of_nat 0)) with 0%Q. lra.
        -- destruct Hfirst1 as [Hfirst1 _]; [lia|].
           replace (Z.of_nat (S k') - 1) with (Z.of_nat (S k') + -1)
             in Hfirst1 by lia.
           rewrite inject_Z_plus in Hfirst1.
           change (inject_Z (-1)) with (-1)%Q in Hfirst1. lra.
      * intros start' prompt' Hhd. rewrite Hcalls in Hhd.
        injection Hhd as <- <-.
        assert (0 <= op_delay op w1)%Q.
        { destruct op; simpl; try apply Qle_refl. apply Hprep1. }
        rewrite Hlast, Hstart. lra.
Qed.

(** C9, as the code has it.  Before its call an operation (classification
    and narrative generation alike) passes the limiter, which suspends the
    caller for what remains of the minimum interval since its last stamp,
    and not at all when the interval has passed, and then stamps the
    clock.  So of two calls in a row the stamp of the second is at least
    [min_request_interval] after the stamp of the first, and no call starts
    before its stamp: the second call starts at least
    [min_request_interval] after the stamp of the first.  The first call
    starts at its stamp plus the time spent between the stamp and the call
    (a classification builds its prompt there), so the two starts are at
    least [min_request_interval] apart less that time; after a narrative
    generation they are [min_request_interval] apart. *)
Theorem consecutive_calls_spaced (op1 op2 : Op) (w : World) :
  limiter_env w ->
  calls_issued op1 = 1%nat ->
  calls_issued op2 = 1%nat ->
  let w1 := run_op json_loads strftime op1 w in
  let w2 := run_op json_loads strftime op2 w1 in
  ((clock w1 - last_request_time w1 < min_request_interval w1)%Q ->
   (clock (snd (_rate_limit w1))
    == clock w1 + (min_request_interval w1 - (clock w1 - last_request_time w1))
       + sleep_overrun w1)%Q)
  /\ (~ (clock w1 - last_request_time w1 < min_request_interval w1)%Q ->
      clock (snd (_rate_limit w1)) = clock w1)
  /\ last_request_time w2 = clock (snd (_rate_limit w1))
  /\ exists start1 start2,
       calls w1 = (start1, op_prompt op1) :: calls w
       /\ calls w2 = (start2, op_prompt op2) :: (start1, op_prompt op1) :: calls w
       /\ (start1 == last_request_time w1 + op_delay op1 w)%Q
       /\ (start2 == last_request_time w2 + op_delay op2 w1)%Q
       /\ (last_request_time w1 + min_request_interval w
           <= last_request_time w2)%Q
       /\ (last_request_time w1 + min_request_interval w <= start2)%Q
       /\ (start1 + min_request_interval w <= start2 + op_delay op1 w)%Q
       /\ (forall js company,
             op1 = Narrate js company ->
             (start1 + min_request_interval w <= start2)%Q).
Proof.
  intros Henv H1 H2 w1 w2.
  destruct (rate_limit_waits w1) as [Hwait Hpass].
  split; [exact Hwait|]. split; [exact Hpass|].
  pose proof (run_op_env op1 w Henv) as Henv1. fold w1 in Henv1.
  destruct (run_op_step op1 w) as [_ [_ [Hmin1 Hstep1]]].
  destruct (run_op_step op2 w1) as [_ [_ [_ Hstep2]]].
  cbv zeta in Hstep1, Hstep2. fold w1 in Hmin1, Hstep1. fold w2 in Hstep2.
  rewrite H1 in Hstep1. rewrite H2 in Hstep2.
  destruct Hstep1 as [Hlast1 [start1 [Hcalls1 Hstart1]]].
  destruct Hstep2 as [Hlast2 [start2 [Hcalls2 Hstart2]]].
  split; [rewrite Hlast2, rate_limit_run; reflexivity|].
  exists start1, start2.
  split; [exact Hcalls1|]. split; [rewrite Hcalls2, Hcalls1; reflexivity|].
  destruct Henv1 as [Hov1 Hprep1].
  pose proof (wake_time_ge w1 Hov1) as Hge. rewrite Hmin1 in Hge.
  assert (Hd2 : (0 <= op_delay op2 w1)%Q).
  { destruct op2; simpl; try apply Qle_refl. apply Hprep1. }
  rewrite <- Hlast1 in Hstart1. rewrite <- Hlast2 in Hstart2, Hge.
  split; [exact Hstart1|]. split; [exact Hstart2|]. split; [exact Hge|].
  split; [lra|]. split; [lra|].
  intros js company ->. simpl in Hstart1. lra.
Qed.

End RateLimit.

(** ** Where the reply's block lies *)

Lemma substring_length (n m : nat) (s : string) :
  String.length (substring n m s) = Nat.min m (String.length s - n).
Proof.
  revert n m. induction s as [|c s IH]; intros [|n] [|m]; simpl;
    try reflexivity; rewrite ?IH, ?Nat.sub_0_r; try reflexivity; lia.
Qed.

Lemma occurs_at_bound (sub s : string) (n : nat) :
  sub <> "" -> occurs_at sub s n ->
  (n + String.length sub <= String.length s)%nat.
Proof.
  intros Hne H. unfold occurs_at in H.
  apply (f_equal String.length) in H. rewrite substring_length in H.
  assert (Hpos : (0 < String.length sub)%nat)
    by (destruct sub; [congruence|simpl; lia]).
  lia.
Qed.

Lemma occurs_at_0 (sub s : string) :
  occurs_at sub s 0 <-> prefix sub s = true.
Proof. unfold occurs_at. symmetry. apply prefix_correct. Qed.

Lemma occurs_at_S (sub s : string) (c : ascii) (n : nat) :
  occurs_at sub (String c s) (S n) <-> occurs_at sub s n.
Proof. unfold occurs_at. simpl. tauto. Qed.

Lemma occurs_at_empty (sub : string) (n : nat) :
  sub <> "" -> ~ occurs_at sub "" n.
Proof.
  intros Hne H. unfold occurs_at in H.
  destruct n, (String.length sub) eqn:E; simpl in H;
    subst sub; congruence.
Qed.

Lemma occurs_at_drop (sub s : string) (k n : nat) :
  (k <= String.length s)%nat ->
  (occurs_at sub (PyStr.drop k s) n <-> occurs_at sub s (k + n)).
Proof.
  revert s. induction k as [|k IH]; intros s Hk.
  - simpl. tauto.
  - destruct s as [|c s]; simpl in Hk; [lia|].
    simpl. rewrite occurs_at_S. apply IH. lia.
Qed.

Lemma first_from_unique (sub s : string) (start n n' : nat) :
  first_from sub s start n -> first_from sub s start n' -> n = n'.
Proof.
  intros [H1 [H2 H3]] [H1' [H2' H3']].
  destruct (Nat.lt_trichotomy n n') as [Hlt|[Heq|Hgt]]; [|exact Heq|].
  - exfalso. apply (H3' n); [lia|exact H2].
  - exfalso. apply (H3 n'); [lia|exact H2'].
Qed.

Lemma last_at_unique (sub s : string) (n n' : nat) :
  last_at sub s n -> last_at sub s n' -> n = n'.
Proof.
  intros [H1 H2] [H1' H2'].
  destruct (Nat.lt_trichotomy n n') as [Hlt|[Heq|Hgt]]; [|exact Heq|].
  - exfalso. apply (H2 n'); [lia|exact H1'].
  - exfalso. apply (H2' n); [lia|exact H1].
Qed.

(** [find_aux] returns the first occurrence. *)
Lemma find_aux_spec (sub s : string) (i : Z) :
  sub <> "" ->
  ((forall n, ~ occurs_at sub s n) /\ PyStr.find_aux sub s i = -1)
  \/ exists n, first_from sub s 0 n /\ PyStr.find_aux sub s i = i + Z.of_nat n.
Proof.
  intro Hne. revert i. induction s as [|c s IH]; intro i.
  - left. split; [intro n; apply occurs_at_empty; exact Hne|].
    simpl. destruct sub; [congruence|reflexivity].
  - cbn [PyStr.find_aux].
    destruct (prefix sub (String c s)) eqn:Ep.
    + right. exists 0%nat. split; [|lia].
      split; [lia|]. split; [apply occurs_at_0; exact Ep|]. intros m Hm. lia.
    + assert (H0 : ~ occurs_at sub (String c s) 0)
        by (rewrite occurs_at_0; congruence).
      destruct (IH (i + 1)) as [[Hno Hf]|[n [[_ [Hocc Hfirst]] Hf]]].
      * left. split; [|exact Hf].
        intros [|n]; [exact H0|]. rewrite occurs_at_S. apply Hno.
      * right. exists (S n). split; [|lia].
        split; [lia|]. split; [apply occurs_at_S; exact Hocc|].
        intros [|m] Hm; [exact H0|]. rewrite occurs_at_S. apply Hfirst. lia.
Qed.

(** [find] returns the first occurrence from [start] on. *)
Lemma find_spec (sub s : string) (start : nat) :
  sub <> "" -> (start <= String.length s)%nat ->
  ((forall n, (start <= n)%nat -> ~ occurs_at sub s n)
   /\ PyStr.find sub s (Z.of_nat start) = -1)
  \/ exists n, first_from sub s start n
               /\ PyStr.find sub s (Z.of_nat start) = Z.of_nat n.
Proof.
  intros Hne Hstart. unfold PyStr.find, PyStr.len.
  destruct (Z.of_nat (String.length s) <? Z.of_nat start) eqn:E;
    [apply Z.ltb_lt in E; lia|].
  rewrite Nat2Z.id.
  destruct (find_aux_spec sub (PyStr.drop start s) (Z.of_nat start) Hne)
    as [[Hno Hf]|[n [[_ [Hocc Hfirst]] Hf]]].
  - left. split; [|exact Hf]. intros n Hn Hocc.
    apply (Hno (n - start)%nat). apply occurs_at_drop; [exact Hstart|].
    replace (start + (n - start))%nat with n by lia. exact Hocc.
  - right. exists (start + n)%nat. split; [|lia].
    split; [lia|]. split; [apply occurs_at_drop; assumption|].
    intros m Hm Hoccm. apply (Hfirst (m - start)%nat); [lia|].
    apply occurs_at_drop; [exact Hstart|].
    replace (start + (m - start))%nat with m by lia. exact Hoccm.
Qed.

(** [rfind_aux] returns the last occurrence. *)
Lemma rfind_aux_spec (sub s : string) (i : Z) :
  sub <> "" -> 0 <= i ->
  ((forall n, ~ occurs_at sub s n) /\ PyStr.rfind_aux sub s i = -1)
  \/ exists n, last_at sub s n /\ PyStr.rfind_aux sub s i = i + Z.of_nat n.
Proof.
  intro Hne. revert i. induction s as [|c s IH]; intros i Hi.
  - left. split; [intro n; apply occurs_at_empty; exact Hne|].
    simpl. destruct sub; [congruence|reflexivity].
  - cbn [PyStr.rfind_aux].
    destruct (IH (i + 1)) as [[Hno Hf]|[n [[Hocc Hlast] Hf]]]; [lia| |].
    + rewrite Hf. cbn [Z.leb Z.compare].
      destruct (prefix sub (String c s)) eqn:Ep.
      * right. exists 0%nat. split; [|lia].
        split; [apply occurs_at_0; exact Ep|].
        intros [|m] Hm; [lia|]. rewrite occurs_at_S. apply Hno.
      * left. split; [|reflexivity].
        intros [|n]; [rewrite occurs_at_0; congruence|].
        rewrite occurs_at_S. apply Hno.
    + rewrite Hf.
      destruct (0 <=? i + 1 + Z.of_nat n) eqn:E; [|apply Z.leb_gt in E; lia].
      right. exists (S n). split; [|lia].
      split; [apply occurs_at_S; exact Hocc|].
      intros [|m] Hm; [lia|]. rewrite occurs_at_S. apply Hlast. lia.
Qed.

Lemma contains_spec (sub s : string) :
  sub <> "" ->
  (PyStr.contains sub s = true <-> exists n, occurs_at sub s n).
Proof.
  intro Hne. unfold PyStr.contains.
  destruct (find_spec sub s 0 Hne) as [[Hno Hf]|[n [[_ [Hocc _]] Hf]]]; [lia| |].
  - change (Z.of_nat 0) with 0 in Hf. rewrite Hf. split; [discriminate|].
    intros [n Hocc]. exfalso. apply (Hno n); [lia|exact Hocc].
  - change (Z.of_nat 0) with 0 in Hf. rewrite Hf. split.
    + intros _. exists n. exact Hocc.
    + intros _. apply Z.leb_le. lia.
Qed.

(** A slice between two indices inside the text. *)
Lemma slice_spec (s : string) (a b : nat) :
  (a <= String.length s)%nat -> (b <= String.length s)%nat ->
  PyStr.slice s (Z.of_nat a) (Z.of_nat b) = substring a (b - a) s.
Proof.
  intros Ha Hb. unfold PyStr.slice, PyStr.clamp, PyStr.len.
  destruct (Z.of_nat a <? 0) eqn:Ea; [apply Z.ltb_lt in Ea; lia|].
  destruct (Z.of_nat b <? 0) eqn:Eb; [apply Z.ltb_lt in Eb; lia|].
  rewrite !Z.min_r, !Z.max_r by lia.
  rewrite Nat2Z.id. f_equal. lia.
Qed.

Lemma find0_spec (sub s : string) :
  sub <> "" ->
  ((forall n, ~ occurs_at sub s n) /\ PyStr.find sub s 0 = -1)
  \/ exists n, first_from sub s 0 n /\ PyStr.find sub s 0 = Z.of_nat n.
Proof.
  intro Hne.
  destruct (find_spec sub s 0 Hne) as [[Hno Hf]|H]; [lia| |right; exact H].
  left. split; [|exact Hf]. intros n. apply Hno. lia.
Qed.

Lemma find0_first (sub s : string) (i : nat) :
  sub <> "" -> first_from sub s 0 i -> PyStr.find sub s 0 = Z.of_nat i.
Proof.
  intros Hne Hi.
  destruct (find0_spec sub s Hne) as [[Hno _]|[n [Hn Hf]]].
  - exfalso. destruct Hi as [_ [Hocc _]]. apply (Hno i Hocc).
  - rewrite Hf, (first_from_unique _ _ _ _ _ Hn Hi). reflexivity.
Qed.

Lemma find_first (sub s : string) (start j : nat) :
  sub <> "" -> (start <= String.length s)%nat ->
  first_from sub s start j -> PyStr.find sub s (Z.of_nat start) = Z.of_nat j.
Proof.
  intros Hne Hstart Hj.
  destruct (find_spec sub s start Hne Hstart) as [[Hno _]|[n [Hn Hf]]].
  - exfalso. destruct Hj as [Hle [Hocc _]]. apply (Hno j Hle Hocc).
  - rewrite Hf, (first_from_unique _ _ _ _ _ Hn Hj). reflexivity.
Qed.

Lemma rfind_last (sub s : string) (j : nat) :
  sub <> "" -> last_at sub s j -> PyStr.rfind sub s = Z.of_nat j.
Proof.
  intros Hne Hj. unfold PyStr.rfind.
  destruct (rfind_aux_spec sub s 0 Hne) as [[Hno _]|[n [Hn Hf]]]; [lia| |].
  - exfalso. destruct Hj as [Hocc _]. apply (Hno j Hocc).
  - rewrite Hf, (last_at_unique _ _ _ _ Hn Hj). lia.
Qed.

Lemma contains_false (sub s : string) :
  sub <> "" -> (forall n, ~ occurs_at sub s n) -> PyStr.contains sub s = false.
Proof.
  intros Hne Hno. destruct (PyStr.contains sub s) eqn:E; [|reflexivity].
  apply contains_spec in E; [|exact Hne]. destruct E as [n Hn].
  exfalso. apply (Hno n Hn).
Qed.

Lemma contains_true (sub s : string) (n : nat) :
  sub <> "" -> occurs_at sub s n -> PyStr.contains sub s = true.
Proof.
  intros Hne Hn. apply contains_spec; [exact Hne|]. exists n. exact Hn.
Qed.

Lemma substring_none (n : nat) (s : string) : substring n 0 s = "".
Proof.
  revert n. induction s as [|c s IH]; intros [|n]; simpl; try reflexivity.
  apply IH.
Qed.

(** [extract_json_text] returns the block of the reply. *)
Lemma extract_of_block (cleaned block : string) :
  reply_block cleaned block -> extract_json_text cleaned = Some block.
Proof.
  intros [i j Hi Hj | i j Hno Hi Hj Hij]; unfold extract_json_text.
  - assert (Hbi := occurs_at_bound "```json" cleaned i ltac:(discriminate)
                     (proj1 (proj2 Hi))).
    assert (Hbj := occurs_at_bound "```" cleaned j ltac:(discriminate)
                     (proj1 (proj2 Hj))).
    simpl String.length in Hbi, Hbj.
    rewrite (contains_true "```json" cleaned i) by (try discriminate; apply Hi).
    rewrite (find0_first "```json" cleaned i) by (try discriminate; exact Hi).
    replace (Z.of_nat i + 7) with (Z.of_nat (i + 7)) by lia.
    rewrite (find_first "```" cleaned (i + 7) j)
      by (try discriminate; try lia; exact Hj).
    rewrite slice_spec by lia. reflexivity.
  - assert (Hbj := occurs_at_bound "}" cleaned j ltac:(discriminate) (proj1 Hj)).
    simpl String.length in Hbj.
    rewrite (contains_false "```json" cleaned) by (try discriminate; exact Hno).
    rewrite (contains_true "{" cleaned i) by (try discriminate; apply Hi).
    rewrite (contains_true "}" cleaned j) by (try discriminate; apply Hj).
    cbn [andb].
    rewrite (find0_first "{" cleaned i) by (try discriminate; exact Hi).
    rewrite (rfind_last "}" cleaned j) by (try discriminate; exact Hj).
    replace (Z.of_nat j + 1) with (Z.of_nat (j + 1)) by lia.
    rewrite slice_spec by lia. reflexivity.
Qed.

(** What [extract_json_text] returns is the block of the reply, or the
    empty text when the last closing brace comes before the first opening
    brace. *)
Lemma block_of_extract (cleaned t : string) :
  fence_closed cleaned ->
  extract_json_text cleaned = Some t ->
  reply_block cleaned t \/ (t = "" /\ forall b, ~ reply_block cleaned b).
Proof.
  intros Hclosed. unfold extract_json_text.
  destruct (PyStr.contains "```json" cleaned) eqn:Ef.
  - intros [= <-]. left.
    destruct (find0_spec "```json" cleaned ltac:(discriminate))
      as [[Hno _]|[i [Hi Hf]]].
    { apply contains_spec in Ef; [|discriminate]. destruct Ef as [n Hn].
      exfalso. apply (Hno n Hn). }
    destruct (Hclosed i Hi) as [j Hj].
    assert (Hbi := occurs_at_bound "```json" cleaned i ltac:(discriminate)
                     (proj1 (proj2 Hi))).
    assert (Hbj := occurs_at_bound "```" cleaned j ltac:(discriminate)
                     (proj1 (proj2 Hj))).
    simpl String.length in Hbi, Hbj.
    rewrite Hf. replace (Z.of_nat i + 7) with (Z.of_nat (i + 7)) by lia.
    rewrite (find_first "```" cleaned (i + 7) j)
      by (try discriminate; try lia; exact Hj).
    rewrite slice_spec by lia.
    apply block_fenced; assumption.
  - assert (Hno : forall n, ~ occurs_at "```json" cleaned n).
    { intros n Hn. apply (contains_true "```json" cleaned n) in Hn;
        [congruence|discriminate]. }
    destruct (PyStr.contains "{" cleaned) eqn:Eo; [|discriminate].
    destruct (PyStr.contains "}" cleaned) eqn:Ec; [|discriminate].
    cbn [andb]. intros [= <-].
    destruct (find0_spec "{" cleaned ltac:(discriminate))
      as [[Hnone _]|[i [Hi Hf]]].
    { apply contains_spec in Eo; [|discriminate]. destruct Eo as [n Hn].
      exfalso. apply (Hnone n Hn). }
    assert (Hj : exists j, last_at "}" cleaned j
                           /\ PyStr.rfind "}" cleaned = Z.of_nat j).
    { unfold PyStr.rfind.
      destruct (rfind_aux_spec "}" cleaned 0 ltac:(discriminate))
        as [[Hnone _]|[j [Hj Hr]]]; [lia| |].
      - apply contains_spec in Ec; [|discriminate]. destruct Ec as [n Hn].
        exfalso. apply (Hnone n Hn).
      - exists j. split; [exact Hj|]. rewrite Hr. lia. }
    destruct Hj as [j [Hj Hr]].
    assert (Hbi := occurs_at_bound "{" cleaned i ltac:(discriminate)
                     (proj1 (proj2 Hi))).
    assert (Hbj := occurs_at_bound "}" cleaned j ltac:(discriminate) (proj1 Hj)).
    simpl String.length in Hbi, Hbj.
    rewrite Hf, Hr. replace (Z.of_nat j + 1) with (Z.of_nat (j + 1)) by lia.
    rewrite slice_spec by lia.
    destruct (le_lt_dec i j) as [Hle|Hlt].
    + left. apply block_braces; assumption.
    + right. replace (j + 1 - i)%nat with 0%nat by lia.
      split; [apply substring_none|].
      intros b Hb. destruct Hb as [i' j' Hi' _ | i' j' _ Hi' Hj' Hij'].
      * apply (Hno i'). apply Hi'.
      * rewrite (first_from_unique _ _ _ _ _ Hi' Hi) in Hij'.
        rewrite (last_at_unique _ _ _ _ Hj' Hj) in Hij'. lia.
Qed.

Lemma fence_closedb_spec (cleaned : string) :
  fence_closedb cleaned = true -> fence_closed cleaned.
Proof.
  unfold fence_closedb. intros H i Hi.
  assert (Hbi := occurs_at_bound "```json" cleaned i ltac:(discriminate)
                   (proj1 (proj2 Hi))).
  simpl String.length in Hbi.
  rewrite (contains_true "```json" cleaned i) in H
    by (try discriminate; apply Hi).
  rewrite (find0_first "```json" cleaned i) in H by (try discriminate; exact Hi).
  replace (Z.of_nat i + 7) with (Z.of_nat (i + 7)) in H by lia.
  destruct (find_spec "```" cleaned (i + 7) ltac:(discriminate))
    as [[_ Hf]|[j [Hj _]]]; [lia| |].
  - rewrite Hf in H. discriminate.
  - exists j. exact Hj.
Qed.

Section ClassifySpec.
Context (json_loads : string -> Result Json).

(** C2, as the code has it.  For a reply whose fence, if opened, is closed
    (and a decoder that refuses the empty text): classification returns,
    without an exception, and yields a judgment exactly when the block of
    the stripped reply (the fenced one, looked for first, or else the text
    from the first opening brace to the last closing brace) decodes to an
    object whose [sentiment] and [reasoning] values are both text, the
    sentiment being Positive, Negative or Neutral once stripped and put in
    title case.  The judgment then carries that label, the stripped
    reasoning, and the article's title and source. *)
Theorem classify_yields_judgment_iff
    (article : Article) (w : World) (text : string) :
  (exists e, json_loads "" = Raise e) ->
  reply_text (next_reply w (article_prompt article)) = Ok text ->
  fence_closed (PyStr.strip text) ->
  exists r,
    fst (analyze_article_sentiment json_loads article w) = Ok r
    /\ ((exists j, r = Some j)
        <-> exists block fields label why,
              reply_block (PyStr.strip text) block
              /\ json_loads block = Ok (JObj fields)
              /\ accepted_fields fields label why)
    /\ (forall j, r = Some j ->
          exists block fields label why,
            reply_block (PyStr.strip text) block
            /\ json_loads block = Ok (JObj fields)
            /\ accepted_fields fields label why
            /\ sentiment j = PyStr.title (PyStr.strip label)
            /\ reasoning j = PyStr.strip why
            /\ article_title j = article_get article "title" ""
            /\ article_source j = article_get article "source" "Unknown").
Proof.
  intros [e0 Hempty] Hreply Hclosed.
  rewrite analyze_run, Hreply. cbn [fst]. eexists. split; [reflexivity|].
  assert (Hfwd : forall j, judgment_of_text json_loads article text = Some j ->
            exists block fields label why,
              reply_block (PyStr.strip text) block
              /\ json_loads block = Ok (JObj fields)
              /\ accepted_fields fields label why
              /\ sentiment j = PyStr.title (PyStr.strip label)
              /\ reasoning j = PyStr.strip why
              /\ article_title j = article_get article "title" ""
              /\ article_source j = article_get article "source" "Unknown").
  { intros j. unfold judgment_of_text.
    destruct (String.eqb text ""); [discriminate|].
    destruct (_parse_sentiment_response json_loads text) as [d|] eqn:Ed;
      [|discriminate].
    intros [= <-]. apply parse_sentiment_Some in Ed.
    destruct Ed as [json_text [fields [label [why [Hx [Hload [Hacc ->]]]]]]].
    exists json_text, fields, label, why.
    destruct (block_of_extract _ _ Hclosed Hx) as [Hblock|[-> _]];
      [|congruence].
    repeat split; try assumption; try apply Hacc. }
  split; [|exact Hfwd].
  split.
  - intros [j Hj]. destruct (Hfwd j Hj)
      as [block [fields [label [why [Hb [Hl [Hacc _]]]]]]].
    exists block, fields, label, why. repeat split; try assumption; apply Hacc.
  - intros [block [fields [label [why [Hb [Hl Hacc]]]]]].
    apply extract_of_block in Hb.
    unfold judgment_of_text.
    destruct (String.eqb text "") eqn:Et.
    { apply String.eqb_eq in Et. subst text. vm_compute in Hb. discriminate. }
    destruct (_parse_sentiment_response json_loads text) as [d|] eqn:Ed.
    + eexists. reflexivity.
    + exfalso.
      assert (Hsome : _parse_sentiment_response json_loads text
                      = Some (mkSentimentData (PyStr.title (PyStr.strip label))
                                (PyStr.strip why) (confidence_of fields))).
      { apply parse_sentiment_Some. exists block, fields, label, why.
        repeat split; try assumption; apply Hacc. }
      congruence.
Qed.

End ClassifySpec.

(** ** The theorems at sample inputs *)

Lemma overall_sentiment_witness :
  sample_35_35_30 <> []
  /\ sample_60_40 <> []
  /\ (exists r w',
        generate_final_report MiniJson.loads fixed_stamp sample_35_35_30 "Acme"
          (fresh_world failing_service) = (Ok r, w')
        /\ overall_sentiment r = "Neutral")
  /\ (exists r w',
        generate_final_report MiniJson.loads fixed_stamp sample_60_40 "Acme"
          (fresh_world failing_service) = (Ok r, w')
        /\ overall_sentiment r = "Positive").
Proof.
  split; [discriminate|]. split; [discriminate|]. split.
  - destruct (overall_sentiment_by_highest_share MiniJson.loads fixed_stamp
                sample_35_35_30 "Acme" (fresh_world failing_service))
      as [r [w' [Hrun [_ [_ [H35 _]]]]]]; [discriminate|].
    exists r, w'. split; [exact Hrun|].
    apply H35; vm_compute; reflexivity.
  - destruct (overall_sentiment_by_highest_share MiniJson.loads fixed_stamp
                sample_60_40 "Acme" (fresh_world failing_service))
      as [r [w' [Hrun [_ [_ [_ H60]]]]]]; [discriminate|].
    exists r, w'. split; [exact Hrun|].
    apply H60; vm_compute; reflexivity.
Defined.



Lemma fallback_witness :
  narrative_fails MiniJson.loads
    (next_reply (fresh_world failing_service)
                (narrative_prompt sample_6_1_long "Acme"))
  /\ exists bull bear,
       fst (_generate_bull_bear_cases MiniJson.loads sample_6_1_long "Acme"
              (fresh_world failing_service))
       = Ok (JArr (map JStr bull), JArr (map JStr bear))
       /\ bull = repeat "• orders are up..." 5
       /\ bear = ["• Die Umsätze wuchsen schwächer als erwartet, "
                  ++ "während Kosten stiegen; guidance for the year was cut ag..."]
       /\ PyStr.char_count long_reasoning = 104%nat.
Proof.
  assert (Hfail : narrative_fails MiniJson.loads
                    (next_reply (fresh_world failing_service)
                                (narrative_prompt sample_6_1_long "Acme")))
    by (simpl; exact I).
  split; [exact Hfail|].
  destruct (narrative_failure_gives_fallback MiniJson.loads fixed_stamp
              sample_6_1_long "Acme" (fresh_world failing_service) Hfail)
    as [bull [bear [w' [Hrun _]]]].
  exists bull, bear. rewrite Hrun. split; [reflexivity|].
  assert (Hsample :
            fst (_generate_bull_bear_cases MiniJson.loads sample_6_1_long "Acme"
                   (fresh_world failing_service))
            = Ok (JArr (map JStr (repeat "• orders are up..." 5)),
                  JArr (map JStr
                          ["• Die Umsätze wuchsen schwächer als erwartet, "
                           ++ "während Kosten stiegen; guidance for the year was cut ag..."])))
    by (vm_compute; reflexivity).
  rewrite Hrun in Hsample. injection Hsample as Hbull Hbear.
  assert (Hinj : forall l l', map JStr l = map JStr l' -> l = l').
  { induction l as [|x l IH]; intros [|y l']; simpl; try discriminate.
    - reflexivity.
    - intros [= -> H]. f_equal. apply IH, H. }
  split; [apply Hinj, Hbull|]. split; [apply Hinj, Hbear|].
  vm_compute. reflexivity.
Defined.

Lemma confidence_witness :
  fst (analyze_article_sentiment MiniJson.loads sample_article
         (fresh_world (stub_service braces_reply)))
  = Ok (Some (mkSentimentResult "Neutral" "y" (JNum (8 # 10))
                "Acme beats estimates" "Newswire"))
  /\ exists text json_text fields,
       reply_text (next_reply (fresh_world (stub_service braces_reply))
                              (article_prompt sample_article)) = Ok text
       /\ extract_json_text (PyStr.strip text) = Some json_text
       /\ MiniJson.loads json_text = Ok (JObj fields)
       /\ Dict.get "confidence" fields = None.
Proof.
  assert (Hrun : fst (analyze_article_sentiment MiniJson.loads sample_article
                        (fresh_world (stub_service braces_reply)))
                 = Ok (Some (mkSentimentResult "Neutral" "y" (JNum (8 # 10))
                               "Acme beats estimates" "Newswire")))
    by (vm_compute; reflexivity).
  split; [exact Hrun|].
  destruct (confidence_is_reply_value_or_default MiniJson.loads sample_article
              (fresh_world (stub_service braces_reply)) _ Hrun)
    as [text [json_text [fields [Ht [Hx [Hl _]]]]]].
  exists text, json_text, fields.
  split; [exact Ht|]. split; [exact Hx|]. split; [exact Hl|].
  simpl in Ht. injection Ht as <-.
  vm_compute in Hx. injection Hx as <-.
  vm_compute in Hl. injection Hl as <-.
  reflexivity.
Defined.

Lemma spacing_witness :
  limiter_env (fresh_world slow_prompt_service)
  /\ calls_issued (Classify sample_article) = 1%nat
  /\ calls_issued (Narrate sample_60_40 "Acme") = 1%nat
  /\ exists start1 start2,
       map fst (calls (run_ops MiniJson.loads fixed_stamp
                         [Classify sample_article; Narrate sample_60_40 "Acme"]
                         (fresh_world slow_prompt_service)))
       = [start2; start1]
       /\ (1700000000 + 5 <= start2)%Q.
Proof.
  assert (Henv : limiter_env (fresh_world slow_prompt_service)).
  { split; [apply Qle_refl|]. intros n prompt. unfold Qle. simpl. lia. }
  split; [exact Henv|]. split; [reflexivity|]. split; [reflexivity|].
  destruct (consecutive_calls_spaced MiniJson.loads fixed_stamp
              (Classify sample_article) (Narrate sample_60_40 "Acme")
              (fresh_world slow_prompt_service) Henv eq_refl eq_refl)
    as [_ [_ [_ [start1 [start2 [_ [Hcalls [_ [_ [_ [Hle _]]]]]]]]]]].
  exists start1, start2. split.
  - unfold run_ops. cbn [fold_left]. rewrite Hcalls. reflexivity.
  - assert (Hstamp : last_request_time
                       (run_op MiniJson.loads fixed_stamp (Classify sample_article)
                          (fresh_world slow_prompt_service))
                     = 1700000000%Q)
      by (vm_compute; reflexivity).
    rewrite Hstamp in Hle. exact Hle.
Defined.

(** C9 as stated fails: a classification starts its call a thousandth of a
    time unit after the limiter's stamp, and the narrative generation that
    follows starts its own 4.999 units after that start, the minimum
    interval being 5. *)
Lemma spacing_counterexample :
  min_request_interval (fresh_world slow_prompt_service) = 5%Q
  /\ exists start1 start2,
       map fst (calls (run_ops MiniJson.loads fixed_stamp
                         [Classify sample_article; Narrate sample_60_40 "Acme"]
                         (fresh_world slow_prompt_service)))
       = [start2; start1]
       /\ (start1 == 1700000000 + (1 # 1000))%Q
       /\ (start2 == 1700000005)%Q
       /\ ~ (start1 + 5 <= start2)%Q.
Proof.
  split; [reflexivity|].
  eexists. eexists. split; [vm_compute; reflexivity|].
  split; [reflexivity|]. split; [reflexivity|].
  unfold Qle. simpl. lia.
Qed.

(** C6 as stated fails: a reply that decodes to an empty bull list and six
    bear points is used as it is. *)
Lemma case_lists_unbounded_counterexample :
  exists r,
    fst (generate_final_report MiniJson.loads fixed_stamp
           [judgment "Positive" "orders are up"] "Acme"
           (fresh_world (stub_service lopsided_narrative))) = Ok r
    /\ PyObj.len (bull_case r) = Ok 0
    /\ PyObj.len (bear_case r) = Ok 6
    /\ ~ case_list_bounded (bull_case r)
    /\ ~ case_list_bounded (bear_case r).
Proof.
  eexists. split; [vm_compute; reflexivity|].
  split; [reflexivity|]. split; [reflexivity|].
  split; intros [n [Hn Hb]]; injection Hn as <-; lia.
Qed.

(** C7 as stated fails: a confidence of 7 in the reply is the confidence of
    the judgment. *)
Lemma confidence_out_of_range_counterexample :
  exists j q,
    fst (analyze_article_sentiment MiniJson.loads sample_article
           (fresh_world (stub_service overconfident_reply))) = Ok (Some j)
    /\ confidence j = JNum q
    /\ ~ (0 <= q <= 1)%Q.
Proof.
  eexists. exists 7%Q. split; [vm_compute; reflexivity|].
  split; [reflexivity|].
  intros [_ H]. unfold Qle in H. simpl in H. lia.
Qed.


Lemma classify_witness :
  (exists e, MiniJson.loads "" = Raise e)
  /\ fence_closed (PyStr.strip fenced_reply)
  /\ exists j,
       fst (analyze_article_sentiment MiniJson.loads sample_article
              (fresh_world (stub_service fenced_reply))) = Ok (Some j)
       /\ sentiment j = "Positive".
Proof.
  assert (Hempty : exists e, MiniJson.loads "" = Raise e)
    by (eexists; reflexivity).
  assert (Hclosed : fence_closed (PyStr.strip fenced_reply))
    by (apply fence_closedb_spec; vm_compute; reflexivity).
  split; [exact Hempty|]. split; [exact Hclosed|].
  destruct (classify_yields_judgment_iff MiniJson.loads sample_article
              (fresh_world (stub_service fenced_reply)) fenced_reply
              Hempty eq_refl Hclosed)
    as [r [Hrun _]].
  vm_compute in Hrun. injection Hrun as <-.
  eexists. split; [vm_compute; reflexivity|reflexivity].
Defined.

(** C2 as stated fails.  A reply that decodes to an object with both
    fields and the sentiment Positive yields no judgment, because its
    reasoning is not text; and a reply whose sentiment in title case is not
    a label yields a judgment, because the label is stripped first. *)
Lemma nontext_reasoning_counterexample :
  (exists block fields label,
     reply_block (PyStr.strip nontext_reasoning_reply) block
     /\ MiniJson.loads block = Ok (JObj fields)
     /\ Dict.mem "sentiment" fields = true
     /\ Dict.mem "reasoning" fields = true
     /\ Dict.get "sentiment" fields = Some (JStr label)
     /\ In (PyStr.title label) valid_sentiments)
  /\ fst (analyze_article_sentiment MiniJson.loads sample_article
            (fresh_world (stub_service nontext_reasoning_reply))) = Ok None
  /\ (exists j,
        fst (analyze_article_sentiment MiniJson.loads sample_article
               (fresh_world (stub_service padded_label_reply))) = Ok (Some j))
  /\ MiniJson.loads padded_label_reply
     = Ok (JObj [("sentiment", JStr " positive "); ("reasoning", JStr "x")])
  /\ ~ In (PyStr.title " positive ") valid_sentiments.
Proof.
  split.
  { assert (Hclosed : fence_closed (PyStr.strip nontext_reasoning_reply))
      by (apply fence_closedb_spec; vm_compute; reflexivity).
    assert (Hx : extract_json_text (PyStr.strip nontext_reasoning_reply)
                 = Some nontext_reasoning_reply)
      by (vm_compute; reflexivity).
    destruct (block_of_extract _ _ Hclosed Hx) as [Hblock|[Habs _]];
      [|vm_compute in Habs; discriminate].
    exists nontext_reasoning_reply. eexists. exists "Positive".
    split; [exact Hblock|].
    split; [vm_compute; reflexivity|].
    split; [reflexivity|]. split; [reflexivity|]. split; [reflexivity|].
    left. reflexivity. }
  split; [vm_compute; reflexivity|].
  split; [eexists; vm_compute; reflexivity|].
  split; [vm_compute; reflexivity|].
  vm_compute. intros [H|[H|[H|[]]]]; discriminate.
Qed.

(** With an unclosed fence the slice ends one character before the end of
    the reply, so the closing brace is lost and nothing decodes. *)
Example unclosed_fence_loses_last_character :
  extract_json_text (PyStr.strip unclosed_fence_reply)
  = Some (PyStr.quoted "{'sentiment':'Positive','reasoning':'x'")
  /\ _parse_sentiment_response MiniJson.loads unclosed_fence_reply = None.
Proof. split; vm_compute; reflexivity. Qed.

(** The sample replies of the specification: a fenced block with a
    lower-case label, bare braces inside prose, and a reply without
    braces. *)
Example sample_replies_parse :
  _parse_sentiment_response MiniJson.loads fenced_reply
  = Some (mkSentimentData "Positive" "x" (JNum (9 # 10)))
  /\ _parse_sentiment_response MiniJson.loads braces_reply
     = Some (mkSentimentData "Neutral" "y" (JNum (8 # 10)))
  /\ _parse_sentiment_response MiniJson.loads "I cannot answer" = None.
Proof. repeat split; vm_compute; reflexivity. Qed.

(** ** Further properties of the analyzer *)

Lemma counter_incr_keys_old (k : string) (d : list (string * Z)) :
  In k (Dict.keys d) -> Dict.keys (counter_incr k d) = Dict.keys d.
Proof.
  unfold Dict.keys. induction d as [|[k0 n] d IH]; simpl; [tauto|].
  intros Hin. destruct (String.eqb k k0) eqn:E; simpl; [reflexivity|].
  f_equal. apply IH. destruct Hin as [->|Hin]; [|exact Hin].
  rewrite String.eqb_refl in E. discriminate.
Qed.

Lemma counter_incr_keys_new (k : string) (d : list (string * Z)) :
  ~ In k (Dict.keys d) -> Dict.keys (counter_incr k d) = (Dict.keys d ++ [k])%list.
Proof.
  unfold Dict.keys. induction d as [|[k0 n] d IH]; simpl; [reflexivity|].
  intros Hnin. destruct (String.eqb k k0) eqn:E; simpl.
  - apply String.eqb_eq in E. subst k0. exfalso. apply Hnin. left. reflexivity.
  - f_equal. apply IH. intro H. apply Hnin. right. exact H.
Qed.

(** The keys of a tally stand in the order in which the labels are first
    seen. *)
Lemma Counter_keys_order (l : list string) (a k : string) (A B C : list string) :
  Dict.keys (Counter l) = (A ++ a :: B ++ k :: C)%list ->
  exists l1 l2, l = (l1 ++ a :: l2)%list /\ ~ In k l1.
Proof.
  revert C. induction l as [|x l IH] using rev_ind; intros C Hk.
  - destruct A; discriminate.
  - rewrite Counter_snoc in Hk.
    destruct (in_dec string_dec x (Dict.keys (Counter l))) as [Hold|Hnew].
    + rewrite (counter_incr_keys_old _ _ Hold) in Hk.
      destruct (IH _ Hk) as [l1 [l2 [-> Hnin]]].
      exists l1, (l2 ++ [x])%list. split; [|exact Hnin].
      rewrite <- app_assoc. reflexivity.
    + rewrite (counter_incr_keys_new _ _ Hnew) in Hk.
      destruct C as [|y C'] using rev_ind.
      * replace (A ++ a :: B ++ [k])%list with ((A ++ a :: B) ++ [k])%list in Hk
          by (rewrite <- app_assoc; reflexivity).
        apply app_inj_tail in Hk. destruct Hk as [Hkeys <-].
        assert (Ha : In a l).
        { apply Counter_keys. rewrite Hkeys. apply in_or_app. right. left.
          reflexivity. }
        apply in_split in Ha. destruct Ha as [l1 [l2 ->]].
        exists l1, (l2 ++ [x])%list. split.
        -- rewrite <- app_assoc. reflexivity.
        -- intro Hin. apply Hnew. apply Counter_keys.
           apply in_or_app. left. exact Hin.
      * clear IHC'.
        replace (A ++ a :: B ++ k :: C' ++ [y])%list
          with ((A ++ a :: B ++ k :: C') ++ [y])%list in Hk
          by (rewrite <- app_assoc; simpl; rewrite <- app_assoc; reflexivity).
        apply app_inj_tail in Hk. destruct Hk as [Hkeys _].
        destruct (IH _ Hkeys) as [l1 [l2 [-> Hnin]]].
        exists l1, (l2 ++ [x])%list. split; [|exact Hnin].
        rewrite <- app_assoc. reflexivity.
Qed.

Lemma overall_first_max (js : list SentimentResult) :
  js <> [] ->
  exists label pre post,
    sentiment_percentages_of js = (pre ++ (label, share js label) :: post)%list
    /\ (forall y, In y pre -> (snd y < share js label)%Q)
    /\ (forall y, In y post -> (snd y <= share js label)%Q)
    /\ _determine_overall_sentiment (sentiment_percentages_of js)
       = Ok (if Qlt_bool (share js label) 40 then "Neutral" else label).
Proof.
  intro Hne. pose proof (percentages_nonempty js Hne) as Hp.
  destruct (sentiment_percentages_of js) as [|x rest] eqn:Epcts; [congruence|].
  destruct (max_fold_first rest x) as [pre [post [Heq [Hpre Hpost]]]].
  cbv zeta in Heq, Hpre, Hpost.
  set (m := fold_left _ rest x) in *.
  assert (Hin : In m (sentiment_percentages_of js)).
  { rewrite Epcts, Heq. apply in_or_app. right. left. reflexivity. }
  assert (Hget : Dict.get (fst m) (sentiment_percentages_of js) = Some (snd m)).
  { apply In_get.
    - unfold sentiment_percentages_of. rewrite percentages_keys.
      apply Counter_NoDup.
    - destruct m. exact Hin. }
  rewrite share_get in Hget.
  destruct (occurrences (fst m) (map sentiment js) =? 0); [discriminate|].
  injection Hget as Hshare.
  exists (fst m), pre, post. rewrite Hshare.
  split; [rewrite Heq; destruct m; reflexivity|].
  split; [exact Hpre|]. split; [exact Hpost|].
  unfold _determine_overall_sentiment, max_by_value. fold m. simpl.
  destruct (Qlt_bool (snd m) 40); reflexivity.
Qed.

Section AnalyzerExtras.
Context (json_loads : string -> Result Json) (strftime : Q -> string).

(** X1.  When the overall sentiment is not overridden, a label that ties
    with it for the highest share is first seen later in the judgment list
    than the overall label: ties go to the label seen first. *)
Theorem ties_resolve_to_first_seen
    (js : list SentimentResult) (company : string) (w : World) :
  js <> [] ->
  exists r w',
    generate_final_report json_loads strftime js company w = (Ok r, w')
    /\ forall k,
         (40 <= share js (overall_sentiment r))%Q ->
         k <> overall_sentiment r ->
         (share js k == share js (overall_sentiment r))%Q ->
         exists l1 l2,
           map sentiment js = (l1 ++ overall_sentiment r :: l2)%list
           /\ ~ In k l1.
Proof.
  intro Hne.
  assert (Hlen : 0 < Z.of_nat (List.length js))
    by (destruct js; [congruence|simpl; lia]).
  destruct (final_report_run json_loads strftime js company w Hne)
    as [overall [Hov Hrun]].
  destruct (overall_first_max js Hne)
    as [label [pre [post [Hpcts [Hpre [Hpost Hov']]]]]].
  rewrite Hov in Hov'. injection Hov' as Hoverall.
  eexists. eexists. split; [exact Hrun|]. cbn [overall_sentiment].
  intros k H40 Hk Htie.
  assert (Hmax : forall y, In y (sentiment_percentages_of js) ->
                           (snd y <= share js label)%Q).
  { intros y Hy. rewrite Hpcts in Hy. apply in_app_or in Hy.
    destruct Hy as [Hy|[<-|Hy]].
    - apply Qlt_le_weak, Hpre, Hy.
    - apply Qle_refl.
    - apply Hpost, Hy. }
  assert (Hocc : forall x, (0 < share js x)%Q ->
                           In (x, share js x) (sentiment_percentages_of js)).
  { intros x Hx. apply get_In. rewrite share_get.
    destruct (occurrences x (map sentiment js) =? 0) eqn:E; [|reflexivity].
    apply Z.eqb_eq in E. exfalso. unfold share in Hx. rewrite E in Hx.
    change 0%Q with (inject_Z 0) in Hx.
    apply (Qlt_irrefl (inject_Z 0)).
    eapply Qlt_le_trans; [exact Hx|].
    unfold percentage, Qle. simpl. lia. }
  assert (Hlabel : overall = label).
  { rewrite Hoverall.
    destruct (Qlt_bool (share js label) 40) eqn:E; [|reflexivity].
    apply Qlt_bool_iff in E. exfalso.
    assert (Hin : In (overall, share js overall) (sentiment_percentages_of js))
      by (apply Hocc; lra).
    pose proof (Hmax _ Hin) as Hle. simpl in Hle. lra. }
  clear Hoverall. subst overall.
  assert (Hkin : In (k, share js k) (sentiment_percentages_of js))
    by (apply Hocc; lra).
  rewrite Hpcts in Hkin. apply in_app_or in Hkin.
  destruct Hkin as [Hkin|[Hkin|Hkin]].
  - apply Hpre in Hkin. simpl in Hkin. lra.
  - congruence.
  - apply in_split in Hkin. destruct Hkin as [p1 [p2 ->]].
    apply (Counter_keys_order (map sentiment js) label k
             (map fst pre) (map fst p1) (map fst p2)).
    change (Counter (map sentiment js)) with (sentiment_counts_of js).
    rewrite <- (percentages_keys (Z.of_nat (List.length js))).
    change (map (fun '(label0, count) =>
                   (label0, percentage (Z.of_nat (List.length js)) count))
                (sentiment_counts_of js))
      with (sentiment_percentages_of js).
    rewrite Hpcts. unfold Dict.keys.
    rewrite map_app. simpl. rewrite map_app. reflexivity.
Qed.

(** X2.  The narrative lists are taken from the reply exactly when its
    block decodes to an object that has both [bull_case] and [bear_case];
    a reply that lacks either key, or decodes to something that is not an
    object, gives the fallback for both lists. *)
Theorem narrative_needs_both_lists
    (js : list SentimentResult) (company : string) (w : World) (text : string) :
  reply_text (next_reply w (narrative_prompt js company)) = Ok text ->
  exists cases w',
    _generate_bull_bear_cases json_loads js company w = (Ok cases, w')
    /\ (forall block fields bull bear,
          extract_json_text (PyStr.strip text) = Some block ->
          json_loads block = Ok (JObj fields) ->
          Dict.get "bull_case" fields = Some bull ->
          Dict.get "bear_case" fields = Some bear ->
          cases = (bull, bear))
    /\ (forall block fields,
          extract_json_text (PyStr.strip text) = Some block ->
          json_loads block = Ok (JObj fields) ->
          Dict.get "bull_case" fields = None
          \/ Dict.get "bear_case" fields = None ->
          cases = _create_default_bull_bear_cases js)
    /\ (forall block data,
          extract_json_text (PyStr.strip text) = Some block ->
          json_loads block = Ok data ->
          (forall fields, data <> JObj fields) ->
          cases = _create_default_bull_bear_cases js).
Proof.
  intro Hreply. eexists. eexists. split; [apply bull_bear_run|].
  unfold narrative_of_reply. rewrite Hreply. unfold narrative_of_text.
  assert (Htext : forall block,
            extract_json_text (PyStr.strip text) = Some block ->
            String.eqb text "" = false).
  { intros block Hx. destruct (String.eqb text "") eqn:E; [|reflexivity].
    apply String.eqb_eq in E. subst text. vm_compute in Hx. discriminate. }
  unfold _parse_bull_bear_response.
  split; [|split].
  - intros block fields bull bear Hx Hl Hb Hr.
    rewrite (Htext _ Hx), Hx, Hl. simpl.
    destruct fields as [|f fields']; [discriminate|].
    rewrite Hb, Hr. reflexivity.
  - intros block fields Hx Hl Hmissing.
    rewrite (Htext _ Hx), Hx, Hl. simpl.
    destruct fields as [|f fields']; [reflexivity|].
    destruct Hmissing as [Hm|Hm]; rewrite Hm; [reflexivity|].
    destruct (Dict.get "bull_case" (f :: fields')); reflexivity.
  - intros block data Hx Hl Hnot.
    rewrite (Htext _ Hx), Hx, Hl.
    destruct data as [| b | q | s | items | fields]; simpl;
      try reflexivity.
    + destruct b; reflexivity.
    + destruct (negb (PyObj.Qis_zero q)); reflexivity.
    + destruct (negb (String.eqb s "")); reflexivity.
    + destruct items; reflexivity.
    + exfalso. apply (Hnot fields). reflexivity.
Qed.

(** X3.  The narrative prompt is determined by the company name and the
    first five reasonings of the Positive and of the Negative judgments:
    Neutral judgments and later reasonings never reach the service. *)
Theorem narrative_prompt_uses_first_five
    (js js' : list SentimentResult) (company : string) :
  firstn 5 (polar_reasoning "Positive" js) = firstn 5 (polar_reasoning "Positive" js') ->
  firstn 5 (polar_reasoning "Negative" js) = firstn 5 (polar_reasoning "Negative" js') ->
  narrative_prompt js company = narrative_prompt js' company.
Proof.
  unfold polar_reasoning, narrative_prompt, _create_bull_bear_prompt, bullet_lines.
  intros HP HN. rewrite HP, HN. reflexivity.
Qed.

(** X5.  Through one analyzer, every operation except the synthesis of an
    empty list issues exactly one call (an article being a dictionary of
    text).  After [k] calls the limiter's stamp lies at least [k] times the
    minimum interval after the stamp it had before them, and at least
    [k - 1] times the minimum interval after the clock reading at which
    they began; and the latest call did not start before that stamp. *)
Theorem calls_count_and_span (ops : list Op) (w : World) :
  limiter_env w ->
  let w' := run_ops json_loads strftime ops w in
  let k := list_sum (map calls_issued ops) in
  List.length (calls w') = (List.length (calls w) + k)%nat
  /\ (last_request_time w + inject_Z (Z.of_nat k) * min_request_interval w
      <= last_request_time w')%Q
  /\ ((1 <= k)%nat ->
      (clock w + inject_Z (Z.of_nat k - 1) * min_request_interval w
       <= last_request_time w')%Q
      /\ exists start prompt rest,
           calls w' = (start, prompt) :: rest
           /\ (last_request_time w' <= start)%Q).
Proof.
  intros Henv w' k.
  destruct (run_ops_stamps json_loads strftime ops w Henv)
    as [_ [_ [Hlen [_ [Hstamp Hfirst]]]]].
  fold w' k in Hlen, Hstamp, Hfirst.
  split; [exact Hlen|]. split; [exact Hstamp|].
  intro Hk. destruct (Hfirst Hk) as [Hclock Hstart].
  split; [exact Hclock|].
  destruct (calls w') as [|[start prompt] rest] eqn:Ecalls.
  - simpl in Hlen. lia.
  - exists start, prompt, rest. split; [reflexivity|].
    apply (Hstart start prompt). reflexivity.
Qed.

End AnalyzerExtras.




(** ** The analysis run *)

Lemma judgment_of_text_label (json_loads : string -> Result Json)
    (article : Article) (text : string) (j : SentimentResult) :
  judgment_of_text json_loads article text = Some j ->
  In (sentiment j) valid_sentiments
  /\ article_title j = article_get article "title" "".
Proof.
  unfold judgment_of_text.
  destruct (String.eqb text ""); [discriminate|].
  destruct (_parse_sentiment_response json_loads text) as [d|] eqn:Ed;
    [|discriminate].
  intros [= <-]. apply parse_sentiment_Some in Ed.
  destruct Ed as [json_text [fields [label [why [_ [_ [[_ [_ Hv]] ->]]]]]]].
  split; [exact Hv|reflexivity].
Qed.

Lemma valid_occurrences_sum (labels : list string) :
  Forall (fun k => In k valid_sentiments) labels ->
  occurrences "Positive" labels + occurrences "Negative" labels
  + occurrences "Neutral" labels = Z.of_nat (List.length labels).
Proof.
  induction 1 as [|k labels Hk _ IH]; [reflexivity|].
  rewrite !occurrences_cons. cbn [List.length].
  destruct Hk as [<-|[<-|[<-|[]]]]; simpl; lia.
Qed.

Section AnalysisRun.
Context (json_loads : string -> Result Json) (strftime : Q -> string).

Lemma classify_loop_run (articles : list Article) (acc : list SentimentResult)
    (w : World) :
  classify_loop json_loads articles acc w
  = (Ok (acc ++ loop_judgments json_loads (service w) (List.length (calls w))
                  articles)%list,
     run_ops json_loads strftime (map Classify articles) w).
Proof.
  revert acc w. induction articles as [|a rest IH]; intros acc w.
  - simpl. rewrite app_nil_r. reflexivity.
  - cbn [classify_loop loop_judgments map]. unfold bind.
    change (run_ops json_loads strftime (Classify a :: map Classify rest) w)
      with (run_ops json_loads strftime (map Classify rest)
              (snd (analyze_article_sentiment json_loads a w))).
    rewrite analyze_run. cbn [snd].
    change (reply_text (service w (List.length (calls w)) (article_prompt a)))
      with (reply_text (next_reply w (article_prompt a))).
    destruct (match reply_text (next_reply w (article_prompt a)) with
              | Ok text => judgment_of_text json_loads a text
              | Raise _ => None
              end) as [j|] eqn:Eout.
    + rewrite IH, <- app_assoc.
      destruct (reply_text (next_reply w (article_prompt a))) as [text|e];
        [|discriminate].
      rewrite Eout. reflexivity.
    + rewrite IH.
      destruct (reply_text (next_reply w (article_prompt a))) as [text|e];
        [rewrite Eout|]; reflexivity.
Qed.

Lemma loop_judgments_spec (svc : nat -> string -> Reply) (n : nat)
    (articles : list Article) :
  Forall (fun j => In (sentiment j) valid_sentiments)
         (loop_judgments json_loads svc n articles)
  /\ subseq (map article_title (loop_judgments json_loads svc n articles))
            (map (fun a => article_get a "title" "") articles).
Proof.
  revert n. induction articles as [|a rest IH]; intro n; cbn [loop_judgments map].
  - split; constructor.
  - destruct (IH (S n)) as [Hall Hsub].
    destruct (reply_text (svc n (article_prompt a))) as [text|e].
    + destruct (judgment_of_text json_loads a text) as [j|] eqn:Ej.
      * destruct (judgment_of_text_label _ _ _ _ Ej) as [Hvalid Htitle].
        split; [constructor; assumption|].
        cbn [map]. rewrite Htitle. apply subseq_keep. exact Hsub.
      * split; [exact Hall|apply subseq_skip; exact Hsub].
    + split; [exact Hall|apply subseq_skip; exact Hsub].
Qed.

Lemma classify_ops_prompts (articles : list Article) (w : World) :
  map snd (calls (run_ops json_loads strftime (map Classify articles) w))
  = (rev (map article_prompt articles) ++ map snd (calls w))%list.
Proof.
  revert w. induction articles as [|a rest IH]; intro w; [reflexivity|].
  cbn [map].
  change (run_ops json_loads strftime (Classify a :: map Classify rest) w)
    with (run_ops json_loads strftime (map Classify rest)
            (snd (analyze_article_sentiment json_loads a w))).
  rewrite analyze_run, IH. cbn [snd rev].
  rewrite after_classification_calls, <- app_assoc. reflexivity.
Qed.

Lemma classify_ops_issued (articles : list Article) :
  list_sum (map calls_issued (map Classify articles)) = List.length articles.
Proof.
  induction articles as [|a rest IH]; [reflexivity|].
  cbn [map List.length]. unfold list_sum in *. cbn [fold_right]. rewrite IH.
  reflexivity.
Qed.

(** X6.  The classification loop puts every article to the service, in
    order, whether or not the articles before it were classified, and
    returns exactly the judgments made of the replies, in the order of the
    articles: none is dropped, none is added.  Each carries one of the
    three labels and the title of its article. *)
Theorem classify_loop_keeps_successes (articles : list Article) (w : World) :
  exists w',
    classify_loop json_loads articles [] w
    = (Ok (loop_judgments json_loads (service w) (List.length (calls w)) articles),
       w')
    /\ map snd (calls w')
       = (rev (map article_prompt articles) ++ map snd (calls w))%list
    /\ Forall (fun j => In (sentiment j) valid_sentiments)
              (loop_judgments json_loads (service w) (List.length (calls w))
                 articles)
    /\ subseq (map article_title
                 (loop_judgments json_loads (service w) (List.length (calls w))
                    articles))
              (map (fun a => article_get a "title" "") articles)
    /\ (forall article rest,
          articles = article :: rest ->
          loop_judgments json_loads (service w) (List.length (calls w)) articles
          = (match fst (analyze_article_sentiment json_loads article w) with
             | Ok (Some judgment) => [judgment]
             | _ => []
             end
             ++ loop_judgments json_loads (service w) (S (List.length (calls w)))
                  rest)%list).
Proof.
  eexists. split; [apply (classify_loop_run articles [] w)|].
  split; [apply classify_ops_prompts|].
  destruct (loop_judgments_spec (service w) (List.length (calls w)) articles)
    as [Hall Hsub].
  split; [exact Hall|]. split; [exact Hsub|].
  intros article rest ->. rewrite analyze_run. cbn [fst loop_judgments].
  change (service w (List.length (calls w)) (article_prompt article))
    with (next_reply w (article_prompt article)).
  destruct (reply_text (next_reply w (article_prompt article))) as [text|e];
    [|reflexivity].
  destruct (judgment_of_text json_loads article text); reflexivity.
Qed.

(** X7.  When every judgment carries one of the three labels, so does the
    overall sentiment, the breakdown has at most three entries, and the
    override to Neutral for want of a 40% share happens only when all
    three labels are present. *)
Theorem three_labels_report
    (js : list SentimentResult) (company : string) (w : World) :
  js <> [] ->
  Forall (fun j => In (sentiment j) valid_sentiments) js ->
  exists r w',
    generate_final_report json_loads strftime js company w = (Ok r, w')
    /\ In (overall_sentiment r) valid_sentiments
    /\ (List.length (sentiment_breakdown r) <= 3)%nat
    /\ ((forall k, (share js k < 40)%Q) ->
        In "Positive" (map sentiment js)
        /\ In "Negative" (map sentiment js)
        /\ In "Neutral" (map sentiment js)).
Proof.
  intros Hne Hvalid.
  assert (Hlen : 0 < Z.of_nat (List.length js))
    by (destruct js; [congruence|simpl; lia]).
  assert (Hlabels : Forall (fun k => In k valid_sentiments) (map sentiment js)).
  { rewrite Forall_forall in *. intros k Hk. apply in_map_iff in Hk.
    destruct Hk as [j [<- Hj]]. apply Hvalid, Hj. }
  destruct (final_report_run json_loads strftime js company w Hne)
    as [overall [Hov Hrun]].
  destruct (overall_of_shares js Hne) as [label [Hin [_ Hov']]].
  rewrite Hov in Hov'. injection Hov' as Hoverall.
  eexists. eexists. split; [exact Hrun|]. cbn [overall_sentiment sentiment_breakdown].
  split.
  { rewrite Hoverall. destruct (Qlt_bool (share js label) 40).
    - right. right. left. reflexivity.
    - rewrite Forall_forall in Hlabels. apply Hlabels, Hin. }
  split.
  { change 3%nat with (List.length valid_sentiments).
    rewrite <- (length_map fst (sentiment_counts_of js)).
    apply NoDup_incl_length; [apply Counter_NoDup|].
    intros k Hk. apply (Counter_keys k (map sentiment js)) in Hk.
    rewrite Forall_forall in Hlabels. apply Hlabels, Hk. }
  intro Hall.
  pose proof (valid_occurrences_sum _ Hlabels) as Hsum.
  rewrite length_map in Hsum.
  assert (Hlt : forall k, 100 * occurrences k (map sentiment js)
                          < 40 * Z.of_nat (List.length js)).
  { intro k. apply percentage_lt_const; [exact Hlen|]. apply Hall. }
  pose proof (Hlt "Positive"). pose proof (Hlt "Negative").
  pose proof (Hlt "Neutral").
  repeat split; apply occurrences_pos_iff; lia.
Qed.

End AnalysisRun.

Section PerformAnalysisFacts.
Context (json_loads : string -> Result Json) (strftime : Q -> string)
        (CompanyInfo : Type)
        (get_ticker : string -> option string)
        (get_company_info : string -> option CompanyInfo)
        (fetch_news_from_api : string -> Z -> list Article)
        (exception_text : Exn -> string).

(** X8.  [perform_analysis], for a [max_articles] that is not negative,
    ends in one of four ways: no ticker, no articles, no article classified
    (each with its fixed message and no report), or a report without a
    message.  The judgments are those made of the first [max_articles]
    articles fetched, one call each; the report is there exactly when
    there is a judgment, its two article counts are both the number of
    judgments, not of articles fetched or kept, its breakdown tallies the
    labels of the judgments, and its overall sentiment is one of the three
    labels; the run then issued one call for every article kept and one
    more for the narrative. *)
Theorem perform_analysis_outcomes
    (company : string) (params : ConfigParams) (now overrun : Q)
    (svc : nat -> string -> Reply) :
  0 <= max_articles params ->
  let fetched := fetch_news_from_api company (days_back params) in
  let kept := firstn (Z.to_nat (max_articles params)) fetched in
  let judgments := loop_judgments json_loads svc 0 kept in
  let '((info, report, message), w') :=
    perform_analysis json_loads strftime CompanyInfo get_ticker get_company_info
      fetch_news_from_api exception_text company params now overrun svc in
  match report with
  | Some r =>
      message = None
      /\ (exists ticker,
            get_ticker company = Some ticker /\ ticker <> ""
            /\ info = get_company_info ticker)
      /\ judgments <> []
      /\ analyzed_articles r = Z.of_nat (List.length judgments)
      /\ total_articles r = Z.of_nat (List.length judgments)
      /\ (List.length judgments <= List.length kept <= List.length fetched)%nat
      /\ (forall k, In k (map sentiment judgments) ->
                    Dict.get k (sentiment_breakdown r)
                    = Some (occurrences k (map sentiment judgments)))
      /\ In (overall_sentiment r) valid_sentiments
      /\ map snd (calls w')
         = narrative_prompt judgments company :: rev (map article_prompt kept)
  | None =>
      (message = Some no_ticker_message /\ calls w' = []
       /\ (get_ticker company = None \/ get_ticker company = Some ""))
      \/ (message = Some no_articles_message /\ calls w' = [] /\ fetched = [])
      \/ (message = Some no_sentiment_message /\ fetched <> []
          /\ judgments = []
          /\ map snd (calls w') = rev (map article_prompt kept))
  end.
Proof.
  intros Hmax fetched kept judgments.
  unfold perform_analysis, perform_analysis_body.
  destruct (get_ticker company) as [ticker|] eqn:Et;
    [|left; repeat split; left; reflexivity].
  destruct (String.eqb ticker "") eqn:Ee.
  { apply String.eqb_eq in Ee. subst ticker.
    left. repeat split. right. reflexivity. }
  apply String.eqb_neq in Ee.
  fold fetched.
  destruct fetched as [|a0 more] eqn:Ef;
    [right; left; repeat split|].
  assert (Htake : list_take (max_articles params) (a0 :: more) = kept).
  { unfold list_take, kept.
    destruct (max_articles params <? 0) eqn:E; [|reflexivity].
    apply Z.ltb_lt in E. lia. }
  rewrite Htake. unfold bind.
  rewrite (classify_loop_run json_loads strftime kept []
             (SentimentAnalyzer_init now overrun svc)).
  cbn [app]. change (service (SentimentAnalyzer_init now overrun svc)) with svc.
  change (List.length (calls (SentimentAnalyzer_init now overrun svc))) with O.
  fold judgments.
  set (w1 := run_ops json_loads strftime (map Classify kept)
               (SentimentAnalyzer_init now overrun svc)).
  assert (Hprompts : map snd (calls w1) = rev (map article_prompt kept)).
  { unfold w1. rewrite classify_ops_prompts. apply app_nil_r. }
  destruct (loop_judgments_spec json_loads svc O kept) as [Hall _].
  fold judgments in Hall.
  destruct judgments as [|j rs'] eqn:Ej.
  { right. right. split; [reflexivity|]. split; [discriminate|].
    split; [reflexivity|exact Hprompts]. }
  destruct (final_report_run json_loads strftime (j :: rs') company w1)
    as [overall [Hov Hfinal]]; [discriminate|].
  destruct (overall_of_shares (j :: rs')) as [label [Hin [_ Hov']]];
    [discriminate|].
  rewrite Hov in Hov'. injection Hov' as Hoverall.
  rewrite Hfinal.
  cbn [analyzed_articles total_articles overall_sentiment sentiment_breakdown].
  split; [reflexivity|].
  split; [exists ticker; repeat split; assumption|].
  split; [discriminate|]. split; [reflexivity|]. split; [reflexivity|].
  split.
  { split.
    - rewrite <- Ej. unfold judgments.
      pose proof (loop_judgments_spec json_loads svc O kept) as [_ Hsub].
      clear - Hsub.
      assert (Hle : forall (A : Type) (s b : list A),
                subseq s b -> (List.length s <= List.length b)%nat).
      { intros A s b H. induction H; simpl; lia. }
      apply Hle in Hsub. rewrite !length_map in Hsub. exact Hsub.
    - unfold kept. rewrite length_firstn. lia. }
  split.
  { intros k Hk. cbn [sentiment_breakdown].
    unfold sentiment_counts_of. rewrite Counter_get.
    apply occurrences_pos_iff in Hk.
    destruct (occurrences k (map sentiment (j :: rs')) =? 0) eqn:E;
      [|reflexivity].
    apply Z.eqb_eq in E. lia. }
  split.
  { cbn [overall_sentiment].
    rewrite Hoverall. destruct (Qlt_bool (share (j :: rs') label) 40).
    - right. right. left. reflexivity.
    - apply in_map_iff in Hin. destruct Hin as [j' [<- Hj']].
      rewrite Forall_forall in Hall. apply Hall, Hj'. }
  rewrite after_call_calls. cbn [map snd]. rewrite Hprompts. reflexivity.
Qed.

End PerformAnalysisFacts.

(** ** The data fetcher's articles *)

Section ArticleFacts.
Context (py_str : Json -> string) (py_lower : string -> string).

(** What an accepted article is, and what is built from it. *)
Lemma valid_article_shape (article : Json) (company : string) (p : Json) :
  _is_valid_article py_str py_lower article company = Ok true ->
  processed_article article = Ok p ->
  exists title description content source_name url published image n,
    p = JObj [("title", title); ("description", description);
              ("content", content); ("url", url);
              ("publishedAt", published); ("source", source_name);
              ("urlToImage", image)]
    /\ PyObj.truthy title = true
    /\ PyObj.truthy description = true
    /\ PyObj.len content = Ok n
    /\ 100 <= n
    /\ PyStr.contains (py_lower company)
         (py_lower (format_value py_str title ++ " "
                     ++ format_value py_str description ++ " "
                     ++ format_value py_str content)) = true.
Proof.
  unfold _is_valid_article, processed_article.
  destruct article as [| b | q | s | items | fields]; simpl; try discriminate.
  destruct (Dict.get "title" fields) as [title|] eqn:Et; simpl;
    [|discriminate].
  destruct (PyObj.truthy title) eqn:Ett; simpl; [|discriminate].
  destruct (Dict.get "description" fields) as [description|] eqn:Ed; simpl;
    [|discriminate].
  destruct (PyObj.truthy description) eqn:Edt; simpl; [|discriminate].
  set (content := match Dict.get "content" fields with
                  | Some v => v
                  | None => JStr ""
                  end).
  assert (Hc : match Dict.get "content" fields with
               | Some v => Ok v
               | None => Ok (JStr "")
               end = Ok content)
    by (unfold content; destruct (Dict.get "content" fields); reflexivity).
  rewrite Hc. simpl.
  destruct (PyObj.len content) as [n|e] eqn:En; simpl; [|discriminate].
  destruct (n <? 100) eqn:E100; [discriminate|].
  apply Z.ltb_ge in E100.
  intros [= Hrel].
  destruct (Dict.get "url" fields) as [url|]; simpl;
    destruct (Dict.get "publishedAt" fields) as [published|]; simpl;
    destruct (Dict.get "source" fields) as [source|]; simpl;
    try (destruct source as [| | | | |sfields]; simpl; try discriminate;
         destruct (Dict.get "name" sfields) as [name|]; simpl);
    destruct (Dict.get "urlToImage" fields) as [image|]; simpl;
    intros [= <-];
    do 8 eexists; (split; [reflexivity|]);
    repeat split; try eassumption; reflexivity.
Qed.

End ArticleFacts.

Section FetchFacts.
Context (py_str : Json -> string) (py_lower : string -> string)
        (news_service : string -> Z -> Result Json).

Lemma process_articles_spec (items : list Json) (company : string)
    (acc l : list Json) :
  process_articles py_str py_lower items company acc = Ok l ->
  exists new,
    l = (acc ++ new)%list
    /\ (List.length new <= List.length items)%nat
    /\ Forall (fun p => exists a,
                 In a items
                 /\ _is_valid_article py_str py_lower a company = Ok true
                 /\ processed_article a = Ok p) new.
Proof.
  revert acc l. induction items as [|a items IH]; intros acc l; cbn [process_articles].
  - intros [= <-]. exists []. rewrite app_nil_r.
    split; [reflexivity|]. split; [simpl; lia|constructor].
  - destruct (_is_valid_article py_str py_lower a company) as [[|]|e] eqn:Ev; simpl;
      [| |discriminate].
    + destruct (processed_article a) as [p|e] eqn:Ep; simpl; [|discriminate].
      intro H. destruct (IH _ _ H) as [new [-> [Hlen Hall]]].
      exists (p :: new). rewrite <- app_assoc.
      split; [reflexivity|]. split; [simpl; lia|].
      constructor.
      * exists a. split; [left; reflexivity|]. split; assumption.
      * eapply Forall_impl; [|exact Hall].
        intros p' [a' [Hin H']]. exists a'. split; [right; exact Hin|exact H'].
    + intro H. destruct (IH _ _ H) as [new [-> [Hlen Hall]]].
      exists new. split; [reflexivity|]. split; [simpl; lia|].
      eapply Forall_impl; [|exact Hall].
      intros p' [a' [Hin H']]. exists a'. split; [right; exact Hin|exact H'].
Qed.

Lemma process_articles_raise (items : list Json) (company : string)
    (acc : list Json) (a : Json) :
  In a items ->
  (exists e, _is_valid_article py_str py_lower a company = Raise e) ->
  exists e, process_articles py_str py_lower items company acc = Raise e.
Proof.
  revert acc. induction items as [|x items IH]; intros acc Hin Hraise; [destruct Hin|].
  cbn [process_articles].
  destruct (_is_valid_article py_str py_lower x company) as [[|]|e] eqn:Ev; simpl.
  - destruct (processed_article x) as [p|e]; simpl; [|eexists; reflexivity].
    destruct Hin as [->|Hin]; [destruct Hraise; congruence|].
    apply IH; assumption.
  - destruct Hin as [->|Hin]; [destruct Hraise; congruence|].
    apply IH; assumption.
  - eexists. reflexivity.
Qed.

Lemma fetch_body_items (company : string) (days : Z) (l : list Json) :
  fetch_news_body py_str py_lower news_service company days = Ok l ->
  l = [] \/ exists items, process_articles py_str py_lower items company [] = Ok l.
Proof.
  unfold fetch_news_body.
  destruct (news_service company days) as [data|e]; simpl; [|discriminate].
  destruct (PyObj.get data "status" JNull) as [status|e]; simpl; [|discriminate].
  destruct (PyObj.is_str "ok" status); simpl.
  - destruct (PyObj.get data "articles" (JArr [])) as [articles|e]; simpl;
      [|discriminate].
    destruct (PyObj.len articles); simpl; [|discriminate].
    destruct (py_iter articles) as [items|e]; simpl; [|discriminate].
    intro H. right. exists items. exact H.
  - destruct (PyObj.get data "message" (JStr "Unknown error")); simpl;
      [|discriminate].
    intros [= <-]. left. reflexivity.
Qed.

(** X10.  Every article [fetch_news_from_api] returns has the seven
    fields, a title and a description that are not empty, a body whose
    length, counted in characters, is at least 100, and the company name in
    lower case within the lower-cased text of its title, description and
    body. *)
Theorem fetched_articles_are_valid (company : string) (days : Z) (p : Json) :
  In p (fetch_news_from_api py_str py_lower news_service company days) ->
  exists title description content source_name url published image n,
    p = JObj [("title", title); ("description", description);
              ("content", content); ("url", url);
              ("publishedAt", published); ("source", source_name);
              ("urlToImage", image)]
    /\ PyObj.truthy title = true
    /\ PyObj.truthy description = true
    /\ PyObj.len content = Ok n
    /\ 100 <= n
    /\ PyStr.contains (py_lower company)
         (py_lower (format_value py_str title ++ " "
                     ++ format_value py_str description ++ " "
                     ++ format_value py_str content)) = true.
Proof.
  unfold fetch_news_from_api.
  destruct (fetch_news_body py_str py_lower news_service company days) as [l|e] eqn:Eb;
    [|intros []].
  intro Hin. destruct (fetch_body_items _ _ _ Eb) as [->|[items Hitems]];
    [destruct Hin|].
  destruct (process_articles_spec _ _ _ _ Hitems) as [new [-> [_ Hall]]].
  simpl in Hin. rewrite Forall_forall in Hall.
  destruct (Hall _ Hin) as [a [_ [Hv Hp]]].
  apply (valid_article_shape py_str py_lower a company p Hv Hp).
Qed.

(** X11.  One article with a title, a description and a null body makes
    [fetch_news_from_api] return no article at all, whatever the other
    articles of the response are. *)
Theorem null_content_empties_fetch
    (company : string) (days : Z) (fields : list (string * Json))
    (items : list Json) (afields : list (string * Json))
    (title description : Json) :
  news_service company days = Ok (JObj fields) ->
  Dict.get "status" fields = Some (JStr "ok") ->
  Dict.get "articles" fields = Some (JArr items) ->
  In (JObj afields) items ->
  Dict.get "title" afields = Some title -> PyObj.truthy title = true ->
  Dict.get "description" afields = Some description ->
  PyObj.truthy description = true ->
  Dict.get "content" afields = Some JNull ->
  fetch_news_from_api py_str py_lower news_service company days = [].
Proof.
  intros Hs Hst Har Hin Ht Htt Hd Hdt Hc.
  unfold fetch_news_from_api, fetch_news_body.
  rewrite Hs. simpl. rewrite Hst. simpl. rewrite Har. simpl.
  destruct (process_articles_raise items company [] (JObj afields) Hin)
    as [e He].
  { exists TypeError. unfold _is_valid_article. simpl.
    rewrite Ht. simpl. rewrite Htt. simpl. rewrite Hd. simpl. rewrite Hdt. simpl.
    rewrite Hc. reflexivity. }
  rewrite He. reflexivity.
Qed.

End FetchFacts.

Lemma str_replace_space_none (replacement s : string) :
  ~ In " "%char (list_ascii_of_string s) ->
  str_replace_space replacement s = s.
Proof.
  induction s as [|c s IH]; simpl; intro H; [reflexivity|].
  destruct (Ascii.eqb c " ") eqn:E.
  - apply Ascii.eqb_eq in E. exfalso. apply H. left. exact E.
  - rewrite IH; [reflexivity|]. intro Hin. apply H. right. exact Hin.
Qed.

Section TickerFacts.
Context (ticker_info : string -> Result Json).

Lemma lookup_symbol_truthy (query : string) (symbol : Json) :
  lookup_symbol ticker_info query = Ok (Some symbol) ->
  PyObj.truthy symbol = true.
Proof.
  unfold lookup_symbol, symbol_of.
  destruct (ticker_info query) as [info|e]; simpl; [|discriminate].
  destruct (PyObj.truthy info); simpl; [|discriminate].
  destruct (PyObj.contains "symbol" info) as [[|]|e]; simpl; try discriminate.
  destruct (PyObj.subscript info "symbol") as [s|e]; simpl; [|discriminate].
  destruct (PyObj.truthy s) eqn:E; [|discriminate].
  intros [= <-]. exact E.
Qed.

Lemma try_variations_source (queries : list string) (symbol : Json) :
  try_variations ticker_info queries = Some symbol ->
  exists q, In q queries /\ lookup_symbol ticker_info q = Ok (Some symbol).
Proof.
  induction queries as [|v rest IH]; simpl; [discriminate|].
  destruct (lookup_symbol ticker_info v) as [[s|]|e] eqn:E.
  - intros [= <-]. exists v. split; [left; reflexivity|exact E].
  - intro H. destruct (IH H) as [q [Hin Hq]]. exists q. split; [right|]; assumption.
  - intro H. destruct (IH H) as [q [Hin Hq]]. exists q. split; [right|]; assumption.
Qed.

(** X12.  A ticker returned by [get_ticker] is the non-empty [symbol] of
    the lookup of the name or of one of its four variations; the symbol of
    the name itself is returned when there is one; and when the lookup of
    the name raises, no ticker is returned and no variation is tried. *)
Theorem get_ticker_sources (company : string) :
  (forall symbol,
     get_ticker ticker_info company = Some symbol ->
     PyObj.truthy symbol = true
     /\ exists q, In q (company :: variations company)
                  /\ lookup_symbol ticker_info q = Ok (Some symbol))
  /\ (forall symbol,
        lookup_symbol ticker_info company = Ok (Some symbol) ->
        get_ticker ticker_info company = Some symbol)
  /\ (forall e,
        ticker_info company = Raise e ->
        get_ticker ticker_info company = None).
Proof.
  split; [|split].
  - intros symbol. unfold get_ticker.
    destruct (lookup_symbol ticker_info company) as [[s|]|e] eqn:E.
    + intros [= <-]. split; [apply (lookup_symbol_truthy _ _ E)|].
      exists company. split; [left; reflexivity|exact E].
    + intro H. destruct (try_variations_source _ _ H) as [q [Hin Hq]].
      split; [apply (lookup_symbol_truthy _ _ Hq)|].
      exists q. split; [right; exact Hin|exact Hq].
    + discriminate.
  - intros symbol H. unfold get_ticker. rewrite H. reflexivity.
  - intros e H. unfold get_ticker, lookup_symbol. rewrite H. reflexivity.
Qed.

(** X13.  For a company name without a space, three of the four
    variations are the name itself: when the lookup of the name finds no
    symbol, the ticker is decided by the lookup of the upper-case name
    alone. *)
Theorem spaceless_name_variations (company : string) :
  ~ In " "%char (list_ascii_of_string company) ->
  variations company = [str_upper company; company; company; company]
  /\ (lookup_symbol ticker_info company = Ok None ->
      get_ticker ticker_info company
      = match lookup_symbol ticker_info (str_upper company) with
        | Ok (Some symbol) => Some symbol
        | _ => None
        end).
Proof.
  intro Hns. unfold variations.
  rewrite !(str_replace_space_none _ company Hns).
  split; [reflexivity|].
  intro Hnone. unfold get_ticker, variations.
  rewrite !(str_replace_space_none _ company Hns), Hnone. simpl.
  rewrite Hnone.
  destruct (lookup_symbol ticker_info (str_upper company)) as [[s|]|e];
    reflexivity.
Qed.

(** X14.  The company information, when there is one, has its ten fields
    in a fixed order; the name is the long name, or else the short name,
    or else Unknown, and the symbol defaults to the ticker asked for. *)
Theorem company_info_fields (ticker : string) (d : list (string * Json)) :
  get_company_info ticker_info ticker = Some d ->
  exists fields,
    ticker_info ticker = Ok (JObj fields)
    /\ fields <> []
    /\ Dict.keys d
       = ["symbol"; "name"; "sector"; "industry"; "market_cap";
          "current_price"; "currency"; "country"; "website"; "description"]
    /\ Dict.get "symbol" d = Some (field_or fields "symbol" (JStr ticker))
    /\ (forall long, Dict.get "longName" fields = Some long ->
                     Dict.get "name" d = Some long)
    /\ (forall short, Dict.get "longName" fields = None ->
                      Dict.get "shortName" fields = Some short ->
                      Dict.get "name" d = Some short)
    /\ (Dict.get "longName" fields = None ->
        Dict.get "shortName" fields = None ->
        Dict.get "name" d = Some (JStr "Unknown")).
Proof.
  unfold get_company_info.
  destruct (ticker_info ticker) as [info|e]; [|discriminate].
  destruct (PyObj.truthy info) eqn:Et; simpl; [|discriminate].
  destruct info as [| | | | |fields]; try discriminate.
  intros [= <-]. exists fields.
  split; [reflexivity|].
  split; [destruct fields; [discriminate|congruence]|].
  split; [reflexivity|]. split; [reflexivity|].
  simpl. unfold field_or. repeat split.
  - intros long H. rewrite H. reflexivity.
  - intros short H1 H2. rewrite H1, H2. reflexivity.
  - intros H1 H2. rewrite H1, H2. reflexivity.
Qed.

End TickerFacts.

(** ** Configuration of the keys *)

Lemma longer_than_10_spec (value : option string) :
  longer_than_10 value = true
  <-> exists s, value = Some s /\ (10 < PyStr.char_count s)%nat.
Proof.
  destruct value as [s|]; simpl.
  - rewrite Nat.ltb_lt. split.
    + intro H. exists s. split; [reflexivity|exact H].
    + intros [s' [[= <-] H]]. exact H.
  - split; [discriminate|]. intros [s [H _]]. discriminate.
Qed.

Lemma longer_differs (value : option string) (text : string) :
  (PyStr.char_count text <= 10)%nat ->
  longer_than_10 value = true ->
  differs value text = true /\ is_not_none value = true.
Proof.
  intros Hlen H. apply longer_than_10_spec in H. destruct H as [s [-> Hs]].
  simpl. split; [|reflexivity].
  destruct (String.eqb s text) eqn:E; [|reflexivity].
  apply String.eqb_eq in E. subst. lia.
Qed.

Lemma validate_keys_spec (c : Config) :
  validate_keys c = true
  <-> exists google news,
        google_ai_api_key c = Some google /\ news_api_key c = Some news
        /\ (10 < PyStr.char_count google)%nat /\ (10 < PyStr.char_count news)%nat.
Proof.
  unfold validate_keys. split.
  - intro H. repeat (apply andb_true_iff in H; destruct H as [H ?]).
    match goal with
    | Hg : longer_than_10 (google_ai_api_key c) = true,
      Hn : longer_than_10 (news_api_key c) = true |- _ =>
        apply longer_than_10_spec in Hg; apply longer_than_10_spec in Hn;
        destruct Hg as [g [Hg Hgl]]; destruct Hn as [n [Hn Hnl]]
    end.
    exists g, n. repeat split; assumption.
  - intros [g [n [Hg [Hn [Hgl Hnl]]]]].
    assert (Hlg : longer_than_10 (google_ai_api_key c) = true)
      by (apply longer_than_10_spec; exists g; split; assumption).
    assert (Hln : longer_than_10 (news_api_key c) = true)
      by (apply longer_than_10_spec; exists n; split; assumption).
    destruct (longer_differs _ "GEMINI_API" ltac:(vm_compute; lia) Hlg) as [H1 H2].
    destruct (longer_differs _ "NEWS_API" ltac:(vm_compute; lia) Hln) as [H3 H4].
    rewrite H1, H2, H3, H4, Hlg, Hln. reflexivity.
Qed.

(** The key [Config.__init__] keeps for a variable's value. *)
Lemma constructed_key (value : option string) :
  let key := if env_truthy value then value else Some "//" in
  (exists s, key = Some s /\ s <> "")
  /\ (env_truthy value = true -> key = value)
  /\ (env_truthy value = false ->
      key = Some "//" /\ (value = None \/ value = Some ""))
  /\ longer_than_10 key = longer_than_10 value.
Proof.
  destruct value as [s|]; simpl.
  - destruct (String.eqb s "") eqn:E; simpl.
    + apply String.eqb_eq in E. subst s.
      split; [exists "//"; split; [reflexivity|discriminate]|].
      split; [discriminate|]. split; [|reflexivity].
      intros _. split; [reflexivity|right; reflexivity].
    + apply String.eqb_neq in E.
      split; [exists s; split; [reflexivity|exact E]|].
      split; [reflexivity|]. split; [discriminate|reflexivity].
  - split; [exists "//"; split; [reflexivity|discriminate]|].
    split; [discriminate|]. split; [|reflexivity].
    intros _. split; [reflexivity|left; reflexivity].
Qed.

(** X15.  [validate_keys] holds exactly when both keys are texts of more
    than ten characters: the comparisons with the two placeholder names
    never decide, since neither placeholder is that long.  It agrees with
    the two flags of [get_key_status]. *)
Theorem validate_keys_iff_long_keys
    (getenv : string -> option string) (c : Config) :
  (validate_keys c = true
   <-> exists google news,
         google_ai_api_key c = Some google /\ news_api_key c = Some news
         /\ (10 < PyStr.char_count google)%nat /\ (10 < PyStr.char_count news)%nat)
  /\ validate_keys c
     = google_ai_configured (get_key_status getenv c)
       && news_api_configured (get_key_status getenv c).
Proof.
  split; [apply validate_keys_spec|].
  unfold validate_keys, get_key_status. simpl.
  destruct (differs (google_ai_api_key c) "GEMINI_API"),
           (differs (news_api_key c) "NEWS_API"),
           (is_not_none (google_ai_api_key c)),
           (is_not_none (news_api_key c)),
           (longer_than_10 (google_ai_api_key c)),
           (longer_than_10 (news_api_key c)); reflexivity.
Qed.

(** X16.  A configuration as constructed never has a missing or empty
    key: a variable that is unset or empty gives the built-in value, and
    the source reported for a key is the environment exactly when the key
    is the variable's value.  It validates exactly when both variables are
    set to texts of more than ten characters. *)
Theorem constructed_config_keys (getenv : string -> option string) :
  let c := Config_init getenv in
  let status := get_key_status getenv c in
  (exists google news,
     google_ai_api_key c = Some google /\ google <> ""
     /\ news_api_key c = Some news /\ news <> "")
  /\ (google_ai_source status = "environment"
      -> google_ai_api_key c = getenv "GOOGLE_AI_API_KEY")
  /\ (google_ai_source status = "secrets.py"
      -> google_ai_api_key c = Some "//"
         /\ (getenv "GOOGLE_AI_API_KEY" = None
             \/ getenv "GOOGLE_AI_API_KEY" = Some ""))
  /\ (news_api_source status = "environment"
      -> news_api_key c = getenv "NEWS_API_KEY")
  /\ (news_api_source status = "secrets.py"
      -> news_api_key c = Some "//"
         /\ (getenv "NEWS_API_KEY" = None \/ getenv "NEWS_API_KEY" = Some ""))
  /\ (validate_keys c = true
      <-> exists google news,
            getenv "GOOGLE_AI_API_KEY" = Some google
            /\ getenv "NEWS_API_KEY" = Some news
            /\ (10 < PyStr.char_count google)%nat
            /\ (10 < PyStr.char_count news)%nat).
Proof.
  intros c status.
  destruct (constructed_key (getenv "GOOGLE_AI_API_KEY"))
    as [[g [Hg Hgne]] [Hgenv [Hgdef Hglong]]].
  destruct (constructed_key (getenv "NEWS_API_KEY"))
    as [[n [Hn Hnne]] [Hnenv [Hndef Hnlong]]].
  cbv zeta in *.
  subst c status. unfold get_key_status, Config_init.
  cbn [google_ai_api_key news_api_key google_ai_source news_api_source].
  split; [exists g, n; repeat split; assumption|].
  split.
  { destruct (env_truthy (getenv "GOOGLE_AI_API_KEY")); [|discriminate].
    intros _. reflexivity. }
  split.
  { destruct (env_truthy (getenv "GOOGLE_AI_API_KEY")); [discriminate|].
    intros _. apply Hgdef. reflexivity. }
  split.
  { destruct (env_truthy (getenv "NEWS_API_KEY")); [|discriminate].
    intros _. reflexivity. }
  split.
  { destruct (env_truthy (getenv "NEWS_API_KEY")); [discriminate|].
    intros _. apply Hndef. reflexivity. }
  rewrite validate_keys_spec.
  cbn [google_ai_api_key news_api_key].
  split.
  - intros [g' [n' [Hg' [Hn' [Hgl Hnl]]]]].
    assert (H1 : longer_than_10 (getenv "GOOGLE_AI_API_KEY") = true).
    { rewrite <- Hglong. apply longer_than_10_spec. exists g'. split; assumption. }
    assert (H2 : longer_than_10 (getenv "NEWS_API_KEY") = true).
    { rewrite <- Hnlong. apply longer_than_10_spec. exists n'. split; assumption. }
    apply longer_than_10_spec in H1. apply longer_than_10_spec in H2.
    destruct H1 as [g0 [Hg0 Hg0l]]. destruct H2 as [n0 [Hn0 Hn0l]].
    exists g0, n0. repeat split; assumption.
  - intros [g0 [n0 [Hg0 [Hn0 [Hg0l Hn0l]]]]].
    assert (H1 : longer_than_10 (getenv "GOOGLE_AI_API_KEY") = true)
      by (apply longer_than_10_spec; exists g0; split; assumption).
    assert (H2 : longer_than_10 (getenv "NEWS_API_KEY") = true)
      by (apply longer_than_10_spec; exists n0; split; assumption).
    rewrite <- Hglong in H1. rewrite <- Hnlong in H2.
    apply longer_than_10_spec in H1. apply longer_than_10_spec in H2.
    destruct H1 as [g1 [Hg1 Hg1l]]. destruct H2 as [n1 [Hn1 Hn1l]].
    exists g1, n1. repeat split; assumption.
Qed.

(** ** The further properties at sample inputs *)

Lemma ties_witness :
  sample_tie <> []
  /\ exists r w',
       generate_final_report MiniJson.loads fixed_stamp sample_tie "Acme"
         (fresh_world failing_service) = (Ok r, w')
       /\ overall_sentiment r = "Negative"
       /\ exists l1 l2,
            map sentiment sample_tie = (l1 ++ "Negative" :: l2)%list
            /\ ~ In "Positive" l1.
Proof.
  split; [discriminate|].
  destruct (ties_resolve_to_first_seen MiniJson.loads fixed_stamp sample_tie "Acme"
              (fresh_world failing_service))
    as [r [w' [Hrun Htie]]]; [discriminate|].
  assert (Hov : overall_sentiment r = "Negative").
  { apply (f_equal fst) in Hrun. vm_compute in Hrun. injection Hrun as <-.
    reflexivity. }
  exists r, w'. split; [exact Hrun|]. split; [exact Hov|].
  rewrite <- Hov. apply Htie; rewrite Hov.
  - vm_compute. discriminate.
  - discriminate.
  - vm_compute. reflexivity.
Defined.

Lemma narrative_lists_witness :
  reply_text (next_reply (fresh_world (stub_service bull_only_narrative))
                         (narrative_prompt sample_6_1 "Acme"))
  = Ok bull_only_narrative
  /\ fst (_generate_bull_bear_cases MiniJson.loads sample_6_1 "Acme"
            (fresh_world (stub_service bull_only_narrative)))
     = Ok (_create_default_bull_bear_cases sample_6_1).
Proof.
  split; [reflexivity|].
  destruct (narrative_needs_both_lists MiniJson.loads sample_6_1 "Acme"
              (fresh_world (stub_service bull_only_narrative))
              bull_only_narrative eq_refl)
    as [cases [w' [Hrun [_ [Hmissing _]]]]].
  rewrite Hrun. cbn [fst]. f_equal.
  apply (Hmissing bull_only_narrative [("bull_case", JArr [JStr "growth"])]).
  - vm_compute. reflexivity.
  - vm_compute. reflexivity.
  - right. reflexivity.
Defined.

Lemma narrative_prompt_witness :
  firstn 5 (polar_reasoning "Positive" sample_6_1)
  = firstn 5 (polar_reasoning "Positive" sample_6_1_more)
  /\ firstn 5 (polar_reasoning "Negative" sample_6_1)
     = firstn 5 (polar_reasoning "Negative" sample_6_1_more)
  /\ narrative_prompt sample_6_1 "Acme" = narrative_prompt sample_6_1_more "Acme".
Proof.
  assert (HP : firstn 5 (polar_reasoning "Positive" sample_6_1)
               = firstn 5 (polar_reasoning "Positive" sample_6_1_more))
    by reflexivity.
  assert (HN : firstn 5 (polar_reasoning "Negative" sample_6_1)
               = firstn 5 (polar_reasoning "Negative" sample_6_1_more))
    by reflexivity.
  split; [exact HP|]. split; [exact HN|].
  apply (narrative_prompt_uses_first_five _ _ "Acme" HP HN).
Defined.


Lemma calls_span_witness :
  limiter_env (fresh_world slow_prompt_service)
  /\ exists start prompt rest,
       calls (run_ops MiniJson.loads fixed_stamp
                [Classify sample_article; Classify sample_article;
                 Synthesize sample_60_40 "Acme"]
                (fresh_world slow_prompt_service))
       = (start, prompt) :: rest
       /\ List.length rest = 2%nat
       /\ (1700000000 + 2 * 5 <= start)%Q.
Proof.
  assert (Henv : limiter_env (fresh_world slow_prompt_service)).
  { split; [apply Qle_refl|]. intros n prompt. unfold Qle. simpl. lia. }
  split; [exact Henv|].
  destruct (calls_count_and_span MiniJson.loads fixed_stamp
              [Classify sample_article; Classify sample_article;
               Synthesize sample_60_40 "Acme"]
              (fresh_world slow_prompt_service) Henv)
    as [Hcount [_ Hlast]].
  destruct Hlast as [Hclock [start [prompt [rest [Hcalls Hstart]]]]];
    [simpl; lia|].
  exists start, prompt, rest. split; [exact Hcalls|].
  rewrite Hcalls in Hcount. split; [simpl in Hcount; lia|].
  change (list_sum (map calls_issued
                      [Classify sample_article; Classify sample_article;
                       Synthesize sample_60_40 "Acme"])) with 3%nat in Hclock.
  change (clock (fresh_world slow_prompt_service)) with 1700000000%Q in Hclock.
  change (min_request_interval (fresh_world slow_prompt_service)) with 5%Q in Hclock.
  change (inject_Z (Z.of_nat 3 - 1)) with 2%Q in Hclock.
  lra.
Defined.

Lemma three_labels_witness :
  sample_35_35_30 <> []
  /\ Forall (fun j => In (sentiment j) valid_sentiments) sample_35_35_30
  /\ exists r w',
       generate_final_report MiniJson.loads fixed_stamp sample_35_35_30 "Acme"
         (fresh_world failing_service) = (Ok r, w')
       /\ In (overall_sentiment r) valid_sentiments.
Proof.
  assert (Hvalid : Forall (fun j => In (sentiment j) valid_sentiments)
                          sample_35_35_30).
  { apply Forall_forall. intros j Hj. vm_compute in Hj.
    repeat (destruct Hj as [<-|Hj]; [simpl; auto|]). destruct Hj. }
  split; [discriminate|]. split; [exact Hvalid|].
  destruct (three_labels_report MiniJson.loads fixed_stamp sample_35_35_30 "Acme"
              (fresh_world failing_service)) as [r [w' [Hrun [Hin _]]]];
    [discriminate|exact Hvalid|].
  exists r, w'. split; assumption.
Defined.

Lemma fetched_articles_witness :
  In (JObj [("title", JStr "Acme beats estimates");
            ("description", JStr "Quarterly results");
            ("content", JStr long_content); ("url", JStr "");
            ("publishedAt", JStr ""); ("source", JStr "Newswire");
            ("urlToImage", JStr "")])
     (fetch_news_from_api plain_str str_lower good_news "acme corp" 5)
  /\ exists n, PyObj.len (JStr long_content) = Ok n /\ 100 <= n.
Proof.
  assert (Hin : In (JObj [("title", JStr "Acme beats estimates");
                          ("description", JStr "Quarterly results");
                          ("content", JStr long_content); ("url", JStr "");
                          ("publishedAt", JStr ""); ("source", JStr "Newswire");
                          ("urlToImage", JStr "")])
                   (fetch_news_from_api plain_str str_lower good_news "acme corp" 5))
    by (vm_compute; left; reflexivity).
  split; [exact Hin|].
  destruct (fetched_articles_are_valid plain_str str_lower good_news "acme corp" 5 _ Hin)
    as [title [description [content [source_name [url [published [image [n
         [Hp [_ [_ [Hn [H100 _]]]]]]]]]]]]].
  injection Hp as <- <- <- <- <- <- <-.
  exists n. split; assumption.
Defined.

Lemma null_content_witness :
  In null_content_article [good_article; null_content_article]
  /\ fetch_news_from_api plain_str str_lower poisoned_news "acme corp" 5 = []
  /\ fetch_news_from_api plain_str str_lower good_news "acme corp" 5 <> [].
Proof.
  split; [right; left; reflexivity|]. split.
  - apply (null_content_empties_fetch plain_str str_lower poisoned_news "acme corp" 5
             [("status", JStr "ok");
              ("articles", JArr [good_article; null_content_article])]
             [good_article; null_content_article]
             [("title", JStr "Acme beats estimates");
              ("description", JStr "Quarterly results"); ("content", JNull)]
             (JStr "Acme beats estimates") (JStr "Quarterly results"));
      try reflexivity.
    right. left. reflexivity.
  - vm_compute. discriminate.
Defined.

Lemma spaceless_witness :
  ~ In " "%char (list_ascii_of_string "Acme")
  /\ variations "Acme" = ["ACME"; "Acme"; "Acme"; "Acme"].
Proof.
  assert (Hns : ~ In " "%char (list_ascii_of_string "Acme"))
    by (simpl; intros [H|[H|[H|[H|[]]]]]; discriminate).
  split; [exact Hns|].
  destruct (spaceless_name_variations dotted_lookup "Acme" Hns) as [Hv _].
  rewrite Hv. reflexivity.
Defined.

Lemma company_info_witness :
  get_company_info dotted_lookup "Acme.Corp"
  = Some [("symbol", JStr "ACME"); ("name", JStr "Unknown");
          ("sector", JStr "Unknown"); ("industry", JStr "Unknown");
          ("market_cap", JNum 0); ("current_price", JNum 0);
          ("currency", JStr "USD"); ("country", JStr "Unknown");
          ("website", JStr ""); ("description", JStr "")]
  /\ exists fields, dotted_lookup "Acme.Corp" = Ok (JObj fields) /\ fields <> [].
Proof.
  assert (H : get_company_info dotted_lookup "Acme.Corp"
              = Some [("symbol", JStr "ACME"); ("name", JStr "Unknown");
                      ("sector", JStr "Unknown"); ("industry", JStr "Unknown");
                      ("market_cap", JNum 0); ("current_price", JNum 0);
                      ("currency", JStr "USD"); ("country", JStr "Unknown");
                      ("website", JStr ""); ("description", JStr "")])
    by reflexivity.
  split; [exact H|].
  destruct (company_info_fields dotted_lookup "Acme.Corp" _ H)
    as [fields [Hf [Hne _]]].
  exists fields. split; assumption.
Defined.

(** The loop passes over the article that gives no judgment; and the
    ticker comes from the dotted variation, the upper-case one raising. *)
Lemma classify_loop_witness :
  exists w',
    classify_loop MiniJson.loads three_articles [] (fresh_world mixed_service)
    = (Ok (loop_judgments MiniJson.loads mixed_service 0 three_articles), w')
    /\ map article_title
         (loop_judgments MiniJson.loads mixed_service 0 three_articles)
       = ["First"; "Third"]
    /\ map snd (calls w') = rev (map article_prompt three_articles).
Proof.
  destruct (classify_loop_keeps_successes MiniJson.loads fixed_stamp
              three_articles (fresh_world mixed_service))
    as [w' [Hrun [Hcalls _]]].
  exists w'. split; [exact Hrun|].
  split; [vm_compute; reflexivity|].
  rewrite Hcalls. apply app_nil_r.
Defined.

(** A body of 99 characters is refused, though it has 101 bytes. *)
Example clipped_article_refused :
  PyObj.len (JStr clipped_content) = Ok 99
  /\ String.length clipped_content = 101%nat
  /\ _is_valid_article plain_str str_lower clipped_article "acme" = Ok false.
Proof. repeat split; vm_compute; reflexivity. Qed.

Example get_ticker_sample :
  get_ticker dotted_lookup "Acme Corp" = Some (JStr "ACME").
Proof. reflexivity. Qed.

(** ** The time a run takes *)

(** X17.  The first call through an analyzer just constructed is not
    delayed, provided the clock reads at least the minimum interval. *)
Theorem first_call_not_delayed (now overrun : Q) (svc : nat -> string -> Reply) :
  (5 <= now)%Q ->
  _rate_limit (SentimentAnalyzer_init now overrun svc)
  = (Ok tt, with_last_request_time now (SentimentAnalyzer_init now overrun svc)).
Proof.
  intro H. rewrite rate_limit_run. unfold stamped, wake_time.
  cbn [clock last_request_time min_request_interval SentimentAnalyzer_init].
  assert (E : Qlt_bool (now - 0) 5 = false)
    by (apply Qlt_bool_false_iff; lra).
  rewrite E. reflexivity.
Qed.

Section RunDuration.
Context (json_loads : string -> Result Json) (strftime : Q -> string)
        (CompanyInfo : Type)
        (get_ticker : string -> option string)
        (get_company_info : string -> option CompanyInfo)
        (fetch_news_from_api : string -> Z -> list Article)
        (exception_text : Exn -> string).

(** X18.  A run of [perform_analysis] that ends with a report takes at
    least five time units for every article kept, that is for each of the
    first [max_articles] articles fetched: its last call of the service,
    the one for the narrative, starts that long after the clock reading at
    which the analyzer was constructed. *)
Theorem perform_analysis_duration
    (company : string) (params : ConfigParams) (now overrun : Q)
    (svc : nat -> string -> Reply) :
  (0 <= overrun)%Q ->
  (forall n prompt, (0 <= preparation_time (svc n prompt))%Q) ->
  0 <= max_articles params ->
  let kept := firstn (Z.to_nat (max_articles params))
                (fetch_news_from_api company (days_back params)) in
  let '((info, report, message), w') :=
    perform_analysis json_loads strftime CompanyInfo get_ticker get_company_info
      fetch_news_from_api exception_text company params now overrun svc in
  report <> None ->
  exists start prompt rest,
    calls w' = (start, prompt) :: rest
    /\ List.length rest = List.length kept
    /\ (now + inject_Z (Z.of_nat (List.length kept)) * 5 <= start)%Q.
Proof.
  intros Hov Hprep Hmax kept. unfold perform_analysis, perform_analysis_body.
  destruct (get_ticker company) as [ticker|]; [|congruence].
  destruct (String.eqb ticker ""); [congruence|].
  destruct (fetch_news_from_api company (days_back params)) as [|a0 fetched] eqn:Ef;
    [congruence|].
  assert (Htake : list_take (max_articles params) (a0 :: fetched) = kept).
  { unfold list_take, kept.
    destruct (max_articles params <? 0) eqn:E; [|reflexivity].
    apply Z.ltb_lt in E. lia. }
  rewrite Htake. unfold bind.
  rewrite (classify_loop_run json_loads strftime kept []
             (SentimentAnalyzer_init now overrun svc)).
  cbn [app].
  destruct (loop_judgments json_loads
              (service (SentimentAnalyzer_init now overrun svc))
              (List.length (calls (SentimentAnalyzer_init now overrun svc)))
              kept) as [|j rs']; [congruence|].
  set (w0 := SentimentAnalyzer_init now overrun svc).
  assert (Henv : limiter_env w0) by (split; assumption).
  assert (Hrun : snd (generate_final_report json_loads strftime (j :: rs') company
                        (run_ops json_loads strftime (map Classify kept) w0))
                 = run_ops json_loads strftime
                     (map Classify kept ++ [Synthesize (j :: rs') company]) w0).
  { unfold run_ops. rewrite fold_left_app. reflexivity. }
  destruct (generate_final_report json_loads strftime (j :: rs') company
              (run_ops json_loads strftime (map Classify kept) w0))
    as [[r|e] w'] eqn:Efinal; cbn [snd] in Hrun; subst w'; intros _.
  - destruct (calls_count_and_span json_loads strftime
                (map Classify kept ++ [Synthesize (j :: rs') company]) w0 Henv)
      as [Hcount [_ Hlast]].
    assert (Hk : list_sum (map calls_issued
                             (map Classify kept ++ [Synthesize (j :: rs') company]))
                 = S (List.length kept)).
    { rewrite map_app, list_sum_app, classify_ops_issued. simpl. lia. }
    rewrite Hk in Hcount, Hlast.
    destruct Hlast as [Hclock [start [prompt [rest [Hcalls Hstart]]]]]; [lia|].
    exists start, prompt, rest. split; [exact Hcalls|].
    rewrite Hcalls in Hcount. cbn [List.length calls w0 SentimentAnalyzer_init] in Hcount.
    split; [lia|].
    change (clock w0) with now in Hclock.
    change (min_request_interval w0) with 5%Q in Hclock.
    replace (Z.of_nat (S (List.length kept)) - 1)
      with (Z.of_nat (List.length kept)) in Hclock by lia.
    lra.
  - destruct (final_report_run json_loads strftime (j :: rs') company
                (run_ops json_loads strftime (map Classify kept) w0))
      as [overall [_ Hfinal]]; [discriminate|].
    rewrite Hfinal in Efinal. discriminate.
Qed.

End RunDuration.

Lemma first_call_witness :
  (5 <= 1700000000)%Q
  /\ fst (_rate_limit (fresh_world failing_service)) = Ok tt
  /\ clock (snd (_rate_limit (fresh_world failing_service))) = 1700000000%Q.
Proof.
  assert (H : (5 <= 1700000000)%Q) by (unfold Qle; simpl; lia).
  split; [exact H|].
  unfold fresh_world.
  rewrite (first_call_not_delayed 1700000000 0 failing_service H).
  split; reflexivity.
Defined.

Lemma duration_witness :
  (0 <= 0)%Q
  /\ (forall n prompt, (0 <= preparation_time (mixed_service n prompt))%Q)
  /\ 0 <= max_articles sample_params
  /\ exists start prompt rest,
       calls (snd (perform_analysis MiniJson.loads fixed_stamp string
                     sample_ticker sample_company_info sample_fetch
                     sample_exception_text "Acme" sample_params
                     1700000000 0 mixed_service))
       = (start, prompt) :: rest
       /\ (1700000000 + 3 * 5 <= start)%Q.
Proof.
  assert (H : (0 <= 0)%Q) by apply Qle_refl.
  assert (Hprep : forall n prompt,
            (0 <= preparation_time (mixed_service n prompt))%Q).
  { intros n prompt. unfold mixed_service.
    destruct n as [|[|[|[|n]]]]; apply Qle_refl. }
  assert (Hmax : 0 <= max_articles sample_params) by (simpl; lia).
  split; [exact H|]. split; [exact Hprep|]. split; [exact Hmax|].
  pose proof (perform_analysis_duration MiniJson.loads fixed_stamp string
                sample_ticker sample_company_info sample_fetch
                sample_exception_text "Acme" sample_params 1700000000 0
                mixed_service H Hprep Hmax) as Hrun.
  cbv zeta in Hrun.
  destruct (perform_analysis MiniJson.loads fixed_stamp string
              sample_ticker sample_company_info sample_fetch
              sample_exception_text "Acme" sample_params
              1700000000 0 mixed_service) as [[[info report] message] w'] eqn:E.
  assert (Hreport : report <> None).
  { apply (f_equal (fun x => snd (fst (fst x)))) in E. cbn [fst snd] in E.
    rewrite <- E. vm_compute. discriminate. }
  destruct (Hrun Hreport) as [start [prompt [rest [Hcalls [_ Hle]]]]].
  exists start, prompt, rest. split; [exact Hcalls|].
  change (List.length
            (firstn (Z.to_nat (max_articles sample_params))
               (sample_fetch "Acme" (days_back sample_params)))) with 3%nat in Hle.
  change (inject_Z (Z.of_nat 3)) with 3%Q in Hle. exact Hle.
Defined.

(** A run over the three articles, of which the second gives no judgment:
    the report counts two articles, and four calls were issued. *)
Lemma perform_analysis_witness :
  0 <= max_articles sample_params
  /\ exists info r w',
       perform_analysis MiniJson.loads fixed_stamp string
         sample_ticker sample_company_info sample_fetch
         sample_exception_text "Acme" sample_params 1700000000 0 mixed_service
       = ((info, Some r, None), w')
       /\ analyzed_articles r = 2
       /\ total_articles r = 2
       /\ List.length (calls w') = 4%nat.
Proof.
  assert (Hmax : 0 <= max_articles sample_params) by (simpl; lia).
  split; [exact Hmax|].
  pose proof (perform_analysis_outcomes MiniJson.loads fixed_stamp string
                sample_ticker sample_company_info sample_fetch
                sample_exception_text "Acme" sample_params 1700000000 0
                mixed_service Hmax) as Hrun.
  cbv zeta in Hrun.
  destruct (perform_analysis MiniJson.loads fixed_stamp string
              sample_ticker sample_company_info sample_fetch
              sample_exception_text "Acme" sample_params
              1700000000 0 mixed_service) as [[[info report] message] w'] eqn:E.
  destruct report as [r|].
  - destruct Hrun as [-> [_ [_ [Ha [Ht [_ [_ [_ Hcalls]]]]]]]].
    exists info, r, w'. split; [reflexivity|].
    assert (Hlen : List.length
                     (loop_judgments MiniJson.loads mixed_service 0
                        (firstn (Z.to_nat (max_articles sample_params))
                           (sample_fetch "Acme" (days_back sample_params))))
                   = 2%nat) by (vm_compute; reflexivity).
    rewrite Hlen in Ha, Ht. split; [exact Ha|]. split; [exact Ht|].
    apply (f_equal (@List.length string)) in Hcalls.
    rewrite length_map in Hcalls. rewrite Hcalls. reflexivity.
  - exfalso.
    apply (f_equal (fun x => snd (fst (fst x)))) in E. cbn [fst snd] in E.
    vm_compute in E. discriminate.
Defined.
